(** * Star-schema preparation of the agriculture data set

    A shallow embedding of the data-preparation scripts of the capstone
    repository:

    - [powerbi/powerbi_data_preparation.py], class [PowerBIDataPreprocessor]:
      [create_dimension_tables], [create_fact_table], [create_summary_tables],
      the yield column of [create_sample_agriculture_data],
      [load_cleaned_data], [export_for_powerbi], [create_data_model_docs]
      and [process_all];
    - [powerbi_setup.py]: the setup run and the guide it ends with;
    - the two cleaning scripts ("Data Cleaning and Filtering"): the column
      renaming, the numeric validation, the productivity column, the
      outlier detection and the duplicate removal.

    The scripts are written against pandas.  A data frame is modelled by its
    column labels and its rows of cells; each pandas operation the scripts call
    is a function on that model which returns either a value or the exception
    Python would raise.  Row labels (the index) are not modelled: every step
    below is positional ([reset_index(drop=True)], the assignment of a
    [range], the fresh index of a merge result).  Floating-point cells are
    IEEE binary64 values, the kernel's primitive floats, so arithmetic on
    them is the arithmetic Python performs. *)

From Stdlib Require Import String Ascii DecimalString.
From Stdlib Require Import Floats Uint63.
From Stdlib Require Import ZArith Bool Arith Lia.
From Stdlib Require Import List Permutation Sorted.
Import ListNotations.

Local Open Scope string_scope.
Local Open Scope list_scope.

Set Implicit Arguments.

(* ================================================================== *)
(** * Exceptions *)

Inductive exn : Type :=
| KeyError (label : string)
| TypeError
| ValueError
| ZeroDivisionError
| OSError       (* a file that cannot be written *)
| Unmodelled.   (* an input outside the dtypes this development covers *)

Inductive result (A : Type) : Type :=
| Ok (a : A)
| Raise (e : exn).

Arguments Ok {A} a.
Arguments Raise {A} e.

Definition bind {A B : Type} (m : result A) (k : A -> result B) : result B :=
  match m with
  | Ok a => k a
  | Raise e => Raise e
  end.

Notation "x <- m ;; k" := (bind m (fun x => k))
  (at level 61, m at next level, right associativity).

Fixpoint mapM {A B : Type} (f : A -> result B) (l : list A) : result (list B) :=
  match l with
  | [] => Ok []
  | a :: l' => b <- f a ;; bs <- mapM f l' ;; Ok (b :: bs)
  end.

(* ================================================================== *)
(** * Cells and the keys they are compared by *)

(** One cell of a data frame.  [CNone] is Python's [None] in an object
    column; the missing value of a float64 column is the float NaN. *)
Inductive cell : Type :=
| CNone
| CStr (s : string)
| CInt (z : Z)
| CFloat (f : float)
| CBool (b : bool).

(** pandas compares the cells of a key column through a hash table in which
    all missing values are one key and [0.0] equals [-0.0].  [cell_key]
    sends a cell to that key, so that two cells are the same key exactly when
    [drop_duplicates], [unique], [merge] and [groupby] treat them as equal.
    Columns are dtype-homogeneous, as in pandas. *)
Inductive key : Type :=
| KNull
| KStr (s : string)
| KInt (z : Z)
| KFloat (x : spec_float)
| KBool (b : bool).

Definition float_key (f : float) : key :=
  match Prim2SF f with
  | S754_nan => KNull
  | S754_zero _ => KFloat (S754_zero false)
  | x => KFloat x
  end.

Definition cell_key (c : cell) : key :=
  match c with
  | CNone => KNull
  | CStr s => KStr s
  | CInt z => KInt z
  | CFloat f => float_key f
  | CBool b => KBool b
  end.

Definition spec_float_eq_dec (x y : spec_float) : {x = y} + {x <> y}.
Proof. decide equality; auto using Bool.bool_dec, Pos.eq_dec, Z.eq_dec. Defined.

Definition key_eq_dec (x y : key) : {x = y} + {x <> y}.
Proof.
  decide equality;
    auto using Bool.bool_dec, Z.eq_dec, string_dec, spec_float_eq_dec.
Defined.

Definition key_eqb (x y : key) : bool := if key_eq_dec x y then true else false.

(** [pd.isna] *)
Definition isna (c : cell) : bool :=
  match cell_key c with
  | KNull => true
  | _ => false
  end.

Definition NaN : cell := CFloat PrimFloat.nan.

Definition row : Type := list cell.

Definition row_key (r : row) : list key := map cell_key r.

Definition row_key_eq_dec : forall x y : list key, {x = y} + {x <> y} :=
  list_eq_dec key_eq_dec.

(* ================================================================== *)
(** * Numbers *)

Definition wrap64 (z : Z) : Z := ((z + 2 ^ 63) mod 2 ^ 64 - 2 ^ 63)%Z.

(** int64 to float64 *)
Definition float_of_Z (z : Z) : float :=
  if (z <? 0)%Z then PrimFloat.opp (PrimFloat.of_uint63 (Uint63.of_Z (- z)))
  else PrimFloat.of_uint63 (Uint63.of_Z z).

(** [str(n)] for a Python integer *)
Definition str_of_Z (z : Z) : string := NilZero.string_of_int (Z.to_int z).

Definition two52 : float := 0x1p52%float.

(** C's [rint] in the default rounding mode (ties to even) *)
Definition rint (x : float) : float :=
  if PrimFloat.ltb (PrimFloat.abs x) two52 then
    if PrimFloat.eqb x 0%float then x
    else if PrimFloat.ltb x 0%float then
      PrimFloat.opp (PrimFloat.sub (PrimFloat.add (PrimFloat.opp x) two52) two52)
    else PrimFloat.sub (PrimFloat.add x two52) two52
  else x.

(** [numpy.round(x, 3)]: scale, round to an integer, scale back *)
Definition round3 (x : float) : float :=
  PrimFloat.div (rint (PrimFloat.mul x 1000%float)) 1000%float.

(* ================================================================== *)
(** * Data frames *)

Record DataFrame : Type := mkDataFrame {
  columns : list string;
  rows : list row
}.

(** [len(df)] *)
Definition len (df : DataFrame) : nat := length (rows df).

(** Every row has one cell per column. *)
Definition well_formed (df : DataFrame) : bool :=
  forallb (fun r => Nat.eqb (length r) (length (columns df))) (rows df).

(** [Index.get_loc] *)
Fixpoint get_loc (name : string) (cols : list string) : option nat :=
  match cols with
  | [] => None
  | c :: cs => if String.eqb name c then Some 0%nat
               else option_map S (get_loc name cs)
  end.

Definition loc (name : string) (cols : list string) : result nat :=
  match get_loc name cols with
  | Some i => Ok i
  | None => Raise (KeyError name)
  end.

Definition cell_at (i : nat) (r : row) : cell := nth i r CNone.

(** [df[name]]: the cells of one column *)
Definition getitem (df : DataFrame) (name : string) : result (list cell) :=
  i <- loc name (columns df) ;;
  Ok (map (cell_at i) (rows df)).

(** [df[[n1, n2, ...]]]: the sub-frame of the listed columns, in that order *)
Definition getitem_list (df : DataFrame) (names : list string) : result DataFrame :=
  idxs <- mapM (fun n => loc n (columns df)) names ;;
  Ok (mkDataFrame names (map (fun r => map (fun i => cell_at i r) idxs) (rows df))).

(** First occurrences, in order; [seen] plays the hash table. *)
Fixpoint first_seen {A : Type} (k : A -> list key) (seen : list (list key))
         (l : list A) : list A :=
  match l with
  | [] => []
  | a :: l' =>
      if in_dec row_key_eq_dec (k a) seen then first_seen k seen l'
      else a :: first_seen k (k a :: seen) l'
  end.

(** [df.drop_duplicates()] (keep="first") *)
Definition drop_duplicates (df : DataFrame) : DataFrame :=
  mkDataFrame (columns df) (first_seen row_key [] (rows df)).

(** [Series.unique()] *)
Definition unique (cs : list cell) : list cell :=
  first_seen (fun c => [cell_key c]) [] cs.

(** [df.reset_index(drop=True)]: row labels are not modelled *)
Definition reset_index_drop (df : DataFrame) : DataFrame := df.

Fixpoint replace_nth {A : Type} (i : nat) (x : A) (l : list A) : list A :=
  match l, i with
  | [], _ => []
  | _ :: t, O => x :: t
  | h :: t, S i' => h :: replace_nth i' x t
  end.

(** [df[name] = values] for a list-like of values: a length mismatch is a
    [ValueError]; an existing column is overwritten, a new one is appended. *)
Definition setitem (df : DataFrame) (name : string) (values : list cell)
  : result DataFrame :=
  if negb (Nat.eqb (length values) (len df)) then Raise ValueError
  else
    match get_loc name (columns df) with
    | Some i =>
        Ok (mkDataFrame (columns df)
              (map (fun rv => replace_nth i (snd rv) (fst rv))
                   (combine (rows df) values)))
    | None =>
        Ok (mkDataFrame (columns df ++ [name])
              (map (fun rv => fst rv ++ [snd rv]) (combine (rows df) values)))
    end.

(** [range(a, b)] as int64 cells *)
Definition range (a b : nat) : list cell :=
  map (fun n => CInt (Z.of_nat n)) (seq a (b - a)).

(** [pd.DataFrame(records)] for a list of dicts: the columns are the dict
    keys in order of first appearance, a key a record lacks is NaN.  An empty
    list gives a frame with no columns and no rows. *)
Fixpoint assoc {A : Type} (name : string) (d : list (string * A)) : option A :=
  match d with
  | [] => None
  | (n, v) :: d' => if String.eqb name n then Some v else assoc name d'
  end.

Fixpoint union_labels (seen : list string) (l : list string) : list string :=
  match l with
  | [] => []
  | n :: l' => if in_dec string_dec n seen then union_labels seen l'
               else n :: union_labels (n :: seen) l'
  end.

Definition DataFrame_of_records (recs : list (list (string * cell))) : DataFrame :=
  let cols := union_labels [] (flat_map (map fst) recs) in
  mkDataFrame cols
    (map (fun rec => map (fun c => match assoc c rec with
                                   | Some v => v
                                   | None => NaN
                                   end) cols) recs).

(* ================================================================== *)
(** * [DataFrame.merge(right, left_on=, right_on=, how="left")] *)

Definition is_number (c : cell) : bool :=
  match c with
  | CInt _ | CFloat _ => true
  | _ => false
  end.

Definition is_int (c : cell) : bool :=
  match c with
  | CInt _ => true
  | _ => false
  end.

Definition is_bool (c : cell) : bool :=
  match c with
  | CBool _ => true
  | _ => false
  end.

(** The dtype of a column, read off its cells: int64 or float64 when every
    cell is a number, bool when every cell is a boolean, object otherwise. *)
Definition number_dtype (cs : list cell) : bool := forallb is_number cs.
Definition bool_dtype (cs : list cell) : bool := forallb is_bool cs.
Definition object_dtype (cs : list cell) : bool :=
  negb (number_dtype cs) && negb (bool_dtype cs).

(** An object column that holds no integer is inferred as text. *)
Definition text_like (cs : list cell) : bool :=
  object_dtype cs && negb (existsb is_int cs).

(** pandas refuses to merge a text key column with a numeric one
    ("You are trying to merge on object and int64 columns"); the check is
    skipped when one side has no rows. *)
Definition merge_dtype_error (lk rk : list cell) : bool :=
  match lk, rk with
  | [], _ | _, [] => false
  | _, _ => (text_like lk && number_dtype rk) || (number_dtype lk && text_like rk)
  end.

Fixpoint remove_nth {A : Type} (i : nat) (l : list A) : list A :=
  match l, i with
  | [], _ => []
  | _ :: t, O => t
  | h :: t, S i' => h :: remove_nth i' t
  end.

Definition mem (s : string) (l : list string) : bool :=
  if in_dec string_dec s l then true else false.

(** A label present on both sides (the shared key apart) gets the suffixes
    [_x] and [_y]. *)
Definition suffixed (others : list string) (suffix : string) (c : string) : string :=
  if mem c others then c ++ suffix else c.

Definition merge (left right : DataFrame) (left_on right_on : string)
  : result DataFrame :=
  ri <- loc right_on (columns right) ;;
  li <- loc left_on (columns left) ;;
  if merge_dtype_error (map (cell_at li) (rows left)) (map (cell_at ri) (rows right))
  then Raise ValueError
  else
    let same := String.eqb left_on right_on in
    let rcols := if same then remove_nth ri (columns right) else columns right in
    let rcells := fun r : row => if same then remove_nth ri r else r in
    let joined :=
      flat_map
        (fun l : row =>
           match filter (fun r => key_eqb (cell_key (cell_at li l))
                                          (cell_key (cell_at ri r)))
                        (rows right) with
           | [] => [l ++ repeat NaN (length rcols)]
           | matches => map (fun r => l ++ rcells r) matches
           end)
        (rows left) in
    Ok (mkDataFrame
          (map (suffixed rcols "_x") (columns left)
             ++ map (suffixed (columns left) "_y") rcols)
          joined).

(* ================================================================== *)
(** * [PowerBIDataPreprocessor] *)

(** A Python dict with string keys, in insertion order. *)
Definition dict (A : Type) : Type := list (string * A).

Definition dict_get {A : Type} (d : dict A) (k : string) : result A :=
  match assoc k d with
  | Some v => Ok v
  | None => Raise (KeyError k)
  end.

(** [d[k] = v] *)
Fixpoint dict_set {A : Type} (d : dict A) (k : string) (v : A) : dict A :=
  match d with
  | [] => [(k, v)]
  | (k', v') :: d' => if String.eqb k k' then (k, v) :: d'
                      else (k', v') :: dict_set d' k v
  end.

(** Python's [sorted] on the values of a column.  Lists of at most one
    element are returned as they are (nothing is compared); integers and
    strings are ordered; [None] or a mix of strings and integers cannot be
    compared.  Two or more float or boolean years are not covered. *)
Fixpoint insert_sorted {A : Type} (le : A -> A -> bool) (x : A) (l : list A) : list A :=
  match l with
  | [] => [x]
  | y :: l' => if le x y then x :: l else y :: insert_sorted le x l'
  end.

Definition insertion_sort {A : Type} (le : A -> A -> bool) (l : list A) : list A :=
  fold_right (insert_sorted le) [] l.

Definition ints_of (cs : list cell) : option (list Z) :=
  fold_right (fun c acc => match c, acc with
                           | CInt z, Some l => Some (z :: l)
                           | _, _ => None
                           end) (Some []) cs.

Definition strs_of (cs : list cell) : option (list string) :=
  fold_right (fun c acc => match c, acc with
                           | CStr s, Some l => Some (s :: l)
                           | _, _ => None
                           end) (Some []) cs.

Definition sorted (cs : list cell) : result (list cell) :=
  match cs with
  | [] | [_] => Ok cs
  | _ =>
      match ints_of cs, strs_of cs with
      | Some zs, _ => Ok (map CInt (insertion_sort Z.leb zs))
      | _, Some ss => Ok (map CStr (insertion_sort String.leb ss))
      | None, None =>
          if existsb (fun c => match c with
                               | CFloat _ | CBool _ => true
                               | _ => false
                               end) cs
          then Raise Unmodelled
          else Raise TypeError
      end
  end.

(** One record of the date dimension, for the year [year]; [now_year] is
    [datetime.now().year].  A missing year of a float64 column is NaN:
    [year // 10 * 10] is NaN again, formatted as [nan], and [year == now]
    is false.  The other float years need the decimal form of a float and
    are not covered. *)
Definition date_record (now_year : Z) (year : cell)
  : result (list (string * cell)) :=
  match year with
  | CInt y =>
      Ok [ ("Date_ID", CInt y);
           ("Year", CInt y);
           ("Decade", CStr (str_of_Z (wrap64 (y / 10 * 10)) ++ "s"));
           ("IsCurrentYear", CBool (Z.eqb y now_year)) ]
  | CNone | CStr _ => Raise TypeError
  | CFloat _ =>
      if isna year
      then Ok [ ("Date_ID", year);
                ("Year", year);
                ("Decade", CStr "nans");
                ("IsCurrentYear", CBool false) ]
      else Raise Unmodelled
  | CBool _ => Raise Unmodelled
  end.

Definition create_dimension_tables (now_year : Z) (df : DataFrame)
  : result (dict DataFrame) :=
  let dimensions : dict DataFrame := [] in
  (* State Dimension *)
  state_dim <- getitem_list df ["State_Name"] ;;
  let state_dim := reset_index_drop (drop_duplicates state_dim) in
  state_dim <- setitem state_dim "State_ID" (range 1 (len state_dim + 1)) ;;
  state_dim <- getitem_list state_dim ["State_ID"; "State_Name"] ;;
  let dimensions := dict_set dimensions "states" state_dim in
  (* Crop Dimension *)
  crop_dim <- getitem_list df ["Crop"] ;;
  let crop_dim := reset_index_drop (drop_duplicates crop_dim) in
  crop_dim <- setitem crop_dim "Crop_ID" (range 1 (len crop_dim + 1)) ;;
  crop_dim <- getitem_list crop_dim ["Crop_ID"; "Crop"] ;;
  let dimensions := dict_set dimensions "crops" crop_dim in
  (* Season Dimension *)
  season_dim <- getitem_list df ["Season"] ;;
  let season_dim := reset_index_drop (drop_duplicates season_dim) in
  season_dim <- setitem season_dim "Season_ID" (range 1 (len season_dim + 1)) ;;
  season_dim <- getitem_list season_dim ["Season_ID"; "Season"] ;;
  let dimensions := dict_set dimensions "seasons" season_dim in
  (* Date Dimension *)
  crop_year <- getitem df "Crop_Year" ;;
  years <- sorted (unique crop_year) ;;
  date_data <- mapM (date_record now_year) years ;;
  let dimensions := dict_set dimensions "dates" (DataFrame_of_records date_data) in
  Ok dimensions.

Definition fact_columns : list string :=
  [ "State_ID"; "Crop_ID"; "Season_ID"; "Date_ID";
    "District_Name"; "Area_Hectares"; "Production_Tonnes";
    "Yield_Per_Hectare"; "Temperature_Avg"; "Rainfall_MM" ].

Definition create_fact_table (df : DataFrame) (dimensions : dict DataFrame)
  : result DataFrame :=
  let fact_df := df in
  (* Add foreign keys *)
  states <- dict_get dimensions "states" ;;
  fact_df <- merge fact_df states "State_Name" "State_Name" ;;
  crops <- dict_get dimensions "crops" ;;
  fact_df <- merge fact_df crops "Crop" "Crop" ;;
  seasons <- dict_get dimensions "seasons" ;;
  fact_df <- merge fact_df seasons "Season" "Season" ;;
  dates <- dict_get dimensions "dates" ;;
  fact_df <- merge fact_df dates "Crop_Year" "Year" ;;
  (* Select only fact table columns *)
  getitem_list fact_df fact_columns.

(** The columns [create_sample_agriculture_data] gives the source table. *)
Definition source_columns : list string :=
  [ "State_Name"; "District_Name"; "Crop_Year"; "Season"; "Crop";
    "Area_Hectares"; "Production_Tonnes"; "Yield_Per_Hectare";
    "Temperature_Avg"; "Rainfall_MM" ].

Definition sample_row (state district : string) (year : Z) (season crop : string)
           (area production yield_ temperature rainfall : float) : row :=
  [ CStr state; CStr district; CInt year; CStr season; CStr crop;
    CFloat area; CFloat production; CFloat yield_;
    CFloat temperature; CFloat rainfall ].

Definition demo : DataFrame :=
  mkDataFrame source_columns
    [ sample_row "Punjab" "District_1" 2019 "Rabi" "Wheat" 10 100 10 25 80;
      sample_row "Punjab" "District_2" 2018 "Kharif" "Rice" 20 200 10 26 90;
      sample_row "Gujarat" "District_3" 2019 "Kharif" "Cotton" 30 150 5 27 70 ].

Definition demo_empty : DataFrame := mkDataFrame source_columns [].

(* ------------------------------------------------------------------ *)
(** ** [create_summary_tables]: [groupby(...).agg(...)] *)

Local Open Scope float_scope.

Definition not_nan (x : float) : bool := PrimFloat.eqb x x.

(** A numeric column as float64 values.  Text cannot be averaged. *)
Definition as_floats (cs : list cell) : result (list float) :=
  mapM (fun c => match c with
                 | CInt z => Ok (float_of_Z z)
                 | CFloat f => Ok f
                 | CBool _ => Raise Unmodelled
                 | CNone | CStr _ => Raise TypeError
                 end) cs.

(** The groupby kernels for float64 values, missing values skipped:
    compensated (Kahan) summation for [sum] and [mean], Welford's update for
    the variance, with [ddof = 1]. *)
Definition kahan_step (acc : float * float) (val : float) : float * float :=
  let '(sumx, compensation) := acc in
  let y := val - compensation in
  let t := sumx + y in
  let c := t - sumx - y in
  (t, if not_nan c then c else 0).

Definition group_sum (vals : list float) : float :=
  fst (fold_left kahan_step (filter not_nan vals) (0, 0)).

Definition nobs (vals : list float) : nat := length (filter not_nan vals).

Definition group_mean (vals : list float) : float :=
  match nobs vals with
  | O => PrimFloat.nan
  | n => group_sum vals / float_of_Z (Z.of_nat n)
  end.

Definition welford_step (acc : nat * float * float) (val : float)
  : nat * float * float :=
  let '(n, mean, m2) := acc in
  let n' := S n in
  let mean' := mean + (val - mean) / float_of_Z (Z.of_nat n') in
  (n', mean', m2 + (val - mean') * (val - mean)).

Definition group_var (ddof : nat) (vals : list float) : float :=
  let '(n, _, m2) := fold_left welford_step (filter not_nan vals) (O, 0, 0) in
  if (n <=? ddof)%nat then PrimFloat.nan
  else m2 / float_of_Z (Z.of_nat (n - ddof)).

Definition group_std (vals : list float) : float :=
  PrimFloat.sqrt (group_var 1 vals).

Definition group_max (vals : list float) : float :=
  match filter not_nan vals with
  | [] => PrimFloat.nan
  | v :: vs => fold_left (fun m x => if PrimFloat.ltb m x then x else m) vs v
  end.

Local Close Scope float_scope.

(** [nunique]: the number of distinct values that are not missing *)
Definition nunique (cs : list cell) : Z :=
  Z.of_nat (length (unique (filter (fun c => negb (isna c)) cs))).

Inductive aggfn : Type := agg_sum | agg_mean | agg_std | agg_max | agg_nunique.

Definition int_value (c : cell) : Z :=
  match c with
  | CInt z => z
  | _ => 0%Z
  end.

(** One aggregate of the cells [cs] of a group; [int64] tells whether the
    whole column is int64.  An int64 column keeps int64 for [sum]
    (wrapping) and [max]; the other aggregates are float64. *)
Definition aggregate (f : aggfn) (int64 : bool) (cs : list cell) : result cell :=
  match f with
  | agg_nunique => Ok (CInt (nunique cs))
  | agg_sum =>
      if int64 then Ok (CInt (wrap64 (fold_left Z.add (map int_value cs) 0%Z)))
      else vs <- as_floats cs ;; Ok (CFloat (group_sum vs))
  | agg_max =>
      match int64, map int_value cs with
      | true, z :: zs => Ok (CInt (fold_left Z.max zs z))
      | _, _ => vs <- as_floats cs ;; Ok (CFloat (group_max vs))
      end
  | agg_mean => vs <- as_floats cs ;; Ok (CFloat (group_mean vs))
  | agg_std => vs <- as_floats cs ;; Ok (CFloat (group_std vs))
  end.

(** Whether the aggregate is defined on the column at all is decided on the
    whole column (its dtype), before any group is formed. *)
Definition check_dtype (f : aggfn) (cs : list cell) : result unit :=
  match f with
  | agg_nunique => Ok tt
  | _ => _ <- as_floats cs ;; Ok tt
  end.

(** The group keys: the distinct values of the key column that are not
    missing ([dropna=True], the default), in ascending order ([sort=True]). *)
Definition floats_of (cs : list cell) : option (list float) :=
  fold_right (fun c acc => match c, acc with
                           | CFloat f, Some l => Some (f :: l)
                           | _, _ => None
                           end) (Some []) cs.

Definition bools_of (cs : list cell) : option (list bool) :=
  fold_right (fun c acc => match c, acc with
                           | CBool b, Some l => Some (b :: l)
                           | _, _ => None
                           end) (Some []) cs.

Definition sort_keys (cs : list cell) : result (list cell) :=
  match ints_of cs, strs_of cs, floats_of cs, bools_of cs with
  | Some zs, _, _, _ => Ok (map CInt (insertion_sort Z.leb zs))
  | _, Some ss, _, _ => Ok (map CStr (insertion_sort String.leb ss))
  | _, _, Some fs, _ => Ok (map CFloat (insertion_sort PrimFloat.leb fs))
  | _, _, _, Some bs => Ok (map CBool (insertion_sort implb bs))
  | _, _, _, _ => Raise Unmodelled
  end.

Definition group_keys (cs : list cell) : result (list cell) :=
  sort_keys (unique (filter (fun c => negb (isna c)) cs)).

(** [df.groupby([by_]).agg(spec)].  The group key, which pandas keeps as the
    index of the result until [reset_index()], is the first column of the
    model; the other columns are labelled by the column they aggregate. *)
Definition groupby_agg (df : DataFrame) (by_ : string)
           (spec : list (string * aggfn)) : result DataFrame :=
  ki <- loc by_ (columns df) ;;
  idxs <- mapM (fun cf => i <- loc (fst cf) (columns df) ;; Ok (i, snd cf)) spec ;;
  _ <- mapM (fun ifn => check_dtype (snd ifn) (map (cell_at (fst ifn)) (rows df))) idxs ;;
  keys <- group_keys (map (cell_at ki) (rows df)) ;;
  out <- mapM (fun k =>
                 let group := filter (fun r => key_eqb (cell_key (cell_at ki r))
                                                       (cell_key k)) (rows df) in
                 vals <- mapM (fun ifn =>
                                 aggregate (snd ifn)
                                   (forallb is_int (map (cell_at (fst ifn)) (rows df)))
                                   (map (cell_at (fst ifn)) group)) idxs ;;
                 Ok (k :: vals)) keys ;;
  Ok (mkDataFrame (by_ :: map fst spec) out).

(** [.round(3)] on an aggregated frame: the float columns are rounded, the
    group key (the index) is not. *)
Definition round_cell (c : cell) : cell :=
  match c with
  | CFloat f => CFloat (round3 f)
  | _ => c
  end.

Definition round_3 (df : DataFrame) : DataFrame :=
  mkDataFrame (columns df)
    (map (fun r => match r with
                   | [] => []
                   | k :: vals => k :: map round_cell vals
                   end) (rows df)).

(** [df.columns = names] on an aggregated frame (the key is the index). *)
Definition set_columns (df : DataFrame) (names : list string) : result DataFrame :=
  match columns df with
  | [] => Raise ValueError
  | by_ :: old =>
      if Nat.eqb (length names) (length old)
      then Ok (mkDataFrame (by_ :: names) (rows df))
      else Raise ValueError
  end.

(** [df.reset_index()] on an aggregated frame: the key is already a column. *)
Definition reset_index (df : DataFrame) : DataFrame := df.

Definition create_summary_tables (df : DataFrame) : result (dict DataFrame) :=
  let summaries : dict DataFrame := [] in
  (* State-level summary *)
  state_summary <- groupby_agg df "State_Name"
      [ ("Area_Hectares", agg_sum); ("Area_Hectares", agg_mean);
        ("Production_Tonnes", agg_sum); ("Production_Tonnes", agg_mean);
        ("Yield_Per_Hectare", agg_mean); ("Yield_Per_Hectare", agg_std);
        ("Crop", agg_nunique) ] ;;
  let state_summary := round_3 state_summary in
  state_summary <- set_columns state_summary
      [ "Total_Area"; "Avg_Area"; "Total_Production"; "Avg_Production";
        "Avg_Yield"; "Yield_StdDev"; "Crop_Diversity" ] ;;
  let state_summary := reset_index state_summary in
  let summaries := dict_set summaries "state_summary" state_summary in
  (* Crop-level summary *)
  crop_summary <- groupby_agg df "Crop"
      [ ("Area_Hectares", agg_sum); ("Area_Hectares", agg_mean);
        ("Production_Tonnes", agg_sum); ("Production_Tonnes", agg_mean);
        ("Yield_Per_Hectare", agg_mean); ("Yield_Per_Hectare", agg_max);
        ("State_Name", agg_nunique) ] ;;
  let crop_summary := round_3 crop_summary in
  crop_summary <- set_columns crop_summary
      [ "Total_Area"; "Avg_Area"; "Total_Production"; "Avg_Production";
        "Avg_Yield"; "Max_Yield"; "States_Count" ] ;;
  let crop_summary := reset_index crop_summary in
  let summaries := dict_set summaries "crop_summary" crop_summary in
  (* Year-over-year trends *)
  yearly_trends <- groupby_agg df "Crop_Year"
      [ ("Area_Hectares", agg_sum); ("Production_Tonnes", agg_sum);
        ("Yield_Per_Hectare", agg_mean) ] ;;
  let yearly_trends := round_3 yearly_trends in
  let yearly_trends := reset_index yearly_trends in
  let summaries := dict_set summaries "yearly_trends" yearly_trends in
  Ok summaries.

(* ------------------------------------------------------------------ *)
(** ** Series arithmetic *)

Local Open Scope float_scope.

(** [series + x] for a float [x] *)
Definition series_add (cs : list cell) (x : float) : result (list cell) :=
  vs <- as_floats cs ;;
  Ok (map (fun v => CFloat (v + x)) vs).

(** [a / b] for two series of one frame (true division, element by
    element; a zero divisor gives an infinity or NaN, not an exception) *)
Definition series_div (a b : list cell) : result (list cell) :=
  xs <- as_floats a ;;
  ys <- as_floats b ;;
  Ok (map (fun xy => CFloat (fst xy / snd xy)) (combine xs ys)).

(** [Series.quantile(quarters / 4)]: missing values dropped, linear
    interpolation between the two nearest order statistics; NaN when no
    value is left. *)
Definition quantile (quarters : nat) (vals : list float) : float :=
  let xs := insertion_sort PrimFloat.leb (filter not_nan vals) in
  match xs with
  | [] => PrimFloat.nan
  | _ =>
      let n := length xs in
      let num := (quarters * (n - 1))%nat in
      let lo := (num / 4)%nat in
      let hi := Nat.min (lo + 1) (n - 1) in
      let t := float_of_Z (Z.of_nat (num mod 4)) / 4 in
      let a := nth lo xs 0 in
      let b := nth hi xs 0 in
      if PrimFloat.leb 0.5 t then b - (b - a) * (1 - t) else a + (b - a) * t
  end.

(** The 1.5 x IQR rule: the bounds, and which values fall outside them. *)
Definition iqr_bounds (vals : list float) : float * float :=
  let Q1 := quantile 1 vals in
  let Q3 := quantile 3 vals in
  let IQR := Q3 - Q1 in
  (Q1 - 1.5 * IQR, Q3 + 1.5 * IQR).

Definition outliers_mask (vals : list float) : list bool :=
  let '(lower_bound, upper_bound) := iqr_bounds vals in
  map (fun v => PrimFloat.ltb v lower_bound || PrimFloat.ltb upper_bound v) vals.

(** [df[mask]]: the rows the boolean mask selects, as a new frame *)
Definition boolean_index (df : DataFrame) (mask : list bool) : DataFrame :=
  mkDataFrame (columns df)
    (map fst (filter (fun rm => snd rm) (combine (rows df) mask))).

(** [df.loc[mask, name] = values]: the selected cells of the column take
    the values in order; their number must be the number selected. *)
Fixpoint assign_where (mask : list bool) (old values : list cell) : list cell :=
  match mask, old with
  | true :: m, _ :: o =>
      match values with
      | v :: vs => v :: assign_where m o vs
      | [] => old
      end
  | false :: m, c :: o => c :: assign_where m o values
  | _, _ => old
  end.

Definition loc_setitem (df : DataFrame) (mask : list bool) (name : string)
           (values : list cell) : result DataFrame :=
  old <- getitem df name ;;
  if Nat.eqb (length values) (length (filter (fun b => b) mask))
  then setitem df name (assign_where mask old values)
  else Raise ValueError.

(* ------------------------------------------------------------------ *)
(** ** The yield column of [create_sample_agriculture_data]

    The random draws are inputs: [data] is the frame of the drawn columns
    and [uniform k] stands for [np.random.uniform(5, 15, k)]. *)

Definition sample_yield (uniform : nat -> list float) (data : DataFrame)
  : result DataFrame :=
  (* Calculate yield *)
  production <- getitem data "Production_Tonnes" ;;
  area <- getitem data "Area_Hectares" ;;
  quotient <- series_div production area ;;
  df <- setitem data "Yield_Per_Hectare" (map round_cell quotient) ;;
  (* Add some realistic constraints *)
  yield_ <- getitem df "Yield_Per_Hectare" ;;
  ys <- as_floats yield_ ;;
  let mask := map (fun y => PrimFloat.ltb 20 y) ys in
  loc_setitem df mask "Yield_Per_Hectare"
    (map CFloat (uniform (length (filter (fun b => b) mask)))).

Local Close Scope float_scope.

(* ================================================================== *)
(** * The cleaning scripts

    Each script runs top to bottom over global variables, inside one
    [try] block.  A step is a function from the globals to an outcome and
    the globals it leaves; an exception leaves the globals as they were
    when it was raised.  Console output is not modelled. *)

Section Script.

Variable globals : Type.

Definition script (A : Type) : Type := globals -> result A * globals.

Definition ret {A : Type} (a : A) : script A := fun g => (Ok a, g).

Definition lift {A : Type} (r : result A) : script A := fun g => (r, g).

Definition seq_bind {A B : Type} (m : script A) (k : A -> script B) : script B :=
  fun g => match m g with
           | (Ok a, g') => k a g'
           | (Raise e, g') => (Raise e, g')
           end.

(** [for x in l: body] *)
Fixpoint for_each {A : Type} (l : list A) (body : A -> script unit) : script unit :=
  match l with
  | [] => ret tt
  | a :: l' => seq_bind (body a) (fun _ => for_each l' body)
  end.

End Script.

Arguments ret {globals A} a.
Arguments lift {globals A} r.

Notation "x <~ m ;; k" := (seq_bind m (fun x => k))
  (at level 61, m at next level, right associativity).

Local Open Scope float_scope.

(** ** "Data Cleaning and Filtering - Indian Agriculture Dataset" *)
Module Cleaning.

Record globals : Type := mkGlobals {
  df : DataFrame;
  outlier_summary : dict Z
}.

Definition get_df : script globals DataFrame := fun g => (Ok (df g), g).

Definition set_df (d : DataFrame) : script globals unit :=
  fun g => (Ok tt, mkGlobals d (outlier_summary g)).

Definition get_outlier_summary : script globals (dict Z) :=
  fun g => (Ok (outlier_summary g), g).

Definition set_outlier_summary (s : dict Z) : script globals unit :=
  fun g => (Ok tt, mkGlobals (df g) s).

(** The literal [0.001], as the binary64 value Python reads it. *)
Definition small_value : float := 0x1.0624dd2f1a9fcp-10.

(** STEP 5, last block: "Calculate and validate productivity" *)
Definition calculate_productivity : script globals unit :=
  d <~ get_df ;;
  if mem "Area" (columns d) && mem "Production" (columns d) then
    (* Avoid division by zero: add small value *)
    production <~ lift (getitem d "Production") ;;
    area <~ lift (getitem d "Area") ;;
    shifted <~ lift (series_add area small_value) ;;
    quotient <~ lift (series_div production shifted) ;;
    d' <~ lift (setitem d "Productivity" quotient) ;;
    set_df d'
  else ret tt.

(** STEP 6: outlier detection *)
Definition outlier_detection : script globals unit :=
  d <~ get_df ;;
  let numerical_cols :=
    filter (fun col => mem col (columns d)) ["Area"; "Production"; "Productivity"] in
  _ <~ set_outlier_summary [] ;;
  for_each numerical_cols (fun col =>
    d <~ get_df ;;
    column <~ lift (getitem d col) ;;
    vals <~ lift (as_floats column) ;;
    (* IQR method *)
    let outlier_count := length (filter (fun b => b) (outliers_mask vals)) in
    if (0 <? outlier_count)%nat then
      s <~ get_outlier_summary ;;
      set_outlier_summary (dict_set s col (Z.of_nat outlier_count))
      (* Keeping outliers - may represent valid agricultural variations *)
    else ret tt).

End Cleaning.

(** ** "Data Cleaning and Filtering - India Dataset" (Untitled-1.py) *)
Module Untitled1.

Record outlier_info : Type := mkInfo {
  count : Z;
  percentage : float;
  lower_bound : float;
  upper_bound : float
}.

Record globals : Type := mkGlobals {
  df : DataFrame;
  outlier_summary : dict outlier_info
}.

Definition get_df : script globals DataFrame := fun g => (Ok (df g), g).

Definition get_outlier_summary : script globals (dict outlier_info) :=
  fun g => (Ok (outlier_summary g), g).

Definition set_outlier_summary (s : dict outlier_info) : script globals unit :=
  fun g => (Ok tt, mkGlobals (df g) s).

(** [df.select_dtypes(include=[np.number]).columns]; a column's dtype is
    read off its cells. *)
Definition select_number_columns (d : DataFrame) : list string :=
  map fst
    (filter (fun ci => number_dtype (map (cell_at (snd ci)) (rows d)))
            (combine (columns d) (seq 0 (length (columns d))))).

(** [a / b] on Python integers *)
Definition true_div (a b : Z) : result float :=
  if Z.eqb b 0 then Raise ZeroDivisionError
  else Ok (float_of_Z a / float_of_Z b).

(** STEP 4: outlier detection *)
Definition outlier_detection : script globals unit :=
  d <~ get_df ;;
  let numerical_cols := select_number_columns d in
  if (0 <? length numerical_cols)%nat then
    _ <~ set_outlier_summary [] ;;
    for_each numerical_cols (fun col =>
      d <~ get_df ;;
      column <~ lift (getitem d col) ;;
      vals <~ lift (as_floats column) ;;
      (* Use IQR method for outlier detection *)
      let '(lo, hi) := iqr_bounds vals in
      (* Count outliers *)
      let outliers := boolean_index d (outliers_mask vals) in
      let outlier_count := Z.of_nat (len outliers) in
      ratio <~ lift (true_div outlier_count (Z.of_nat (len d))) ;;
      let outlier_pct := ratio * 100 in
      s <~ get_outlier_summary ;;
      set_outlier_summary
        (dict_set s col (mkInfo outlier_count outlier_pct lo hi)))
    (* OUTLIER TREATMENT: reported only; the clip is commented out *)
  else ret tt.

End Untitled1.

Local Close Scope float_scope.

Definition cleaning_demo : DataFrame :=
  mkDataFrame ["State_Name"; "Area"; "Production"]
    [ [CStr "Punjab"; CFloat 10; CFloat 100];
      [CStr "Punjab"; CFloat 11; CFloat 110];
      [CStr "Gujarat"; CFloat 12; CFloat 120];
      [CStr "Gujarat"; CFloat 13; CFloat 130];
      [CStr "Kerala"; CFloat 0; CFloat 100];
      [CStr "Kerala"; CFloat 1000; CFloat 140] ].

(* ================================================================== *)
(** * The column contract of the source table

    The source table carries the columns of [source_columns], none of the
    labels the dimension tables add, text (or missing) states, crops and
    seasons, and int64 years. *)

Definition is_text (c : cell) : bool :=
  match c with
  | CNone | CStr _ => true
  | _ => false
  end.

Definition column_all (p : cell -> bool) (name : string) (df : DataFrame) : bool :=
  match get_loc name (columns df) with
  | Some i => forallb (fun r => p (cell_at i r)) (rows df)
  | None => false
  end.

Definition reserved_columns : list string :=
  [ "State_ID"; "Crop_ID"; "Season_ID"; "Date_ID"; "Year"; "Decade";
    "IsCurrentYear" ].

Fixpoint nodupb (l : list string) : bool :=
  match l with
  | [] => true
  | x :: t => negb (mem x t) && nodupb t
  end.

Definition source_contract (df : DataFrame) : bool :=
  well_formed df
  && nodupb (columns df)
  && forallb (fun n => mem n (columns df)) source_columns
  && forallb (fun n => negb (mem n (columns df))) reserved_columns
  && column_all is_text "State_Name" df
  && column_all is_text "Crop" df
  && column_all is_text "Season" df
  && column_all is_int "Crop_Year" df.

(** The rows of a surrogate-key dimension over the distinct values [cs]:
    identifier first, natural key second. *)
Definition dim_rows (cs : list cell) : list row :=
  map (fun cv => [snd cv; fst cv]) (combine cs (range 1 (length cs + 1))).

Definition date_row (now_year : Z) (y : Z) : row :=
  [ CInt y; CInt y; CStr (str_of_Z (wrap64 (y / 10 * 10)) ++ "s");
    CBool (Z.eqb y now_year) ].

(** Position of the first occurrence of [k] in [l] ([length l] if none). *)
Fixpoint first_pos (k : key) (l : list key) : nat :=
  match l with
  | [] => O
  | x :: l' => if key_eq_dec k x then O else S (first_pos k l')
  end.

(* ================================================================== *)
(** * More sample tables *)

(** Two source rows whose state, crop, season and year do not occur in
    [demo], and one that does. *)
Definition demo_other : DataFrame :=
  mkDataFrame source_columns
    [ sample_row "Kerala" "District_9" 2021 "Summer" "Maize" 5 50 10 28 120;
      sample_row "Punjab" "District_1" 2019 "Rabi" "Wheat" 10 100 10 25 80;
      sample_row "Kerala" "District_7" 2021 "Summer" "Maize" 8 40 5 29 110 ].

(** A source table without the [Season] column. *)
Definition demo_no_season : DataFrame :=
  mkDataFrame
    [ "State_Name"; "District_Name"; "Crop_Year"; "Crop";
      "Area_Hectares"; "Production_Tonnes"; "Yield_Per_Hectare";
      "Temperature_Avg"; "Rainfall_MM" ]
    [ [ CStr "Punjab"; CStr "District_1"; CInt 2019; CStr "Wheat";
        CFloat 10; CFloat 100; CFloat 10; CFloat 25; CFloat 80 ] ].

(** A source table in which the first and third rows have no state. *)
Definition demo_null_state : DataFrame :=
  mkDataFrame source_columns
    [ [ CNone; CStr "District_1"; CInt 2019; CStr "Rabi"; CStr "Wheat";
        CFloat 10; CFloat 100; CFloat 10; CFloat 25; CFloat 80 ];
      sample_row "Punjab" "District_2" 2018 "Kharif" "Rice" 20 200 10 26 90;
      [ CNone; CStr "District_3"; CInt 2019; CStr "Kharif"; CStr "Cotton";
        CFloat 30; CFloat 150; CFloat 5; CFloat 27; CFloat 70 ] ].

(** A source table of one row, whose year is missing: the [Crop_Year]
    column is float64 and holds NaN. *)
Definition demo_missing_year : DataFrame :=
  mkDataFrame source_columns
    [ [ CStr "Punjab"; CStr "District_1"; NaN; CStr "Rabi"; CStr "Wheat";
        CFloat 10; CFloat 100; CFloat 10; CFloat 25; CFloat 80 ] ].

(** States A, A, B with areas 10, 20, 30 and productions 100, 200, 150;
    the yields are arbitrary. *)
Definition synthetic (y1 y2 y3 : float) : DataFrame :=
  mkDataFrame
    [ "State_Name"; "Crop"; "Crop_Year"; "Area_Hectares"; "Production_Tonnes";
      "Yield_Per_Hectare" ]
    [ [ CStr "A"; CStr "Rice"; CInt 2020; CFloat 10; CFloat 100; CFloat y1 ];
      [ CStr "A"; CStr "Wheat"; CInt 2021; CFloat 20; CFloat 200; CFloat y2 ];
      [ CStr "B"; CStr "Rice"; CInt 2020; CFloat 30; CFloat 150; CFloat y3 ] ].

(** The same table with the areas and productions as Python integers. *)
Definition synthetic_int (y1 y2 y3 : float) : DataFrame :=
  mkDataFrame
    [ "State_Name"; "Crop"; "Crop_Year"; "Area_Hectares"; "Production_Tonnes";
      "Yield_Per_Hectare" ]
    [ [ CStr "A"; CStr "Rice"; CInt 2020; CInt 10; CInt 100; CFloat y1 ];
      [ CStr "A"; CStr "Wheat"; CInt 2021; CInt 20; CInt 200; CFloat y2 ];
      [ CStr "B"; CStr "Rice"; CInt 2020; CInt 30; CInt 150; CFloat y3 ] ].

(** Three drawn rows for [sample_yield]: area 0 with production 100, area
    30 with production 100, area 0 with production 0. *)
Definition sample_data : DataFrame :=
  mkDataFrame source_columns
    [ [ CStr "Punjab"; CStr "District_1"; CInt 2019; CStr "Rabi"; CStr "Wheat";
        CFloat 0; CFloat 100; CNone; CFloat 25; CFloat 80 ];
      [ CStr "Punjab"; CStr "District_2"; CInt 2019; CStr "Rabi"; CStr "Wheat";
        CFloat 30; CFloat 100; CNone; CFloat 25; CFloat 80 ];
      [ CStr "Punjab"; CStr "District_3"; CInt 2019; CStr "Rabi"; CStr "Wheat";
        CFloat 0; CFloat 0; CNone; CFloat 25; CFloat 80 ] ].

(* ================================================================== *)
(** * Vocabulary: the dimension tables *)

(** The four statements that build one surrogate-key dimension. *)
Definition surrogate_dimension (df : DataFrame) (col idn : string) : result DataFrame :=
  d <- getitem_list df [col] ;;
  let d := reset_index_drop (drop_duplicates d) in
  d <- setitem d idn (range 1 (len d + 1)) ;;
  getitem_list d [idn; col].

(** The years of the date dimension: the distinct years, ascending. *)
Definition sorted_years (cs : list cell) : list Z :=
  insertion_sort Z.leb (map int_value (unique cs)).

Definition date_columns : list string :=
  [ "Date_ID"; "Year"; "Decade"; "IsCurrentYear" ].

Definition dates_dimension (now_year : Z) (ys : list Z) : DataFrame :=
  mkDataFrame (match ys with [] => [] | _ => date_columns end)
              (map (date_row now_year) ys).

(** The cells of a column ([[]] for a label the frame lacks). *)
Definition column_cells (name : string) (df : DataFrame) : list cell :=
  match get_loc name (columns df) with
  | Some i => map (cell_at i) (rows df)
  | None => []
  end.

(** What the Dimension Builder needs of its input: the four key columns,
    and int64 years. *)
Definition dimension_contract (df : DataFrame) : bool :=
  nodupb (columns df)
  && forallb (fun n => mem n (columns df)) ["State_Name"; "Crop"; "Season"; "Crop_Year"]
  && column_all is_int "Crop_Year" df.

Definition surrogate_table (df : DataFrame) (col idn : string) : DataFrame :=
  mkDataFrame [idn; col] (dim_rows (unique (column_cells col df))).

Definition dimensions_of (now_year : Z) (df : DataFrame) : dict DataFrame :=
  [ ("states", surrogate_table df "State_Name" "State_ID");
    ("crops", surrogate_table df "Crop" "Crop_ID");
    ("seasons", surrogate_table df "Season" "Season_ID");
    ("dates", dates_dimension now_year (sorted_years (column_cells "Crop_Year" df))) ].

Definition dimension_source_columns : list string :=
  [ "State_Name"; "Crop"; "Season"; "Crop_Year" ].

(** A dimension over the values [source] of a column: the identifiers are
    1..n down the rows, the natural keys are the distinct values of
    [source], each once, in order of first appearance. *)
Definition first_seen_dimension (source : list cell) (idn col : string)
           (d : DataFrame) : Prop :=
  columns d = [idn; col]
  /\ getitem d idn = Ok (range 1 (len d + 1))
  /\ exists keys,
       getitem d col = Ok keys
       /\ NoDup (map cell_key keys)
       /\ (forall k, In k (map cell_key keys) <-> In k (map cell_key source))
       /\ (forall i j, (i < j)%nat -> (j < length keys)%nat ->
             (first_pos (cell_key (nth i keys CNone)) (map cell_key source)
              < first_pos (cell_key (nth j keys CNone)) (map cell_key source))%nat).

(** The date dimension over the years [source]: one row per distinct year,
    in ascending order of the year, and the year itself as [Date_ID]. *)
Definition year_dimension (now_year : Z) (source : list cell) (d : DataFrame) : Prop :=
  exists ys,
    rows d = map (fun y => [ CInt y; CInt y;
                             CStr (str_of_Z (wrap64 (y / 10 * 10)) ++ "s");
                             CBool (Z.eqb y now_year) ]) ys
    /\ columns d = match ys with [] => [] | _ => date_columns end
    /\ StronglySorted Z.lt ys
    /\ (forall y, In y ys <-> In (CInt y) source).

(* ================================================================== *)
(** * Vocabulary: the fact table *)

(** The row of [rs] whose cell [ri] has key [k], if any. *)
Definition lookup (ri : nat) (rs : list row) (k : key) : option row :=
  find (fun r => key_eqb k (cell_key (cell_at ri r))) rs.

(** The cells a left merge appends to the left row with key [k]. *)
Definition joined_cells (same : bool) (ri width : nat) (rs : list row) (k : key) : row :=
  match lookup ri rs k with
  | Some r => if same then remove_nth ri r else r
  | None => repeat NaN width
  end.

Definition right_labels (left_on right_on : string) (ri : nat) (right : DataFrame)
  : list string :=
  if String.eqb left_on right_on then remove_nth ri (columns right)
  else columns right.

(** The cell of row [l] of frame [df] under the label [name]. *)
Definition field (name : string) (df : DataFrame) (l : row) : cell :=
  match get_loc name (columns df) with
  | Some i => cell_at i l
  | None => CNone
  end.

(** The identifier a surrogate-key dimension over [u] gives the key [k]:
    NaN when the dimension has no such key. *)
Definition surrogate_id (u : list cell) (k : key) : cell :=
  match lookup 1 (dim_rows u) k with
  | Some r => cell_at 0 r
  | None => NaN
  end.

Definition date_id (now_year : Z) (ys : list Z) (k : key) : cell :=
  match lookup 1 (map (date_row now_year) ys) k with
  | Some r => cell_at 0 r
  | None => NaN
  end.

Definition fact_row (now_year : Z) (df0 df : DataFrame) (l : row) : row :=
  [ surrogate_id (unique (column_cells "State_Name" df0))
                 (cell_key (field "State_Name" df l));
    surrogate_id (unique (column_cells "Crop" df0))
                 (cell_key (field "Crop" df l));
    surrogate_id (unique (column_cells "Season" df0))
                 (cell_key (field "Season" df l));
    date_id now_year (sorted_years (column_cells "Crop_Year" df0))
            (cell_key (field "Crop_Year" df l));
    field "District_Name" df l;
    field "Area_Hectares" df l;
    field "Production_Tonnes" df l;
    field "Yield_Per_Hectare" df l;
    field "Temperature_Avg" df l;
    field "Rainfall_MM" df l ].

(** The fact table of [df] against the dimensions built from [df0]. *)
Definition fact_table (now_year : Z) (df0 df : DataFrame) : DataFrame :=
  mkDataFrame fact_columns (map (fact_row now_year df0 df) (rows df)).

(** The whole pipeline step: dimensions of [df0], then the fact table of [df]. *)
Definition build_fact_table (now_year : Z) (df0 df : DataFrame) : result DataFrame :=
  dimensions <- create_dimension_tables now_year df0 ;;
  create_fact_table df dimensions.

Definition id_columns : list string :=
  [ "State_ID"; "Crop_ID"; "Season_ID"; "Date_ID" ].

(* ================================================================== *)
(** * Vocabulary: the round trip *)

(** One axis of the star schema: the dimension, the source column it is
    built from, its identifier column and its natural-key column. *)
Record axis : Type := mkAxis {
  dimension : string;
  source_column : string;
  id_column : string;
  natural_key : string
}.

Definition axes : list axis :=
  [ mkAxis "states" "State_Name" "State_ID" "State_Name";
    mkAxis "crops" "Crop" "Crop_ID" "Crop";
    mkAxis "seasons" "Season" "Season_ID" "Season";
    mkAxis "dates" "Crop_Year" "Date_ID" "Year" ].

(** Joining the fact table back to the dimension [dim] on the identifier
    gives, on every row whose key is in the dimension, the natural key the
    source row has. *)
Definition round_trip (df fact dim : DataFrame) (ax : axis) : Prop :=
  exists back source keys recovered,
    merge fact dim (id_column ax) (id_column ax) = Ok back
    /\ getitem df (source_column ax) = Ok source
    /\ getitem dim (natural_key ax) = Ok keys
    /\ getitem back (natural_key ax) = Ok recovered
    /\ length recovered = length source
    /\ forall i, (i < length source)%nat ->
         In (cell_key (nth i source CNone)) (map cell_key keys) ->
         nth i recovered CNone = nth i source CNone.

(** The natural key found again through the identifier. *)
Definition recovered_key (u : list cell) (k : key) : cell :=
  match lookup 0 (dim_rows u) (cell_key (surrogate_id u k)) with
  | Some r => cell_at 1 r
  | None => NaN
  end.

(** The year found again through [Date_ID]. *)
Definition recovered_year (now_year : Z) (ys : list Z) (k : key) : cell :=
  cell_at 0 (joined_cells true 0 3 (map (date_row now_year) ys)
                          (cell_key (date_id now_year ys k))).

(* ================================================================== *)
(** * Vocabulary: the summaries *)

(** The rows of [df] in the group of key [k]. *)
Definition group_of (df : DataFrame) (ki : nat) (k : cell) : list row :=
  filter (fun r => key_eqb (cell_key (cell_at ki r)) (cell_key k)) (rows df).

Definition is_float (c : cell) : bool :=
  match c with
  | CFloat _ => true
  | _ => false
  end.

Definition is_str (c : cell) : bool :=
  match c with
  | CStr _ => true
  | _ => false
  end.

Definition key_column_ok (cs : list cell) : bool :=
  forallb is_text cs || forallb is_int cs || forallb is_float cs.

Definition summary_contract (df : DataFrame) : bool :=
  nodupb (columns df)
  && column_all is_text "State_Name" df
  && column_all is_text "Crop" df
  && (column_all is_int "Crop_Year" df || column_all is_float "Crop_Year" df)
  && column_all is_number "Area_Hectares" df
  && column_all is_number "Production_Tonnes" df
  && column_all is_number "Yield_Per_Hectare" df.

Definition str_value (c : cell) : string :=
  match c with
  | CStr s => s
  | _ => EmptyString
  end.

Definition float_value (c : cell) : float :=
  match c with
  | CFloat f => f
  | _ => 0%float
  end.

(** What an aggregation asks of the column at position [fst ifn]. *)
Definition aggregable (df : DataFrame) (ifn : nat * aggfn) : Prop :=
  snd ifn = agg_nunique
  \/ forallb is_number (map (cell_at (fst ifn)) (rows df)) = true.

Definition state_spec : list (string * aggfn) :=
  [ ("Area_Hectares", agg_sum); ("Area_Hectares", agg_mean);
    ("Production_Tonnes", agg_sum); ("Production_Tonnes", agg_mean);
    ("Yield_Per_Hectare", agg_mean); ("Yield_Per_Hectare", agg_std);
    ("Crop", agg_nunique) ].

Definition crop_spec : list (string * aggfn) :=
  [ ("Area_Hectares", agg_sum); ("Area_Hectares", agg_mean);
    ("Production_Tonnes", agg_sum); ("Production_Tonnes", agg_mean);
    ("Yield_Per_Hectare", agg_mean); ("Yield_Per_Hectare", agg_max);
    ("State_Name", agg_nunique) ].

Definition year_spec : list (string * aggfn) :=
  [ ("Area_Hectares", agg_sum); ("Production_Tonnes", agg_sum);
    ("Yield_Per_Hectare", agg_mean) ].

Definition state_summary_columns : list string :=
  [ "State_Name"; "Total_Area"; "Avg_Area"; "Total_Production";
    "Avg_Production"; "Avg_Yield"; "Yield_StdDev"; "Crop_Diversity" ].

Definition crop_summary_columns : list string :=
  [ "Crop"; "Total_Area"; "Avg_Area"; "Total_Production"; "Avg_Production";
    "Avg_Yield"; "Max_Yield"; "States_Count" ].

(** [keys] are the group keys over the column [source]: each distinct
    value of [source] that is not missing, once; no key is missing. *)
Definition groups_of_present_keys (source keys : list cell) : Prop :=
  NoDup (map cell_key keys)
  /\ (forall c, In c keys -> isna c = false)
  /\ (forall k, In k (map cell_key keys) <-> k <> KNull /\ In k (map cell_key source)).

Definition summary_axes : list (string * string) :=
  [ ("state_summary", "State_Name"); ("crop_summary", "Crop");
    ("yearly_trends", "Crop_Year") ].

Definition state_totals (df : DataFrame) : result DataFrame :=
  summaries <- create_summary_tables df ;;
  state_summary <- dict_get summaries "state_summary" ;;
  getitem_list state_summary
    [ "State_Name"; "Total_Area"; "Avg_Area"; "Total_Production"; "Avg_Production" ].

(* ================================================================== *)
(** * Vocabulary: the cleaning scripts *)

(** A step that leaves the table as it found it, whatever its outcome. *)
Definition keeps_table {globals A : Type} (table : globals -> DataFrame)
           (m : script globals A) : Prop :=
  forall g, table (snd (m g)) = table g.

(** The productivity of one row. *)
Definition productivity (production area : float) : float :=
  PrimFloat.div production (PrimFloat.add area Cleaning.small_value).

(* ================================================================== *)
(** * Vocabulary: more on the fact table *)

(** The columns the fact table takes over from the source table. *)
Definition measure_columns : list string :=
  [ "District_Name"; "Area_Hectares"; "Production_Tonnes";
    "Yield_Per_Hectare"; "Temperature_Avg"; "Rainfall_MM" ].

(** On the rows of [df], the identifier column [ids] of a fact table is
    missing exactly where the natural key of the row does not occur in the
    table [df0] the dimension was built from. *)
Definition null_where_unmatched (df0 df fact : DataFrame) (ax : axis) : Prop :=
  exists ids source source0,
    getitem fact (id_column ax) = Ok ids
    /\ getitem df (source_column ax) = Ok source
    /\ getitem df0 (source_column ax) = Ok source0
    /\ length ids = length source
    /\ forall i, (i < length source)%nat ->
         (isna (nth i ids CNone) = true
          <-> ~ In (cell_key (nth i source CNone)) (map cell_key source0)).

(* ================================================================== *)
(** * Vocabulary: more on the dimension tables *)

(** The number of [True] cells. *)
Definition count_true (cs : list cell) : nat :=
  length (filter (fun c => match c with CBool true => true | _ => false end) cs).

(** The dimensions of a table that has the key columns and no row. *)
Definition empty_dimensions : dict DataFrame :=
  [ ("states", mkDataFrame ["State_ID"; "State_Name"] []);
    ("crops", mkDataFrame ["Crop_ID"; "Crop"] []);
    ("seasons", mkDataFrame ["Season_ID"; "Season"] []);
    ("dates", mkDataFrame [] []) ].

(* ================================================================== *)
(** * Vocabulary: more on the summaries *)

Definition yearly_trends_columns : list string :=
  [ "Crop_Year"; "Area_Hectares"; "Production_Tonnes"; "Yield_Per_Hectare" ].

(** The order of the group keys: text by code points, integers by value. *)
Definition key_lt (a b : cell) : Prop :=
  match a, b with
  | CStr s, CStr t => String.compare s t = Lt
  | CInt x, CInt y => (x < y)%Z
  | _, _ => False
  end.

(** A summary table: the given labels, and one cell per label in every row. *)
Definition summary_shape (labels : list string) (s : DataFrame) : Prop :=
  columns s = labels /\ well_formed s = true.

(* ================================================================== *)
(** * Vocabulary: the sample generator *)

(** A yield cell within the cap of the sample generator. *)
Definition capped (c : cell) : Prop :=
  exists y, c = CFloat y /\ PrimFloat.ltb 20 y = false.

(* ================================================================== *)
(** * The cleaning script, STEP 6: what the outlier summary records *)

(** The number of values of the column [col] that lie outside the IQR
    bounds of the column. *)
Definition outliers_of (d : DataFrame) (col : string) : result nat :=
  column <- getitem d col ;;
  vals <- as_floats column ;;
  Ok (length (filter (fun b => b) (outliers_mask vals))).

(* ================================================================== *)
(** * The cleaning script, STEP 2: standardize column names *)

(** [df.rename(columns={old_name: new_name}, inplace=True)] *)
Definition rename (df : DataFrame) (old_name new_name : string) : DataFrame :=
  mkDataFrame (map (fun c => if String.eqb c old_name then new_name else c) (columns df))
              (rows df).

Definition column_mapping : dict string :=
  [ ("State_Name", "State_Name"); ("State", "State_Name"); ("state", "State_Name");
    ("District_Name", "District_Name"); ("District", "District_Name");
    ("district", "District_Name");
    ("Crop_Year", "Crop_Year"); ("Year", "Crop_Year"); ("year", "Crop_Year");
    ("Season", "Season"); ("season", "Season");
    ("Crop", "Crop"); ("crop", "Crop");
    ("Area", "Area"); ("area", "Area"); ("Area_hectares", "Area");
    ("Production", "Production"); ("production", "Production");
    ("Production_tonnes", "Production") ].

Definition standardize_column_names : script Cleaning.globals unit :=
  for_each column_mapping (fun item =>
    let '(old_name, new_name) := item in
    d <~ Cleaning.get_df ;;
    if mem old_name (columns d) && negb (String.eqb old_name new_name) then
      Cleaning.set_df (rename d old_name new_name)
    else ret tt).

(** The label the mapping gives a column. *)
Definition standard_name (c : string) : string :=
  match assoc c column_mapping with
  | Some n => n
  | None => c
  end.

(** The spellings the mapping replaces. *)
Definition aliases : list string :=
  map fst (filter (fun item => negb (String.eqb (fst item) (snd item))) column_mapping).

(** One renaming, on one label. *)
Definition rename_label (c : string) (item : string * string) : string :=
  if String.eqb c (fst item) then snd item else c.

(** No new name of the mapping is renamed again. *)
Definition targets_fixed (l : dict string) : bool :=
  forallb (fun a => forallb (fun b => negb (String.eqb (snd a) (fst b))
                                      || String.eqb (snd b) (snd a)) l) l.

(* ================================================================== *)
(** * The cleaning script, STEP 5: validate and clean numerical data *)

(** [series < 0], one cell: numbers are compared, text and [None] cannot be. *)
Definition lt_zero (c : cell) : result bool :=
  match c with
  | CInt z => Ok (z <? 0)%Z
  | CFloat f => Ok (PrimFloat.ltb f 0%float)
  | CBool _ => Raise Unmodelled
  | CNone | CStr _ => Raise TypeError
  end.

(** [series.abs()], one cell; int64 wraps, so the least int64 keeps its sign. *)
Definition abs_cell (c : cell) : result cell :=
  match c with
  | CInt z => Ok (CInt (wrap64 (Z.abs z)))
  | CFloat f => Ok (CFloat (PrimFloat.abs f))
  | CBool _ => Raise Unmodelled
  | CNone | CStr _ => Raise TypeError
  end.

(** [mask.sum()] *)
Definition count_mask (mask : list bool) : nat := length (filter (fun b => b) mask).

(** "Validating ... data": negative values are converted to positive. *)
Definition validate (name : string) : script Cleaning.globals unit :=
  d <~ Cleaning.get_df ;;
  if mem name (columns d) then
    (* Check for negative values *)
    column <~ lift (getitem d name) ;;
    negative <~ lift (mapM lt_zero column) ;;
    if (0 <? count_mask negative)%nat then
      absolute <~ lift (mapM abs_cell column) ;;
      d' <~ lift (setitem d name absolute) ;;
      Cleaning.set_df d'
    else ret tt
  else ret tt.

(** STEP 5: the two validations, then the productivity column. *)
Definition validate_numerical_data : script Cleaning.globals unit :=
  _ <~ validate "Area" ;;
  _ <~ validate "Production" ;;
  Cleaning.calculate_productivity.

(** A number that has a magnitude of its own type: any float64, and any
    int64 but the least. *)
Definition has_abs (c : cell) : bool :=
  match c with
  | CInt z => (- 2 ^ 63 <? z)%Z && (z <? 2 ^ 63)%Z
  | CFloat _ => true
  | _ => false
  end.

(** The cell [new] is [old] or its magnitude, and is not below zero. *)
Definition validated (old new : cell) : Prop :=
  (new = old \/ abs_cell old = Ok new) /\ lt_zero new = Ok false.

Definition negative_demo : DataFrame :=
  mkDataFrame ["State_Name"; "Area"; "Production"]
    [ [CStr "Punjab"; CFloat (-10); CInt 100];
      [CStr "Punjab"; CFloat 11; CInt (-110)];
      [CStr "Gujarat"; CFloat PrimFloat.nan; CInt 0] ].

(* ================================================================== *)
(** * The cleaning scripts: duplicate removal *)

(** [df.duplicated()] (keep="first"): a row is marked when an earlier row
    has the same cells. *)
Fixpoint duplicated_from (seen : list (list key)) (rs : list row) : list bool :=
  match rs with
  | [] => []
  | r :: rs' =>
      if in_dec row_key_eq_dec (row_key r) seen then true :: duplicated_from seen rs'
      else false :: duplicated_from (row_key r :: seen) rs'
  end.

Definition duplicated (df : DataFrame) : list bool := duplicated_from [] (rows df).

Definition key_columns : list string :=
  [ "State_Name"; "District_Name"; "Crop"; "Crop_Year"; "Season" ].

(** STEP 7 of the agriculture script.  The step reports the number of exact
    duplicates and, when at least three key columns exist, the number of
    logical duplicates; only the exact ones are removed. *)
Definition remove_duplicates : script Cleaning.globals (nat * option nat) :=
  d <~ Cleaning.get_df ;;
  (* Check for exact duplicates *)
  let duplicate_count := count_mask (duplicated d) in
  _ <~ (if (0 <? duplicate_count)%nat then Cleaning.set_df (drop_duplicates d)
        else ret tt) ;;
  (* Check for logical duplicates *)
  d <~ Cleaning.get_df ;;
  let existing_key_cols := filter (fun col => mem col (columns d)) key_columns in
  if (3 <=? length existing_key_cols)%nat then
    keys <~ lift (getitem_list d existing_key_cols) ;;
    ret (duplicate_count, Some (count_mask (duplicated keys)))
  else ret (duplicate_count, None).

(** STEP 3 of the India script *)
Definition remove_duplicate_rows : script Untitled1.globals nat :=
  d <~ Untitled1.get_df ;;
  let duplicate_count := count_mask (duplicated d) in
  if (0 <? duplicate_count)%nat then
    fun g => (Ok duplicate_count,
              Untitled1.mkGlobals (drop_duplicates d) (Untitled1.outlier_summary g))
  else ret duplicate_count.

(** [d'] is [d] without its repeated rows: no row of [d'] repeats, the
    rows are those of [d], and the first occurrences keep their order. *)
Definition deduplicated (d d' : DataFrame) (removed : nat) : Prop :=
  columns d' = columns d
  /\ NoDup (map row_key (rows d'))
  /\ (forall k, In k (map row_key (rows d')) <-> In k (map row_key (rows d)))
  /\ (forall r, In r (rows d') -> In r (rows d))
  /\ (len d' + removed = len d)%nat
  /\ drop_duplicates d' = d'.

(* ================================================================== *)
(** * [PowerBIDataPreprocessor]: loading, export and the whole pipeline

    The output directory is a dict from file name to content: a CSV file
    holds the table written to it, the JSON file the documented model.
    What the methods get from outside (the data source, the random draws
    of the sample, the clock, and how each write to the directory ends) is
    gathered in one record. *)

Module Preprocessor.

Record table_info : Type := mkTableInfo {
  info_rows : nat;
  info_columns : list string
}.

Record model_info : Type := mkModelInfo {
  model_type : string;
  created : string;
  description : string;
  dimensions_info : dict table_info;
  fact_table_name : string;
  fact_table_info : table_info;
  summary_tables_info : dict table_info
}.

Inductive content : Type :=
| csv (table : DataFrame)      (* [table.to_csv(path, index=False)] *)
| json (info : model_info)     (* [json.dump(model_info, f)] *)
| damaged.                     (* what a write that failed left of the file *)

Definition files : Type := dict content.

(** How the write of one file ends: the file holds the content, or an
    exception is raised ([OSError] and the like); the file is then as it
    was when it could not be opened, and damaged when it was opened, which
    empties it, and the writing failed later. *)
Inductive written : Type :=
| stored
| failed (e : exn) (truncated : bool).

Record world : Type := mkWorld {
  data_source_path : option string;        (* [self.data_source_path] *)
  path_exists : string -> bool;            (* [os.path.exists] *)
  read_csv : string -> result DataFrame;   (* [pd.read_csv] *)
  drawn : DataFrame;                       (* the sample columns as drawn *)
  uniform : nat -> list float;             (* [np.random.uniform(5, 15, k)] *)
  write_ends : string -> content -> written; (* [open(path, 'w')] and the writes *)
  now_year : Z;                            (* [datetime.now().year] *)
  now_iso : string                         (* [datetime.now().isoformat()] *)
}.

Definition create_sample_agriculture_data (w : world) : result DataFrame :=
  sample_yield (uniform w) (drawn w).

Definition load_cleaned_data (w : world) : result DataFrame :=
  let attempt :=
    match data_source_path w with
    | Some path =>
        (* Try to load from specified path *)
        if negb (String.eqb path EmptyString) && path_exists w path
        then read_csv w path
        else create_sample_agriculture_data w
    | None => create_sample_agriculture_data w
    end in
  match attempt with
  | Ok df => Ok df
  | Raise _ => create_sample_agriculture_data w
  end.

Definition write (w : world) (name : string) (c : content) : script files unit :=
  fun fs =>
    match write_ends w name c with
    | stored => (Ok tt, dict_set fs name c)
    | failed e truncated =>
        (Raise e, if truncated then dict_set fs name damaged else fs)
    end.

Definition to_csv (w : world) (table : DataFrame) (name : string) : script files unit :=
  write w name (csv table).

Definition describe (table : DataFrame) : table_info :=
  mkTableInfo (len table) (columns table).

Definition document (tables : dict DataFrame) : dict table_info :=
  fold_left (fun info item => dict_set info (fst item) (describe (snd item))) tables [].

Definition create_data_model_docs (w : world) (dimensions : dict DataFrame)
           (fact_table : DataFrame) (summaries : dict DataFrame) : script files unit :=
  let model_info :=
    mkModelInfo "Star Schema" (now_iso w)
                "Agriculture data model optimized for Power BI"
                (* Document dimensions *)
                (document dimensions)
                "fact_agriculture" (describe fact_table)
                (* Document summaries *)
                (document summaries) in
  (* Save model documentation *)
  write w "data_model_info.json" (json model_info).

Definition export_for_powerbi (w : world) (df : DataFrame) (dimensions : dict DataFrame)
           (fact_table : DataFrame) (summaries : dict DataFrame) : script files unit :=
  (* Export main dataset *)
  _ <~ to_csv w df "agriculture_data_powerbi.csv" ;;
  (* Export dimension tables *)
  _ <~ for_each dimensions (fun item =>
         to_csv w (snd item) ("dim_" ++ fst item ++ ".csv")%string) ;;
  (* Export fact table *)
  _ <~ to_csv w fact_table "fact_agriculture.csv" ;;
  (* Export summary tables *)
  _ <~ for_each summaries (fun item =>
         to_csv w (snd item) (fst item ++ ".csv")%string) ;;
  (* Create data model documentation *)
  create_data_model_docs w dimensions fact_table summaries.

Record outcome : Type := mkOutcome {
  original_data : DataFrame;
  dimensions : dict DataFrame;
  fact_table : DataFrame;
  summaries : dict DataFrame
}.

Definition process_all (w : world) : script files outcome :=
  (* Step 1: Load data *)
  df <~ lift (load_cleaned_data w) ;;
  (* Step 2: Create dimensions *)
  dimensions <~ lift (create_dimension_tables (now_year w) df) ;;
  (* Step 3: Create fact table *)
  fact_table <~ lift (create_fact_table df dimensions) ;;
  (* Step 4: Create summaries *)
  summaries <~ lift (create_summary_tables df) ;;
  (* Step 5: Export everything *)
  _ <~ export_for_powerbi w df dimensions fact_table summaries ;;
  ret (mkOutcome df dimensions fact_table summaries).

End Preprocessor.

(** ** [powerbi_setup.py] *)
Module Setup.

Record machine : Type := mkMachine {
  importable : string -> bool;             (* [__import__(package)] succeeds *)
  pip_install : list string -> bool;       (* [subprocess.check_call] succeeds *)
  in_project_directory : bool;             (* [os.path.exists('powerbi')] *)
  desktop_installed : bool                 (* a known path of Power BI Desktop exists *)
}.

Definition required_packages : list string := ["pandas"; "numpy"].

Definition check_requirements (m : machine) : bool :=
  let missing_packages := filter (fun package => negb (importable m package))
                                 required_packages in
  match missing_packages with
  | [] => true
  | _ => pip_install m missing_packages
  end.

(** [PowerBIDataPreprocessor()] is created without a data source. *)
Definition without_source (w : Preprocessor.world) : Preprocessor.world :=
  Preprocessor.mkWorld None (Preprocessor.path_exists w) (Preprocessor.read_csv w)
                       (Preprocessor.drawn w) (Preprocessor.uniform w)
                       (Preprocessor.write_ends w)
                       (Preprocessor.now_year w) (Preprocessor.now_iso w).

Definition run_data_preparation (w : Preprocessor.world)
  : script Preprocessor.files bool :=
  fun fs =>
    match Preprocessor.process_all (without_source w) fs with
    | (Ok _, fs') => (Ok true, fs')
    | (Raise _, fs') => (Ok false, fs')
    end.

Definition check_powerbi_desktop (m : machine) : bool := desktop_installed m.

(** The files [show_next_steps] tells the user to import, and the
    relationships it tells them to set up: fact column, dimension file,
    dimension column. *)
Definition files_to_import : list string :=
  [ "agriculture_data_powerbi.csv"; "dim_states.csv"; "dim_crops.csv";
    "dim_seasons.csv"; "dim_dates.csv"; "fact_agriculture.csv";
    "state_summary.csv"; "crop_summary.csv"; "yearly_trends.csv" ].

Definition relationships : list (string * string * string) :=
  [ ("State_ID", "dim_states.csv", "State_ID");
    ("Crop_ID", "dim_crops.csv", "Crop_ID");
    ("Season_ID", "dim_seasons.csv", "Season_ID");
    ("Date_ID", "dim_dates.csv", "Date_ID") ].

Inductive ending : Type :=
| requirements_failed
| wrong_directory
| preparation_failed
| next_steps_shown (desktop_found : bool).

Definition main (m : machine) (w : Preprocessor.world)
  : script Preprocessor.files ending :=
  (* Check requirements *)
  if negb (check_requirements m) then ret requirements_failed
  (* Check if we're in the right directory *)
  else if negb (in_project_directory m) then ret wrong_directory
  else
    (* Run data preparation *)
    prepared <~ run_data_preparation w ;;
    if negb prepared then ret preparation_failed
    else
      (* Check for Power BI Desktop; show next steps *)
      ret (next_steps_shown (check_powerbi_desktop m)).

End Setup.

(** A CSV file of the directory with the column [col]. *)
Definition csv_with_column (fs : Preprocessor.files) (name col : string) : Prop :=
  exists table, assoc name fs = Some (Preprocessor.csv table) /\ In col (columns table).

Definition is_csv (fs : Preprocessor.files) (name : string) : Prop :=
  exists table, assoc name fs = Some (Preprocessor.csv table).

(** The files one run of the pipeline has to write, in the order it writes
    them. *)
Definition exported (w : Preprocessor.world) (out : Preprocessor.outcome)
  : Preprocessor.files :=
  [ ("agriculture_data_powerbi.csv",
     Preprocessor.csv (Preprocessor.original_data out)) ]
  ++ map (fun item => (("dim_" ++ fst item ++ ".csv")%string, Preprocessor.csv (snd item)))
         (Preprocessor.dimensions out)
  ++ [ ("fact_agriculture.csv", Preprocessor.csv (Preprocessor.fact_table out)) ]
  ++ map (fun item => ((fst item ++ ".csv")%string, Preprocessor.csv (snd item)))
         (Preprocessor.summaries out)
  ++ [ ("data_model_info.json",
        Preprocessor.json
          (Preprocessor.mkModelInfo
             "Star Schema" (Preprocessor.now_iso w)
             "Agriculture data model optimized for Power BI"
             (Preprocessor.document (Preprocessor.dimensions out))
             "fact_agriculture"
             (Preprocessor.describe (Preprocessor.fact_table out))
             (Preprocessor.document (Preprocessor.summaries out)))) ].

(** The names of these files. *)
Definition export_files : list string :=
  [ "agriculture_data_powerbi.csv"; "dim_states.csv"; "dim_crops.csv";
    "dim_seasons.csv"; "dim_dates.csv"; "fact_agriculture.csv";
    "state_summary.csv"; "crop_summary.csv"; "yearly_trends.csv";
    "data_model_info.json" ].

(** Every write to one of the files [names] succeeds. *)
Definition writable (w : Preprocessor.world) (names : list string) : Prop :=
  forall name c, In name names -> Preprocessor.write_ends w name c = Preprocessor.stored.

(** The files [l] written one after the other. *)
Definition write_all (w : Preprocessor.world) (l : Preprocessor.files)
  : script Preprocessor.files unit :=
  for_each l (fun item => Preprocessor.write w (fst item) (snd item)).

(** The directory [fs] after the files [written] were written to it. *)
Definition overwritten (fs written : Preprocessor.files) (fs' : Preprocessor.files) : Prop :=
  forall name, assoc name fs' = match assoc name written with
                                | Some c => Some c
                                | None => assoc name fs
                                end.

(** The export [planned] stopped with the exception [e] at the first file
    that could not be written: the files before it are in the directory,
    the file itself is as it was or damaged, and no later file was
    touched. *)
Definition stopped_at (w : Preprocessor.world) (e : exn)
           (planned fs fs' : Preprocessor.files) : Prop :=
  exists before name c after truncated,
    planned = before ++ (name, c) :: after
    /\ (forall n c', In (n, c') before ->
                     Preprocessor.write_ends w n c' = Preprocessor.stored)
    /\ Preprocessor.write_ends w name c = Preprocessor.failed e truncated
    /\ overwritten fs
         (before ++ (if truncated then [(name, Preprocessor.damaged)] else []))
         fs'.

Definition demo_world : Preprocessor.world :=
  Preprocessor.mkWorld (Some "agriculture.csv") (fun _ => true) (fun _ => Ok demo)
                       sample_data (fun k => repeat 7%float k)
                       (fun _ _ => Preprocessor.stored)
                       2025 "2025-12-01T09:00:00".

Definition empty_world : Preprocessor.world :=
  Preprocessor.mkWorld (Some "agriculture.csv") (fun _ => true) (fun _ => Ok demo_empty)
                       sample_data (fun k => repeat 7%float k)
                       (fun _ _ => Preprocessor.stored)
                       2025 "2025-12-01T09:00:00".

(** The world of [demo_world] with a disk that fills up while the fact
    table is written. *)
Definition full_disk_world : Preprocessor.world :=
  Preprocessor.mkWorld (Some "agriculture.csv") (fun _ => true) (fun _ => Ok demo)
                       sample_data (fun k => repeat 7%float k)
                       (fun name _ => if String.eqb name "fact_agriculture.csv"
                                      then Preprocessor.failed OSError true
                                      else Preprocessor.stored)
                       2025 "2025-12-01T09:00:00".

(** The number of distinct values of a column. *)
Definition distinct (name : string) (df : DataFrame) : nat :=
  length (unique (column_cells name df)).

Definition ready_machine : Setup.machine :=
  Setup.mkMachine (fun _ => true) (fun _ => true) true true.

(* ================================================================== *)
(** * Lemmas on labels and positions *)

Lemma mem_true_iff (s : string) (l : list string) : mem s l = true <-> In s l.
Proof. unfold mem. destruct (in_dec string_dec s l); split; intros; auto; discriminate. Qed.

Lemma mem_false_iff (s : string) (l : list string) : mem s l = false <-> ~ In s l.
Proof. unfold mem. destruct (in_dec string_dec s l); split; intros; auto; try discriminate. contradiction. Qed.

Lemma get_loc_none (n : string) (cols : list string) :
  get_loc n cols = None <-> ~ In n cols.
Proof.
  induction cols as [|c cs IH]; simpl.
  - split; auto.
  - destruct (String.eqb_spec n c) as [->|Hne].
    + split; [discriminate | intros H; exfalso; apply H; auto].
    + destruct (get_loc n cs); simpl.
      * split; [discriminate|]. intros H. exfalso. apply H. right.
        destruct (in_dec string_dec n cs) as [Hi|Hn]; auto.
        exfalso. apply IH in Hn. discriminate.
      * split; auto. intros _ [Heq|Hin]; [congruence|].
        destruct IH as [IH1 _]. apply IH1; auto.
Qed.

Lemma get_loc_some (n : string) (cols : list string) (i : nat) :
  get_loc n cols = Some i -> (i < length cols)%nat /\ nth i cols EmptyString = n.
Proof.
  revert i. induction cols as [|c cs IH]; simpl; intros i H; [discriminate|].
  destruct (String.eqb_spec n c) as [->|Hne].
  - inversion H; subst. simpl. split; [lia | reflexivity].
  - destruct (get_loc n cs) as [j|]; simpl in H; [|discriminate].
    inversion H; subst. destruct (IH j eq_refl). simpl. split; [lia | assumption].
Qed.

Lemma get_loc_in (n : string) (cols : list string) :
  In n cols -> exists i, get_loc n cols = Some i.
Proof.
  intros H. destruct (get_loc n cols) as [i|] eqn:E; eauto.
  apply get_loc_none in E. contradiction.
Qed.

Lemma get_loc_app_l (n : string) (l l' : list string) (i : nat) :
  get_loc n l = Some i -> get_loc n (l ++ l') = Some i.
Proof.
  revert i. induction l as [|c cs IH]; simpl; intros i H; [discriminate|].
  destruct (String.eqb n c); auto.
  destruct (get_loc n cs) as [j|]; simpl in *; [|discriminate].
  rewrite (IH j eq_refl). assumption.
Qed.

Lemma get_loc_app_r (n : string) (l l' : list string) :
  ~ In n l ->
  get_loc n (l ++ l') = option_map (fun i => (length l + i)%nat) (get_loc n l').
Proof.
  induction l as [|c cs IH]; simpl; intros H.
  - destruct (get_loc n l'); reflexivity.
  - destruct (String.eqb_spec n c) as [->|Hne]; [exfalso; auto|].
    rewrite IH by auto. destruct (get_loc n l'); reflexivity.
Qed.

Lemma loc_ok (n : string) (cols : list string) (i : nat) :
  get_loc n cols = Some i -> loc n cols = Ok i.
Proof. unfold loc. intros ->. reflexivity. Qed.

Lemma loc_missing (n : string) (cols : list string) :
  ~ In n cols -> loc n cols = Raise (KeyError n).
Proof. unfold loc. intros H. apply get_loc_none in H. rewrite H. reflexivity. Qed.

Lemma cell_at_app_l (i : nat) (l e : row) :
  (i < length l)%nat -> cell_at i (l ++ e) = cell_at i l.
Proof. intros H. unfold cell_at. apply app_nth1. assumption. Qed.

Lemma cell_at_app_r (k : nat) (l e : row) :
  cell_at (length l + k) (l ++ e) = cell_at k e.
Proof.
  unfold cell_at. rewrite app_nth2 by lia. f_equal. lia.
Qed.

Lemma well_formed_forall (df : DataFrame) :
  well_formed df = true ->
  forall r, In r (rows df) -> length r = length (columns df).
Proof.
  unfold well_formed. rewrite forallb_forall. intros H r Hr.
  apply Nat.eqb_eq. auto.
Qed.

(* ------------------------------------------------------------------ *)
(** * Lemmas on first occurrences *)

Section FirstSeen.

Variable A : Type.
Variable k : A -> list key.

Lemma first_seen_incl (seen : list (list key)) (l : list A) (a : A) :
  In a (first_seen k seen l) -> In a l.
Proof.
  revert seen. induction l as [|x l IH]; simpl; intros seen H; auto.
  destruct (in_dec row_key_eq_dec (k x) seen).
  - right. eauto.
  - destruct H as [->|H]; eauto.
Qed.

Lemma first_seen_fresh (seen : list (list key)) (l : list A) (a : A) :
  In a (first_seen k seen l) -> ~ In (k a) seen.
Proof.
  revert seen. induction l as [|x l IH]; simpl; intros seen H; auto.
  destruct (in_dec row_key_eq_dec (k x) seen).
  - eauto.
  - destruct H as [->|H]; auto.
    apply IH in H. intros Hin. apply H. right. assumption.
Qed.

Lemma first_seen_nodup (seen : list (list key)) (l : list A) :
  NoDup (map k (first_seen k seen l)).
Proof.
  revert seen. induction l as [|x l IH]; simpl; intros seen; [constructor|].
  destruct (in_dec row_key_eq_dec (k x) seen); auto.
  simpl. constructor; auto.
  rewrite in_map_iff. intros [y [Hy Hin]].
  apply first_seen_fresh in Hin. apply Hin. left. auto.
Qed.

Lemma first_seen_complete (seen : list (list key)) (l : list A) (a : A) :
  In a l -> In (k a) seen \/ In (k a) (map k (first_seen k seen l)).
Proof.
  revert seen. induction l as [|x l IH]; simpl; intros seen H; [contradiction|].
  destruct H as [->|H].
  - destruct (in_dec row_key_eq_dec (k a) seen); auto. right. simpl. auto.
  - destruct (in_dec row_key_eq_dec (k x) seen); auto.
    destruct (IH (k x :: seen) H) as [[Heq|Hs]|Hr]; auto.
    + right. simpl. auto.
    + right. simpl. auto.
Qed.

Lemma first_seen_keys (l : list A) (x : list key) :
  In x (map k (first_seen k [] l)) <-> In x (map k l).
Proof.
  rewrite !in_map_iff. split.
  - intros [a [Ha Hin]]. exists a. split; auto. eapply first_seen_incl; eauto.
  - intros [a [Ha Hin]]. subst.
    destruct (first_seen_complete [] l a Hin) as [[]|H].
    apply in_map_iff in H. assumption.
Qed.

Lemma first_seen_nil (seen : list (list key)) (l : list A) :
  first_seen k seen l = [] -> forall a, In a l -> In (k a) seen.
Proof.
  intros H a Ha. destruct (first_seen_complete seen l a Ha) as [Hs|Hr]; auto.
  rewrite H in Hr. contradiction.
Qed.

End FirstSeen.

Lemma first_seen_map (A B : Type) (f : A -> B) (k : B -> list key)
      (seen : list (list key)) (l : list A) :
  first_seen k seen (map f l) = map f (first_seen (fun a => k (f a)) seen l).
Proof.
  revert seen. induction l as [|x l IH]; simpl; intros seen; auto.
  destruct (in_dec row_key_eq_dec (k (f x)) seen); simpl; rewrite IH; reflexivity.
Qed.

Lemma StronglySorted_impl_in (A : Type) (R R' : A -> A -> Prop) (l : list A) :
  (forall a b, In a l -> In b l -> R a b -> R' a b) ->
  StronglySorted R l -> StronglySorted R' l.
Proof.
  induction l as [|x l IH]; intros Himp H; [constructor|].
  inversion H as [|? ? Hs Hf]; subst. constructor.
  - apply IH; auto. intros a b Ha Hb. apply Himp; simpl; auto.
  - rewrite Forall_forall in *. intros b Hb. apply Himp; simpl; auto.
Qed.

Lemma StronglySorted_nth (A : Type) (R : A -> A -> Prop) (l : list A) (d : A) :
  StronglySorted R l ->
  forall i j, (i < j)%nat -> (j < length l)%nat -> R (nth i l d) (nth j l d).
Proof.
  induction 1 as [|x l Hs IH Hf]; intros i j Hij Hj; simpl in Hj; [lia|].
  destruct j as [|j]; [lia|]. destruct i as [|i]; simpl.
  - rewrite Forall_forall in Hf. apply Hf. apply nth_In. lia.
  - apply IH; lia.
Qed.

Lemma first_pos_skip (k x : key) (l : list key) :
  k <> x -> first_pos k (x :: l) = S (first_pos k l).
Proof. intros H. simpl. destruct (key_eq_dec k x); congruence. Qed.

Lemma unique_ordered_from (seen : list (list key)) (cs : list cell) :
  StronglySorted
    (fun a b => (first_pos (cell_key a) (map cell_key cs)
                 < first_pos (cell_key b) (map cell_key cs))%nat)
    (first_seen (fun c => [cell_key c]) seen cs).
Proof.
  revert seen. induction cs as [|x cs IH]; intros seen; simpl; [constructor|].
  destruct (in_dec row_key_eq_dec [cell_key x] seen) as [Hin|Hout].
  - eapply StronglySorted_impl_in; [|apply IH].
    intros a b Ha Hb Hlt. cbv beta in *.
    assert (Hne : forall c, In c (first_seen (fun c => [cell_key c]) seen cs) ->
                            cell_key c <> cell_key x).
    { intros c Hc Heq. apply first_seen_fresh in Hc. apply Hc. rewrite Heq. assumption. }
    destruct (key_eq_dec (cell_key a) (cell_key x)) as [E|_]; [exact (False_ind _ (Hne a Ha E))|].
    destruct (key_eq_dec (cell_key b) (cell_key x)) as [E|_]; [exact (False_ind _ (Hne b Hb E))|].
    lia.
  - assert (Hne : forall c, In c (first_seen (fun c => [cell_key c]) ([cell_key x] :: seen) cs) ->
                            cell_key c <> cell_key x).
    { intros c Hc Heq. apply first_seen_fresh in Hc. apply Hc. rewrite Heq. left. reflexivity. }
    constructor.
    + eapply StronglySorted_impl_in; [|apply IH].
      intros a b Ha Hb Hlt. cbv beta in *.
      destruct (key_eq_dec (cell_key a) (cell_key x)) as [E|_]; [exact (False_ind _ (Hne a Ha E))|].
      destruct (key_eq_dec (cell_key b) (cell_key x)) as [E|_]; [exact (False_ind _ (Hne b Hb E))|].
      lia.
    + rewrite Forall_forall. intros b Hb. cbv beta.
      destruct (key_eq_dec (cell_key x) (cell_key x)) as [_|E]; [|congruence].
      destruct (key_eq_dec (cell_key b) (cell_key x)) as [E|_]; [exact (False_ind _ (Hne b Hb E))|].
      lia.
Qed.

Lemma unique_nodup (cs : list cell) : NoDup (map cell_key (unique cs)).
Proof.
  unfold unique.
  pose proof (first_seen_nodup (fun c => [cell_key c]) [] cs) as H.
  remember (first_seen (fun c => [cell_key c]) [] cs) as u. clear Hequ.
  induction u as [|x u IH]; simpl in *; [constructor|].
  inversion H as [|? ? Hn Hd]; subst. constructor; auto.
  intros Hin. apply Hn. rewrite in_map_iff in *.
  destruct Hin as [y [Hy Hyin]]. exists y. split; [f_equal; assumption | assumption].
Qed.

Lemma unique_keys (cs : list cell) (x : key) :
  In x (map cell_key (unique cs)) <-> In x (map cell_key cs).
Proof.
  unfold unique.
  pose proof (first_seen_keys (fun c => [cell_key c]) cs [x]) as H.
  rewrite !in_map_iff in *. split.
  - intros [c [Hc Hin]]. destruct H as [H _].
    destruct H as [c' [Hc' Hin']]; [exists c; split; [f_equal|]; assumption|].
    exists c'. split; [congruence | assumption].
  - intros [c [Hc Hin]]. destruct H as [_ H].
    destruct H as [c' [Hc' Hin']]; [exists c; split; [f_equal|]; assumption|].
    exists c'. split; [congruence | assumption].
Qed.

Lemma unique_incl (cs : list cell) (c : cell) : In c (unique cs) -> In c cs.
Proof. apply first_seen_incl. Qed.

Lemma unique_nil (cs : list cell) : unique cs = [] -> cs = [].
Proof.
  intros H. destruct cs as [|c cs]; auto.
  exfalso. apply (first_seen_nil (fun c => [cell_key c]) [] (c :: cs) H c). left. reflexivity.
Qed.

Lemma unique_ordered (cs : list cell) (i j : nat) :
  (i < j)%nat -> (j < length (unique cs))%nat ->
  (first_pos (cell_key (nth i (unique cs) CNone)) (map cell_key cs)
   < first_pos (cell_key (nth j (unique cs) CNone)) (map cell_key cs))%nat.
Proof.
  intros Hij Hj.
  apply (StronglySorted_nth (R := fun a b =>
           (first_pos (cell_key a) (map cell_key cs)
            < first_pos (cell_key b) (map cell_key cs))%nat)); auto.
  apply unique_ordered_from.
Qed.

(* ------------------------------------------------------------------ *)
(** * The three surrogate-key dimensions *)

Lemma length_range (a b : nat) : length (range a b) = (b - a)%nat.
Proof. unfold range. rewrite length_map, length_seq. reflexivity. Qed.

Lemma map_combine_map_l (A B C D : Type) (g : A -> B) (f : B * C -> D)
      (u : list A) (v : list C) :
  map f (combine (map g u) v) = map (fun cv => f (g (fst cv), snd cv)) (combine u v).
Proof.
  revert v. induction u as [|x u IH]; intros [|y v]; simpl; auto.
  rewrite IH. reflexivity.
Qed.

Lemma getitem_list_one (df : DataFrame) (col : string) (i : nat) :
  get_loc col (columns df) = Some i ->
  getitem_list df [col]
  = Ok (mkDataFrame [col] (map (fun r => [cell_at i r]) (rows df))).
Proof.
  intros H. unfold getitem_list. simpl. rewrite (loc_ok _ _ H). reflexivity.
Qed.

Lemma drop_duplicates_one (i : nat) (rs : list row) :
  first_seen row_key [] (map (fun r => [cell_at i r]) rs)
  = map (fun c => [c]) (unique (map (cell_at i) rs)).
Proof.
  unfold unique. rewrite !first_seen_map. rewrite map_map. reflexivity.
Qed.

Lemma surrogate_dimension_ok (df : DataFrame) (col idn : string) (i : nat) :
  get_loc col (columns df) = Some i ->
  String.eqb idn col = false ->
  surrogate_dimension df col idn
  = Ok (mkDataFrame [idn; col] (dim_rows (unique (map (cell_at i) (rows df))))).
Proof.
  intros Hloc Hne. unfold surrogate_dimension.
  rewrite (getitem_list_one _ _ Hloc). simpl bind.
  unfold reset_index_drop, drop_duplicates, setitem, len. simpl columns. simpl rows.
  rewrite drop_duplicates_one.
  set (u := unique (map (cell_at i) (rows df))).
  rewrite length_range, length_map.
  replace (length u + 1 - 1)%nat with (length u) by lia.
  rewrite Nat.eqb_refl. simpl negb. cbv iota.
  simpl get_loc. rewrite Hne. simpl option_map. cbv iota. simpl bind.
  unfold getitem_list. simpl mapM. unfold loc. simpl get_loc.
  rewrite Hne, !String.eqb_refl. simpl.
  f_equal. f_equal. unfold dim_rows.
  rewrite map_map. rewrite map_combine_map_l.
  apply map_ext. intros [c v]. reflexivity.
Qed.

Lemma surrogate_dimension_missing (df : DataFrame) (col idn : string) :
  ~ In col (columns df) ->
  surrogate_dimension df col idn = Raise (KeyError col).
Proof.
  intros H. unfold surrogate_dimension, getitem_list. simpl.
  rewrite (loc_missing _ _ H). reflexivity.
Qed.

(* ------------------------------------------------------------------ *)
(** * The date dimension *)

Lemma insert_sorted_perm (A : Type) (le : A -> A -> bool) (x : A) (l : list A) :
  Permutation (insert_sorted le x l) (x :: l).
Proof.
  induction l as [|y l IH]; simpl; auto.
  destruct (le x y); auto.
  eapply perm_trans; [apply perm_skip; exact IH | apply perm_swap].
Qed.

Lemma insertion_sort_perm (A : Type) (le : A -> A -> bool) (l : list A) :
  Permutation (insertion_sort le l) l.
Proof.
  induction l as [|x l IH]; simpl; auto.
  eapply perm_trans; [apply insert_sorted_perm | apply perm_skip; exact IH].
Qed.

Lemma insert_sorted_Z (x : Z) (l : list Z) :
  StronglySorted Z.le l -> StronglySorted Z.le (insert_sorted Z.leb x l).
Proof.
  induction 1 as [|y l Hs IH Hf]; simpl.
  - constructor; constructor.
  - destruct (Z.leb_spec x y) as [Hle|Hgt].
    + constructor; [constructor; assumption|].
      constructor; auto. rewrite Forall_forall in *. intros z Hz.
      specialize (Hf z Hz). lia.
    + constructor; auto. rewrite Forall_forall in *. intros z Hz.
      apply (Permutation_in _ (insert_sorted_perm Z.leb x l)) in Hz.
      destruct Hz as [<-|Hz]; [lia | auto].
Qed.

Lemma insertion_sort_Z (l : list Z) : StronglySorted Z.le (insertion_sort Z.leb l).
Proof.
  induction l as [|x l IH]; simpl; [constructor | apply insert_sorted_Z; assumption].
Qed.

Lemma sorted_nodup_strict (l : list Z) :
  StronglySorted Z.le l -> NoDup l -> StronglySorted Z.lt l.
Proof.
  induction 1 as [|y l Hs IH Hf]; intros Hn; [constructor|].
  inversion Hn as [|? ? Hnin Hnd]; subst. constructor; auto.
  rewrite Forall_forall in *. intros z Hz. specialize (Hf z Hz).
  assert (z <> y) by (intros ->; contradiction). lia.
Qed.

Lemma all_int_cells (cs : list cell) :
  forallb is_int cs = true -> cs = map CInt (map int_value cs).
Proof.
  induction cs as [|c cs IH]; simpl; intros H; auto.
  apply andb_true_iff in H. destruct H as [Hc Hcs].
  destruct c; try discriminate. simpl. f_equal. auto.
Qed.

Lemma ints_of_CInt (zs : list Z) : ints_of (map CInt zs) = Some zs.
Proof.
  induction zs as [|z zs IH]; [reflexivity|].
  change (ints_of (map CInt (z :: zs)))
    with (match ints_of (map CInt zs) with
          | Some l => Some (z :: l)
          | None => None
          end).
  rewrite IH. reflexivity.
Qed.

Lemma sorted_ints (zs : list Z) :
  sorted (map CInt zs) = Ok (map CInt (insertion_sort Z.leb zs)).
Proof.
  destruct zs as [|z [|z' zs]]; try reflexivity.
  unfold sorted.
  change (map CInt (z :: z' :: zs)) with (CInt z :: CInt z' :: map CInt zs).
  cbv iota.
  change (CInt z :: CInt z' :: map CInt zs) with (map CInt (z :: z' :: zs)).
  rewrite ints_of_CInt. reflexivity.
Qed.

Lemma date_records_ok (now_year : Z) (ys : list Z) :
  mapM (date_record now_year) (map CInt ys)
  = Ok (map (fun y => [ ("Date_ID", CInt y); ("Year", CInt y);
                        ("Decade", CStr (str_of_Z (wrap64 (y / 10 * 10)) ++ "s"));
                        ("IsCurrentYear", CBool (Z.eqb y now_year)) ]) ys).
Proof.
  induction ys as [|y ys IH]; simpl; auto.
  rewrite IH. reflexivity.
Qed.

Lemma union_labels_seen (seen l : list string) :
  (forall x, In x l -> In x seen) -> union_labels seen l = [].
Proof.
  induction l as [|x l IH]; simpl; intros H; auto.
  destruct (in_dec string_dec x seen) as [_|Hn]; [apply IH; auto|].
  exfalso. apply Hn. apply H. left. reflexivity.
Qed.

Lemma date_frame_ok (now_year : Z) (ys : list Z) :
  DataFrame_of_records
    (map (fun y => [ ("Date_ID", CInt y); ("Year", CInt y);
                     ("Decade", CStr (str_of_Z (wrap64 (y / 10 * 10)) ++ "s"));
                     ("IsCurrentYear", CBool (Z.eqb y now_year)) ]) ys)
  = dates_dimension now_year ys.
Proof.
  destruct ys as [|y ys]; [reflexivity|].
  unfold DataFrame_of_records, dates_dimension.
  assert (Hcols : union_labels []
            (flat_map (map fst)
               (map (fun y => [ ("Date_ID", CInt y); ("Year", CInt y);
                     ("Decade", CStr (str_of_Z (wrap64 (y / 10 * 10)) ++ "s"));
                     ("IsCurrentYear", CBool (Z.eqb y now_year)) ]) (y :: ys)))
          = date_columns).
  { simpl. unfold date_columns. do 4 f_equal.
    apply union_labels_seen. intros x Hx.
    apply in_flat_map in Hx. destruct Hx as [rec [Hrec Hx]].
    apply in_map_iff in Hrec. destruct Hrec as [z [<- _]].
    simpl in Hx. simpl. tauto. }
  rewrite Hcols. f_equal.
  rewrite map_map. apply map_ext. intros z. reflexivity.
Qed.

Lemma years_ok (now_year : Z) (cs : list cell) :
  forallb is_int cs = true ->
  (years <- sorted (unique cs) ;;
   date_data <- mapM (date_record now_year) years ;;
   Ok (DataFrame_of_records date_data))
  = Ok (dates_dimension now_year (sorted_years cs)).
Proof.
  intros H.
  assert (Hu : forallb is_int (unique cs) = true).
  { rewrite forallb_forall in *. intros c Hc. apply H. apply unique_incl. assumption. }
  rewrite (all_int_cells _ Hu) at 1.
  rewrite sorted_ints. simpl bind. rewrite date_records_ok. simpl bind.
  rewrite date_frame_ok. reflexivity.
Qed.

(* ------------------------------------------------------------------ *)
(** * [create_dimension_tables] in closed form *)

Lemma create_dimension_tables_unfold (now_year : Z) (df : DataFrame) :
  create_dimension_tables now_year df
  = (states <- surrogate_dimension df "State_Name" "State_ID" ;;
     crops <- surrogate_dimension df "Crop" "Crop_ID" ;;
     seasons <- surrogate_dimension df "Season" "Season_ID" ;;
     crop_year <- getitem df "Crop_Year" ;;
     years <- sorted (unique crop_year) ;;
     date_data <- mapM (date_record now_year) years ;;
     Ok [ ("states", states); ("crops", crops); ("seasons", seasons);
          ("dates", DataFrame_of_records date_data) ]).
Proof.
  unfold create_dimension_tables, surrogate_dimension.
  repeat match goal with
         | |- context [bind ?m _] => destruct m; cbn [bind]; try reflexivity
         end.
Qed.

Lemma column_all_spec (p : cell -> bool) (name : string) (df : DataFrame) :
  column_all p name df = true ->
  exists i, get_loc name (columns df) = Some i
            /\ forallb p (column_cells name df) = true.
Proof.
  unfold column_all, column_cells. destruct (get_loc name (columns df)) as [i|]; [|discriminate].
  intros H. exists i. split; auto. rewrite forallb_forall in *.
  intros c Hc. apply in_map_iff in Hc. destruct Hc as [r [<- Hr]]. auto.
Qed.

Lemma column_cells_loc (name : string) (df : DataFrame) (i : nat) :
  get_loc name (columns df) = Some i ->
  column_cells name df = map (cell_at i) (rows df).
Proof. unfold column_cells. intros ->. reflexivity. Qed.

Lemma surrogate_dimension_table (df : DataFrame) (col idn : string) :
  In col (columns df) -> String.eqb idn col = false ->
  surrogate_dimension df col idn = Ok (surrogate_table df col idn).
Proof.
  intros Hin Hne. destruct (get_loc_in _ _ Hin) as [i Hi].
  rewrite (surrogate_dimension_ok _ _ _ Hi Hne).
  unfold surrogate_table. rewrite (column_cells_loc _ _ Hi). reflexivity.
Qed.

Lemma sorted_unique_years (cs : list cell) :
  forallb is_int cs = true ->
  sorted (unique cs) = Ok (map CInt (sorted_years cs)).
Proof.
  intros H.
  assert (Hu : forallb is_int (unique cs) = true).
  { rewrite forallb_forall in *. intros c Hc. apply H. apply unique_incl. assumption. }
  rewrite (all_int_cells _ Hu) at 1. apply sorted_ints.
Qed.

Lemma dimension_contract_spec (df : DataFrame) :
  dimension_contract df = true ->
  In "State_Name" (columns df) /\ In "Crop" (columns df)
  /\ In "Season" (columns df) /\ In "Crop_Year" (columns df)
  /\ forallb is_int (column_cells "Crop_Year" df) = true.
Proof.
  unfold dimension_contract. rewrite !andb_true_iff. intros [[_ Hc] Hy].
  simpl in Hc. rewrite !andb_true_iff in Hc.
  destruct Hc as (H1 & H2 & H3 & H4 & _).
  apply mem_true_iff in H1, H2, H3, H4.
  destruct (column_all_spec _ _ _ Hy) as [i [_ Hi]]. tauto.
Qed.

Lemma create_dimension_tables_ok (now_year : Z) (df : DataFrame) :
  dimension_contract df = true ->
  create_dimension_tables now_year df = Ok (dimensions_of now_year df).
Proof.
  intros H. destruct (dimension_contract_spec _ H) as (H1 & H2 & H3 & H4 & Hy).
  rewrite create_dimension_tables_unfold.
  rewrite !surrogate_dimension_table by (auto; reflexivity). cbn [bind].
  destruct (get_loc_in _ _ H4) as [i Hi].
  unfold getitem. rewrite (loc_ok _ _ Hi). cbn [bind].
  rewrite <- (column_cells_loc _ _ Hi).
  rewrite (sorted_unique_years _ Hy). cbn [bind].
  rewrite date_records_ok. cbn [bind]. rewrite date_frame_ok. reflexivity.
Qed.

Lemma source_contract_spec (df : DataFrame) :
  source_contract df = true ->
  well_formed df = true
  /\ (forall n, In n source_columns -> In n (columns df))
  /\ (forall n, In n reserved_columns -> ~ In n (columns df))
  /\ forallb is_text (column_cells "State_Name" df) = true
  /\ forallb is_text (column_cells "Crop" df) = true
  /\ forallb is_text (column_cells "Season" df) = true
  /\ forallb is_int (column_cells "Crop_Year" df) = true.
Proof.
  unfold source_contract. rewrite !andb_true_iff.
  intros [[[[[[[Hwf _] Hsrc] Hres] Hs] Hc] Hse] Hy].
  rewrite forallb_forall in Hsrc, Hres.
  split; [assumption|]. split.
  { intros n Hn. apply mem_true_iff. auto. }
  split.
  { intros n Hn. apply mem_false_iff. apply negb_true_iff. auto. }
  destruct (column_all_spec _ _ _ Hs) as [? [_ ?]].
  destruct (column_all_spec _ _ _ Hc) as [? [_ ?]].
  destruct (column_all_spec _ _ _ Hse) as [? [_ ?]].
  destruct (column_all_spec _ _ _ Hy) as [? [_ ?]].
  tauto.
Qed.

Lemma source_contract_dimension (df : DataFrame) :
  source_contract df = true -> dimension_contract df = true.
Proof.
  unfold source_contract, dimension_contract. rewrite !andb_true_iff.
  intros [[[[[[[_ Hnd] Hsrc] _] _] _] _] Hy]. split; [split; [assumption|]|assumption].
  rewrite forallb_forall in *. intros n Hn. apply Hsrc.
  simpl in *. tauto.
Qed.

(* ------------------------------------------------------------------ *)
(** * A left merge against a table with distinct keys *)

Lemma key_eqb_eq (a b : key) : key_eqb a b = true <-> a = b.
Proof. unfold key_eqb. destruct (key_eq_dec a b); split; auto; discriminate. Qed.

Lemma key_eqb_refl (a : key) : key_eqb a a = true.
Proof. apply key_eqb_eq. reflexivity. Qed.

Lemma filter_none (A : Type) (p : A -> bool) (l : list A) :
  (forall a, In a l -> p a = false) -> filter p l = [].
Proof.
  induction l as [|x l IH]; simpl; intros H; auto.
  rewrite (H x) by auto. apply IH. auto.
Qed.

Lemma filter_distinct_keys (ri : nat) (rs : list row) (k : key) :
  NoDup (map (fun r => cell_key (cell_at ri r)) rs) ->
  filter (fun r => key_eqb k (cell_key (cell_at ri r))) rs
  = match lookup ri rs k with
    | Some r => [r]
    | None => []
    end.
Proof.
  unfold lookup. induction rs as [|r rs IH]; simpl; intros Hnd; auto.
  inversion Hnd as [|? ? Hnin Hnd']; subst.
  destruct (key_eqb k (cell_key (cell_at ri r))) eqn:E.
  - f_equal. apply filter_none. intros a Ha.
    destruct (key_eqb k (cell_key (cell_at ri a))) eqn:E'; auto.
    apply key_eqb_eq in E, E'. exfalso. apply Hnin.
    apply in_map_iff. exists a. split; [congruence | assumption].
  - auto.
Qed.

Lemma lookup_some (ri : nat) (rs : list row) (k : key) (r : row) :
  lookup ri rs k = Some r -> In r rs /\ cell_key (cell_at ri r) = k.
Proof.
  unfold lookup. intros H. apply find_some in H. destruct H as [Hin He].
  apply key_eqb_eq in He. auto.
Qed.

Lemma lookup_none (ri : nat) (rs : list row) (k : key) :
  lookup ri rs k = None -> ~ In k (map (fun r => cell_key (cell_at ri r)) rs).
Proof.
  unfold lookup. intros H Hin. apply in_map_iff in Hin. destruct Hin as [r [Hk Hr]].
  pose proof (find_none _ _ H r Hr) as Hf. simpl in Hf.
  rewrite <- Hk, key_eqb_refl in Hf. discriminate.
Qed.

Lemma lookup_in (ri : nat) (rs : list row) (k : key) :
  In k (map (fun r => cell_key (cell_at ri r)) rs) ->
  exists r, lookup ri rs k = Some r.
Proof.
  intros H. destruct (lookup ri rs k) as [r|] eqn:E; eauto.
  apply lookup_none in E. contradiction.
Qed.

Lemma map_suffixed_id (others l : list string) (suffix : string) :
  (forall c, In c l -> ~ In c others) -> map (suffixed others suffix) l = l.
Proof.
  intros H. rewrite <- (map_id l) at 2. apply map_ext_in. intros c Hc.
  unfold suffixed. apply H in Hc. apply mem_false_iff in Hc. rewrite Hc. reflexivity.
Qed.

Lemma flat_map_singleton (A B : Type) (f : A -> B) (l : list A) :
  flat_map (fun a => [f a]) l = map f l.
Proof. induction l as [|x l IH]; simpl; congruence. Qed.

Lemma merge_unique (left right : DataFrame) (left_on right_on : string) (li ri : nat) :
  get_loc left_on (columns left) = Some li ->
  get_loc right_on (columns right) = Some ri ->
  merge_dtype_error (map (cell_at li) (rows left)) (map (cell_at ri) (rows right)) = false ->
  NoDup (map (fun r => cell_key (cell_at ri r)) (rows right)) ->
  (forall c, In c (columns left) -> ~ In c (right_labels left_on right_on ri right)) ->
  merge left right left_on right_on
  = Ok (mkDataFrame
          (columns left ++ right_labels left_on right_on ri right)
          (map (fun l => l ++ joined_cells (String.eqb left_on right_on) ri
                                (length (right_labels left_on right_on ri right))
                                (rows right) (cell_key (cell_at li l)))
               (rows left))).
Proof.
  intros Hl Hr Hdt Hnd Hov. unfold merge.
  rewrite (loc_ok _ _ Hr), (loc_ok _ _ Hl). cbn [bind]. rewrite Hdt.
  fold (right_labels left_on right_on ri right).
  f_equal. f_equal.
  - rewrite map_suffixed_id by assumption.
    rewrite map_suffixed_id; [reflexivity|].
    intros c Hc Hin. exact (Hov c Hin Hc).
  - rewrite <- flat_map_singleton. apply flat_map_ext. intros l.
    rewrite (filter_distinct_keys _ _ _ Hnd). unfold joined_cells.
    destruct (lookup ri (rows right) (cell_key (cell_at li l))); reflexivity.
Qed.

(** The same, for a left frame that already extends the rows of a base
    table: the shape the fact table goes through, merge after merge. *)
Lemma merge_extend (cols extra : list string) (base : list row) (e : row -> row)
      (right : DataFrame) (left_on right_on : string) (li ri : nat) :
  get_loc left_on cols = Some li ->
  get_loc right_on (columns right) = Some ri ->
  (forall l, In l base -> length l = length cols) ->
  merge_dtype_error (map (cell_at li) base) (map (cell_at ri) (rows right)) = false ->
  NoDup (map (fun r => cell_key (cell_at ri r)) (rows right)) ->
  (forall c, In c (cols ++ extra) -> ~ In c (right_labels left_on right_on ri right)) ->
  merge (mkDataFrame (cols ++ extra) (map (fun l => l ++ e l) base)) right
        left_on right_on
  = Ok (mkDataFrame
          (cols ++ extra ++ right_labels left_on right_on ri right)
          (map (fun l => l ++ e l
                          ++ joined_cells (String.eqb left_on right_on) ri
                               (length (right_labels left_on right_on ri right))
                               (rows right) (cell_key (cell_at li l)))
               base)).
Proof.
  intros Hl Hr Hwf Hdt Hnd Hov.
  pose proof (get_loc_some _ _ Hl) as [Hlt _].
  assert (Hkey : forall l, In l base -> cell_at li (l ++ e l) = cell_at li l).
  { intros l Hin. apply cell_at_app_l. rewrite (Hwf l Hin). assumption. }
  rewrite (@merge_unique (mkDataFrame (cols ++ extra) (map (fun l => l ++ e l) base))
             right left_on right_on li ri); simpl columns; simpl rows; auto.
  - rewrite <- app_assoc. f_equal. f_equal. rewrite map_map.
    apply map_ext_in. intros l Hin. rewrite (Hkey l Hin), <- app_assoc. reflexivity.
  - apply get_loc_app_l. assumption.
  - rewrite map_map. rewrite (map_ext_in _ (cell_at li)); auto.
Qed.

(* ------------------------------------------------------------------ *)
(** * [create_fact_table] in closed form *)

Lemma dim_rows_in (u : list cell) (r : row) :
  In r (dim_rows u) -> exists v c, r = [v; c] /\ In c u /\ is_int v = true.
Proof.
  unfold dim_rows. intros H. apply in_map_iff in H. destruct H as [[c v] [<- Hin]].
  exists v, c. simpl. split; [reflexivity|].
  pose proof (in_combine_l _ _ _ _ Hin). pose proof (in_combine_r _ _ _ _ Hin) as Hv.
  split; auto. unfold range in Hv. apply in_map_iff in Hv. destruct Hv as [n [<- _]].
  reflexivity.
Qed.

Lemma map_snd_combine_range (A : Type) (u : list A) (vs : list cell) :
  length vs = length u -> map fst (combine u vs) = u /\ map snd (combine u vs) = vs.
Proof.
  revert vs. induction u as [|x u IH]; intros [|v vs] H; simpl in *; try discriminate; auto.
  destruct (IH vs) as [H1 H2]; [lia|]. rewrite H1, H2. auto.
Qed.

Lemma dim_rows_keys (u : list cell) : map (cell_at 1) (dim_rows u) = u.
Proof.
  unfold dim_rows. rewrite map_map. simpl.
  destruct (@map_snd_combine_range cell u (range 1 (length u + 1))) as [H _].
  { rewrite length_range. lia. }
  exact H.
Qed.

Lemma dim_rows_ids (u : list cell) :
  map (cell_at 0) (dim_rows u) = range 1 (length u + 1).
Proof.
  unfold dim_rows. rewrite map_map. simpl.
  destruct (@map_snd_combine_range cell u (range 1 (length u + 1))) as [_ H].
  { rewrite length_range. lia. }
  exact H.
Qed.

Lemma dim_rows_nodup (cs : list cell) :
  NoDup (map (fun r => cell_key (cell_at 1 r)) (dim_rows (unique cs))).
Proof.
  rewrite <- (map_map (cell_at 1) cell_key), dim_rows_keys. apply unique_nodup.
Qed.

Lemma joined_surrogate (u : list cell) (k : key) :
  joined_cells true 1 1 (dim_rows u) k = [surrogate_id u k].
Proof.
  unfold joined_cells, surrogate_id.
  destruct (lookup 1 (dim_rows u) k) as [r|] eqn:E; [|reflexivity].
  apply lookup_some in E. destruct E as [Hin _].
  apply dim_rows_in in Hin. destruct Hin as (v & c & -> & _). reflexivity.
Qed.

Lemma date_rows_keys (now_year : Z) (ys : list Z) :
  map (cell_at 1) (map (date_row now_year) ys) = map CInt ys.
Proof. rewrite map_map. reflexivity. Qed.

Lemma sorted_years_perm (cs : list cell) :
  Permutation (sorted_years cs) (map int_value (unique cs)).
Proof. apply insertion_sort_perm. Qed.

Lemma int_cells_keys (cs : list cell) :
  forallb is_int cs = true -> map cell_key cs = map KInt (map int_value cs).
Proof.
  intros H. rewrite (all_int_cells _ H) at 1. rewrite map_map. reflexivity.
Qed.

Lemma unique_all (p : cell -> bool) (cs : list cell) :
  forallb p cs = true -> forallb p (unique cs) = true.
Proof.
  rewrite !forallb_forall. intros H c Hc. apply H. apply unique_incl. assumption.
Qed.

Lemma sorted_years_nodup (cs : list cell) :
  forallb is_int cs = true -> NoDup (sorted_years cs).
Proof.
  intros H. eapply Permutation_NoDup; [apply Permutation_sym, sorted_years_perm|].
  pose proof (unique_nodup cs) as Hn.
  rewrite (int_cells_keys _ (unique_all _ _ H)) in Hn.
  apply NoDup_map_inv in Hn. assumption.
Qed.

Lemma date_rows_nodup (now_year : Z) (cs : list cell) :
  forallb is_int cs = true ->
  NoDup (map (fun r => cell_key (cell_at 1 r))
             (map (date_row now_year) (sorted_years cs))).
Proof.
  intros H. rewrite map_map. simpl.
  apply Finite.Injective_map_NoDup; [|apply sorted_years_nodup; assumption].
  intros a b Hab. congruence.
Qed.

Lemma sorted_years_nonempty (cs : list cell) : cs <> [] -> sorted_years cs <> [].
Proof.
  intros Hne Hs. apply Hne. apply unique_nil.
  pose proof (sorted_years_perm cs) as Hp. rewrite Hs in Hp.
  apply Permutation_nil in Hp. apply map_eq_nil in Hp. assumption.
Qed.

(** Text never clashes with text, nor integers with integers. *)
Lemma text_merge_ok (lk rk : list cell) :
  forallb is_text lk = true -> forallb is_text rk = true ->
  merge_dtype_error lk rk = false.
Proof.
  intros Hl Hr. destruct lk as [|a lk]; [reflexivity|].
  destruct rk as [|b rk]; [reflexivity|].
  unfold merge_dtype_error, number_dtype.
  simpl in Hl, Hr. apply andb_true_iff in Hl, Hr. destruct Hl as [Ha _], Hr as [Hb _].
  assert (is_number a = false) by (destruct a; simpl in *; congruence).
  assert (is_number b = false) by (destruct b; simpl in *; congruence).
  simpl forallb. rewrite H, H0. simpl. rewrite andb_false_r. reflexivity.
Qed.

Lemma int_merge_ok (lk rk : list cell) :
  forallb is_int lk = true -> forallb is_int rk = true ->
  merge_dtype_error lk rk = false.
Proof.
  intros Hl Hr.
  assert (Hn : forall cs, forallb is_int cs = true -> text_like cs = false).
  { intros cs H. unfold text_like, object_dtype, number_dtype.
    replace (forallb is_number cs) with true; [reflexivity|].
    symmetry. rewrite forallb_forall in *. intros c Hc. apply H in Hc.
    destruct c; simpl in *; congruence. }
  destruct lk as [|a lk]; [reflexivity|].
  destruct rk as [|b rk]; [reflexivity|].
  unfold merge_dtype_error. rewrite (Hn _ Hl), (Hn _ Hr).
  rewrite andb_false_r. reflexivity.
Qed.

Lemma field_loc (name : string) (df : DataFrame) (i : nat) (l : row) :
  get_loc name (columns df) = Some i -> cell_at i l = field name df l.
Proof. unfold field. intros ->. reflexivity. Qed.

Lemma getitem_list_ok (df : DataFrame) (names : list string) (idxs : list nat) :
  mapM (fun n => loc n (columns df)) names = Ok idxs ->
  getitem_list df names
  = Ok (mkDataFrame names (map (fun r => map (fun i => cell_at i r) idxs) (rows df))).
Proof. unfold getitem_list. intros ->. reflexivity. Qed.

Lemma loc_app_l (n : string) (l l' : list string) (i : nat) :
  get_loc n l = Some i -> loc n (l ++ l') = Ok i.
Proof. intros H. apply loc_ok, get_loc_app_l, H. Qed.

Lemma loc_app_r (n : string) (l l' : list string) (j : nat) :
  ~ In n l -> get_loc n l' = Some j -> loc n (l ++ l') = Ok (length l + j)%nat.
Proof.
  intros Hn Hj. apply loc_ok. rewrite get_loc_app_r by assumption.
  rewrite Hj. reflexivity.
Qed.

Lemma merge_surrogate_step (cols extra : list string) (base : list row)
      (e : row -> row) (df0 : DataFrame) (col idn : string) (li : nat) :
  get_loc col cols = Some li ->
  String.eqb idn col = false ->
  (forall l, In l base -> length l = length cols) ->
  forallb is_text (map (cell_at li) base) = true ->
  forallb is_text (column_cells col df0) = true ->
  (forall c, In c (cols ++ extra) -> c <> idn) ->
  merge (mkDataFrame (cols ++ extra) (map (fun l => l ++ e l) base))
        (surrogate_table df0 col idn) col col
  = Ok (mkDataFrame
          (cols ++ extra ++ [idn])
          (map (fun l => l ++ e l
                          ++ [surrogate_id (unique (column_cells col df0))
                                           (cell_key (cell_at li l))])
               base)).
Proof.
  intros Hl Hne Hwf Htl Htr Hov.
  assert (Hri : get_loc col (columns (surrogate_table df0 col idn)) = Some 1%nat).
  { simpl. rewrite String.eqb_sym, Hne, String.eqb_refl. reflexivity. }
  assert (Hlab : right_labels col col 1 (surrogate_table df0 col idn) = [idn]).
  { unfold right_labels. rewrite String.eqb_refl. reflexivity. }
  rewrite (@merge_extend cols extra base e _ col col li 1%nat Hl Hri Hwf).
  - rewrite Hlab, String.eqb_refl. simpl length. simpl rows.
    f_equal. f_equal. apply map_ext. intros l. rewrite joined_surrogate. reflexivity.
  - simpl rows. rewrite dim_rows_keys. apply text_merge_ok; auto.
    apply unique_all. assumption.
  - simpl rows. apply dim_rows_nodup.
  - rewrite Hlab. intros c Hc [Heq|[]]. apply (Hov c Hc). auto.
Qed.

Lemma merge_dates_step (cols extra : list string) (base : list row)
      (e : row -> row) (now_year : Z) (cs : list cell) (li : nat) :
  get_loc "Crop_Year" cols = Some li ->
  (forall l, In l base -> length l = length cols) ->
  forallb is_int (map (cell_at li) base) = true ->
  forallb is_int cs = true ->
  sorted_years cs <> [] ->
  (forall c, In c (cols ++ extra) -> ~ In c date_columns) ->
  merge (mkDataFrame (cols ++ extra) (map (fun l => l ++ e l) base))
        (dates_dimension now_year (sorted_years cs)) "Crop_Year" "Year"
  = Ok (mkDataFrame
          (cols ++ extra ++ date_columns)
          (map (fun l => l ++ e l
                          ++ joined_cells false 1 4
                               (map (date_row now_year) (sorted_years cs))
                               (cell_key (cell_at li l)))
               base)).
Proof.
  intros Hl Hwf Htl Htr Hne Hov.
  assert (Hcols : columns (dates_dimension now_year (sorted_years cs)) = date_columns).
  { unfold dates_dimension. destruct (sorted_years cs); [contradiction | reflexivity]. }
  assert (Hri : get_loc "Year" (columns (dates_dimension now_year (sorted_years cs)))
                = Some 1%nat).
  { rewrite Hcols. reflexivity. }
  assert (Hlab : right_labels "Crop_Year" "Year" 1
                   (dates_dimension now_year (sorted_years cs)) = date_columns).
  { unfold right_labels. simpl String.eqb. cbv iota. assumption. }
  rewrite (@merge_extend cols extra base e _ "Crop_Year" "Year" li 1%nat Hl Hri Hwf).
  - rewrite Hlab. reflexivity.
  - simpl rows. rewrite date_rows_keys. apply int_merge_ok; auto.
    rewrite forallb_forall. intros c Hc. apply in_map_iff in Hc.
    destruct Hc as [z [<- _]]. reflexivity.
  - simpl rows. apply date_rows_nodup. assumption.
  - rewrite Hlab. assumption.
Qed.

Lemma frame_as_extension (df : DataFrame) :
  df = mkDataFrame (columns df ++ []) (map (fun l => l ++ []) (rows df)).
Proof.
  destruct df as [cols rs]. simpl. rewrite app_nil_r. f_equal.
  rewrite <- (map_id rs) at 1. apply map_ext. intros l. rewrite app_nil_r. reflexivity.
Qed.

Lemma date_id_joined (now_year : Z) (ys : list Z) (k : key) :
  cell_at 0 (joined_cells false 1 4 (map (date_row now_year) ys) k)
  = date_id now_year ys k.
Proof.
  unfold joined_cells, date_id.
  destruct (lookup 1 (map (date_row now_year) ys) k); reflexivity.
Qed.

Lemma create_fact_table_ok (now_year : Z) (df0 df : DataFrame) :
  source_contract df0 = true ->
  source_contract df = true ->
  rows df0 <> [] ->
  create_fact_table df (dimensions_of now_year df0) = Ok (fact_table now_year df0 df).
Proof.
  intros H0 H Hne.
  destruct (source_contract_spec _ H0) as (_ & Hsrc0 & _ & HtS0 & HtC0 & HtSe0 & HtY0).
  destruct (source_contract_spec _ H) as (Hwf & Hsrc & Hres & HtS & HtC & HtSe & HtY).
  pose proof (well_formed_forall _ Hwf) as Hlen.
  destruct (get_loc_in _ _ (Hsrc "State_Name" ltac:(simpl; tauto))) as [iS HiS].
  destruct (get_loc_in _ _ (Hsrc "Crop" ltac:(simpl; tauto))) as [iC HiC].
  destruct (get_loc_in _ _ (Hsrc "Season" ltac:(simpl; tauto))) as [iSe HiSe].
  destruct (get_loc_in _ _ (Hsrc "Crop_Year" ltac:(simpl; tauto))) as [iY HiY].
  destruct (get_loc_in _ _ (Hsrc "District_Name" ltac:(simpl; tauto))) as [iD HiD].
  destruct (get_loc_in _ _ (Hsrc "Area_Hectares" ltac:(simpl; tauto))) as [iA HiA].
  destruct (get_loc_in _ _ (Hsrc "Production_Tonnes" ltac:(simpl; tauto))) as [iP HiP].
  destruct (get_loc_in _ _ (Hsrc "Yield_Per_Hectare" ltac:(simpl; tauto))) as [iYd HiYd].
  destruct (get_loc_in _ _ (Hsrc "Temperature_Avg" ltac:(simpl; tauto))) as [iT HiT].
  destruct (get_loc_in _ _ (Hsrc "Rainfall_MM" ltac:(simpl; tauto))) as [iR HiR].
  assert (Hy0 : sorted_years (column_cells "Crop_Year" df0) <> []).
  { apply sorted_years_nonempty.
    destruct (get_loc_in _ _ (Hsrc0 "Crop_Year" ltac:(simpl; tauto))) as [i0 Hi0].
    rewrite (column_cells_loc _ _ Hi0). intros Hm. apply map_eq_nil in Hm. auto. }
  set (uS := unique (column_cells "State_Name" df0)) in *.
  set (uC := unique (column_cells "Crop" df0)) in *.
  set (uSe := unique (column_cells "Season" df0)) in *.
  set (ys := sorted_years (column_cells "Crop_Year" df0)) in *.
  unfold create_fact_table.
  change (dict_get (dimensions_of now_year df0) "states")
    with (Ok (surrogate_table df0 "State_Name" "State_ID")).
  change (dict_get (dimensions_of now_year df0) "crops")
    with (Ok (surrogate_table df0 "Crop" "Crop_ID")).
  change (dict_get (dimensions_of now_year df0) "seasons")
    with (Ok (surrogate_table df0 "Season" "Season_ID")).
  change (dict_get (dimensions_of now_year df0) "dates")
    with (Ok (dates_dimension now_year ys)).
  cbn [bind].
  assert (Hnr : forall c, In c (columns df) -> ~ In c reserved_columns).
  { intros c Hc Hr. exact (Hres c Hr Hc). }
  rewrite (frame_as_extension df) at 1.
  rewrite (@merge_surrogate_step (columns df) [] (rows df) (fun _ => []) df0
             "State_Name" "State_ID" iS HiS eq_refl Hlen).
  2:{ rewrite <- (column_cells_loc _ _ HiS). assumption. }
  2:{ assumption. }
  2:{ rewrite app_nil_r. intros c Hc ->. apply (Hnr _ Hc). simpl. tauto. }
  cbn [bind app].
  rewrite (@merge_surrogate_step (columns df) ["State_ID"] (rows df) _ df0
             "Crop" "Crop_ID" iC HiC eq_refl Hlen).
  2:{ rewrite <- (column_cells_loc _ _ HiC). assumption. }
  2:{ assumption. }
  2:{ intros c Hc ->. apply in_app_or in Hc. destruct Hc as [Hc|Hc].
      - apply (Hnr _ Hc). simpl. tauto.
      - simpl in Hc. intuition discriminate. }
  cbn [bind app].
  rewrite (@merge_surrogate_step (columns df) ["State_ID"; "Crop_ID"] (rows df) _ df0
             "Season" "Season_ID" iSe HiSe eq_refl Hlen).
  2:{ rewrite <- (column_cells_loc _ _ HiSe). assumption. }
  2:{ assumption. }
  2:{ intros c Hc ->. apply in_app_or in Hc. destruct Hc as [Hc|Hc].
      - apply (Hnr _ Hc). simpl. tauto.
      - simpl in Hc. intuition discriminate. }
  cbn [bind app].
  unfold ys.
  rewrite (@merge_dates_step (columns df) ["State_ID"; "Crop_ID"; "Season_ID"] (rows df) _
             now_year _ iY HiY Hlen).
  2:{ rewrite <- (column_cells_loc _ _ HiY). assumption. }
  2:{ assumption. }
  2:{ exact Hy0. }
  2:{ intros c Hc Hd. apply in_app_or in Hc. destruct Hc as [Hc|Hc].
      - apply (Hnr _ Hc). simpl in *. tauto.
      - simpl in Hc, Hd. intuition (subst; discriminate). }
  cbn [bind app].
  set (n := length (columns df)).
  assert (Hid : forall name, In name reserved_columns -> ~ In name (columns df)) by exact Hres.
  rewrite (@getitem_list_ok _ fact_columns
             [ (n + 0)%nat; (n + 1)%nat; (n + 2)%nat; (n + 3)%nat;
               iD; iA; iP; iYd; iT; iR ]).
  2:{ simpl columns. unfold fact_columns. cbn [mapM].
      rewrite (@loc_app_r "State_ID" (columns df) _ 0) by (try apply Hid; simpl; tauto).
      rewrite (@loc_app_r "Crop_ID" (columns df) _ 1) by (try apply Hid; simpl; tauto).
      rewrite (@loc_app_r "Season_ID" (columns df) _ 2) by (try apply Hid; simpl; tauto).
      rewrite (@loc_app_r "Date_ID" (columns df) _ 3) by (try apply Hid; simpl; tauto).
      rewrite (@loc_app_l _ _ _ _ HiD), (@loc_app_l _ _ _ _ HiA),
              (@loc_app_l _ _ _ _ HiP), (@loc_app_l _ _ _ _ HiYd),
              (@loc_app_l _ _ _ _ HiT), (@loc_app_l _ _ _ _ HiR).
      reflexivity. }
  unfold fact_table. f_equal. f_equal. simpl rows. rewrite map_map.
  apply map_ext_in. intros l Hl. cbn [map]. unfold n. rewrite <- (Hlen l Hl).
  rewrite !cell_at_app_r.
  assert (Hin : forall name i, get_loc name (columns df) = Some i ->
                               forall ext, cell_at i (l ++ ext) = field name df l).
  { intros name i Hi ext. rewrite <- (field_loc _ _ l Hi). apply cell_at_app_l.
    rewrite (Hlen l Hl). apply (get_loc_some _ _ Hi). }
  rewrite (Hin _ _ HiD), (Hin _ _ HiA), (Hin _ _ HiP), (Hin _ _ HiYd),
          (Hin _ _ HiT), (Hin _ _ HiR).
  unfold fact_row.
  rewrite <- (field_loc _ _ l HiS), <- (field_loc _ _ l HiC),
          <- (field_loc _ _ l HiSe), <- (field_loc _ _ l HiY).
  change (cell_at 3 (?a :: ?b :: ?c :: ?d)) with (cell_at 0 d).
  rewrite date_id_joined. reflexivity.
Qed.

(** With no source row the date dimension has no column, and the merge on
    ["Year"] has nothing to join on. *)
Lemma create_fact_table_no_dates (now_year : Z) (df0 df : DataFrame) :
  source_contract df0 = true ->
  source_contract df = true ->
  rows df0 = [] ->
  create_fact_table df (dimensions_of now_year df0) = Raise (KeyError "Year").
Proof.
  intros H0 H Hemp.
  destruct (source_contract_spec _ H0) as (_ & Hsrc0 & _ & HtS0 & HtC0 & HtSe0 & HtY0).
  destruct (source_contract_spec _ H) as (Hwf & Hsrc & Hres & HtS & HtC & HtSe & HtY).
  pose proof (well_formed_forall _ Hwf) as Hlen.
  destruct (get_loc_in _ _ (Hsrc "State_Name" ltac:(simpl; tauto))) as [iS HiS].
  destruct (get_loc_in _ _ (Hsrc "Crop" ltac:(simpl; tauto))) as [iC HiC].
  destruct (get_loc_in _ _ (Hsrc "Season" ltac:(simpl; tauto))) as [iSe HiSe].
  assert (Hy0 : sorted_years (column_cells "Crop_Year" df0) = []).
  { unfold column_cells. rewrite Hemp. destruct (get_loc "Crop_Year" (columns df0)); reflexivity. }
  assert (Hnr : forall c, In c (columns df) -> ~ In c reserved_columns).
  { intros c Hc Hr. exact (Hres c Hr Hc). }
  unfold create_fact_table.
  change (dict_get (dimensions_of now_year df0) "states")
    with (Ok (surrogate_table df0 "State_Name" "State_ID")).
  change (dict_get (dimensions_of now_year df0) "crops")
    with (Ok (surrogate_table df0 "Crop" "Crop_ID")).
  change (dict_get (dimensions_of now_year df0) "seasons")
    with (Ok (surrogate_table df0 "Season" "Season_ID")).
  change (dict_get (dimensions_of now_year df0) "dates")
    with (Ok (dates_dimension now_year (sorted_years (column_cells "Crop_Year" df0)))).
  cbn [bind]. rewrite Hy0.
  rewrite (frame_as_extension df) at 1.
  rewrite (@merge_surrogate_step (columns df) [] (rows df) (fun _ => []) df0
             "State_Name" "State_ID" iS HiS eq_refl Hlen).
  2:{ rewrite <- (column_cells_loc _ _ HiS). assumption. }
  2:{ assumption. }
  2:{ rewrite app_nil_r. intros c Hc ->. apply (Hnr _ Hc). simpl. tauto. }
  cbn [bind app].
  rewrite (@merge_surrogate_step (columns df) ["State_ID"] (rows df) _ df0
             "Crop" "Crop_ID" iC HiC eq_refl Hlen).
  2:{ rewrite <- (column_cells_loc _ _ HiC). assumption. }
  2:{ assumption. }
  2:{ intros c Hc ->. apply in_app_or in Hc. destruct Hc as [Hc|Hc].
      - apply (Hnr _ Hc). simpl. tauto.
      - simpl in Hc. intuition discriminate. }
  cbn [bind app].
  rewrite (@merge_surrogate_step (columns df) ["State_ID"; "Crop_ID"] (rows df) _ df0
             "Season" "Season_ID" iSe HiSe eq_refl Hlen).
  2:{ rewrite <- (column_cells_loc _ _ HiSe). assumption. }
  2:{ assumption. }
  2:{ intros c Hc ->. apply in_app_or in Hc. destruct Hc as [Hc|Hc].
      - apply (Hnr _ Hc). simpl. tauto.
      - simpl in Hc. intuition discriminate. }
  cbn [bind app]. reflexivity.
Qed.

(** What [create_fact_table] returns against the dimensions of [df0]. *)
Lemma create_fact_table_cases (now_year : Z) (df0 df : DataFrame) :
  source_contract df0 = true ->
  source_contract df = true ->
  create_fact_table df (dimensions_of now_year df0)
  = match rows df0 with
    | [] => Raise (KeyError "Year")
    | _ => Ok (fact_table now_year df0 df)
    end.
Proof.
  intros H0 H. destruct (rows df0) as [|r rs] eqn:E.
  - apply create_fact_table_no_dates; assumption.
  - apply create_fact_table_ok; auto. rewrite E. discriminate.
Qed.

(* ------------------------------------------------------------------ *)
(** * Identifiers of matched and unmatched keys *)

Lemma dim_rows_lookup (u : list cell) (k : key) :
  In k (map cell_key u) ->
  exists v c, lookup 1 (dim_rows u) k = Some [v; c]
              /\ In [v; c] (dim_rows u) /\ is_int v = true /\ cell_key c = k.
Proof.
  intros Hin.
  destruct (@lookup_in 1 (dim_rows u) k) as [r Hr].
  { rewrite <- (map_map (cell_at 1) cell_key), dim_rows_keys. assumption. }
  destruct (lookup_some _ _ _ Hr) as [Hrin Hk].
  destruct (dim_rows_in _ _ Hrin) as (v & c & -> & _ & Hv).
  exists v, c. auto.
Qed.

Lemma surrogate_id_matched (u : list cell) (k : key) :
  In k (map cell_key u) -> exists n, surrogate_id u k = CInt n.
Proof.
  intros Hin. destruct (dim_rows_lookup _ _ Hin) as (v & c & Hl & _ & Hv & _).
  unfold surrogate_id. rewrite Hl. destruct v; try discriminate.
  eexists. reflexivity.
Qed.

Lemma surrogate_id_unmatched (u : list cell) (k : key) :
  ~ In k (map cell_key u) -> surrogate_id u k = NaN.
Proof.
  intros Hn. unfold surrogate_id.
  destruct (lookup 1 (dim_rows u) k) as [r|] eqn:E; [|reflexivity].
  exfalso. apply Hn. destruct (lookup_some _ _ _ E) as [Hin Hk].
  rewrite <- Hk. rewrite <- (dim_rows_keys u) at 1. rewrite map_map.
  apply in_map_iff. exists r. auto.
Qed.

Lemma date_rows_lookup (now_year : Z) (ys : list Z) (y : Z) :
  In y ys ->
  lookup 1 (map (date_row now_year) ys) (KInt y) = Some (date_row now_year y).
Proof.
  intros Hin.
  destruct (@lookup_in 1 (map (date_row now_year) ys) (KInt y)) as [r Hr].
  { rewrite map_map. simpl. apply in_map_iff. exists y. auto. }
  rewrite Hr. destruct (lookup_some _ _ _ Hr) as [Hrin Hk].
  apply in_map_iff in Hrin. destruct Hrin as [z [<- _]].
  simpl in Hk. inversion Hk; subst. reflexivity.
Qed.

Lemma date_id_matched (now_year : Z) (ys : list Z) (y : Z) :
  In y ys -> date_id now_year ys (KInt y) = CInt y.
Proof.
  intros Hin. unfold date_id. rewrite (date_rows_lookup _ _ _ Hin). reflexivity.
Qed.

Lemma date_id_unmatched (now_year : Z) (ys : list Z) (k : key) :
  ~ In k (map KInt ys) -> date_id now_year ys k = NaN.
Proof.
  intros Hn. unfold date_id.
  destruct (lookup 1 (map (date_row now_year) ys) k) as [r|] eqn:E; [|reflexivity].
  exfalso. apply Hn. destruct (lookup_some _ _ _ E) as [Hin Hk].
  apply in_map_iff in Hin. destruct Hin as [z [<- Hz]]. simpl in Hk.
  rewrite <- Hk. apply in_map. assumption.
Qed.

Lemma sorted_years_in (cs : list cell) (y : Z) :
  forallb is_int cs = true -> (In y (sorted_years cs) <-> In (CInt y) cs).
Proof.
  intros H. split.
  - intros Hin. apply (Permutation_in _ (sorted_years_perm cs)) in Hin.
    apply in_map_iff in Hin. destruct Hin as [c [Hc Hin]].
    apply unique_incl in Hin.
    rewrite forallb_forall in H. specialize (H c Hin).
    destruct c; try discriminate. simpl in Hc. subst. assumption.
  - intros Hin.
    apply (Permutation_in _ (Permutation_sym (sorted_years_perm cs))).
    assert (Hk : In (KInt y) (map cell_key (unique cs))).
    { apply unique_keys. apply in_map_iff. exists (CInt y). auto. }
    rewrite (int_cells_keys _ (unique_all _ _ H)) in Hk.
    apply in_map_iff in Hk. destruct Hk as [z [Hz Hin']]. inversion Hz; subst. assumption.
Qed.

Lemma field_in_column (name : string) (df : DataFrame) (l : row) :
  In name (columns df) -> In l (rows df) ->
  In (field name df l) (column_cells name df).
Proof.
  intros Hn Hl. destruct (get_loc_in _ _ Hn) as [i Hi].
  rewrite (column_cells_loc _ _ Hi), <- (field_loc _ _ l Hi).
  apply in_map. assumption.
Qed.

(* ================================================================== *)
(** * Fact table: row count *)

Lemma fact_table_len (now_year : Z) (df0 df : DataFrame) :
  len (fact_table now_year df0 df) = len df.
Proof. unfold len, fact_table. simpl. apply length_map. Qed.

(** C1.  Built against the dimensions of a source table [df0] that has at
    least one row, the fact table of [df] has exactly one row per row of
    [df], whether or not the keys of [df] occur in the dimensions; when
    [df0] has no row, the date dimension has no [Year] column and the
    builder raises [KeyError] instead of returning the empty fact table. *)
Theorem fact_table_row_count (now_year : Z) (df0 df : DataFrame) :
  source_contract df0 = true ->
  source_contract df = true ->
  build_fact_table now_year df0 df
  = match rows df0 with
    | [] => Raise (KeyError "Year")
    | _ => Ok (fact_table now_year df0 df)
    end
  /\ len (fact_table now_year df0 df) = len df.
Proof.
  intros H0 H. split; [|apply fact_table_len].
  unfold build_fact_table.
  rewrite (create_dimension_tables_ok _ _ (source_contract_dimension _ H0)).
  cbn [bind]. apply create_fact_table_cases; assumption.
Qed.

Lemma fact_table_row_count_witness :
  build_fact_table 2025 demo_empty demo_empty = Raise (KeyError "Year")
  /\ build_fact_table 2025 demo demo_other
     = Ok (fact_table 2025 demo demo_other)
  /\ len (fact_table 2025 demo demo_other) = 3%nat.
Proof.
  split; [|split].
  - exact (proj1 (@fact_table_row_count 2025 demo_empty demo_empty eq_refl eq_refl)).
  - exact (proj1 (@fact_table_row_count 2025 demo demo_other eq_refl eq_refl)).
  - exact (proj2 (@fact_table_row_count 2025 demo demo_other eq_refl eq_refl)).
Defined.

(* ================================================================== *)
(** * Fact table: identifiers of the pipeline are never missing *)

Lemma fact_ids_not_null (now_year : Z) (df : DataFrame) (l : row) (idn : string) :
  source_contract df = true ->
  In l (rows df) ->
  In idn id_columns ->
  isna (field idn (fact_table now_year df df) (fact_row now_year df df l)) = false.
Proof.
  intros H Hl Hid.
  destruct (source_contract_spec _ H) as (_ & Hsrc & _ & _ & _ & _ & HtY).
  assert (Hm : forall name, In name source_columns ->
                 In (cell_key (field name df l))
                    (map cell_key (unique (column_cells name df)))).
  { intros name Hn. apply unique_keys. apply in_map. apply field_in_column; auto. }
  simpl in Hid. destruct Hid as [<-|[<-|[<-|[<-|[]]]]].
  - destruct (surrogate_id_matched _ _ (Hm "State_Name" ltac:(simpl; tauto))) as [n Hn].
    unfold field, fact_table. simpl. unfold cell_at. simpl. rewrite Hn. reflexivity.
  - destruct (surrogate_id_matched _ _ (Hm "Crop" ltac:(simpl; tauto))) as [n Hn].
    unfold field, fact_table. simpl. unfold cell_at. simpl. rewrite Hn. reflexivity.
  - destruct (surrogate_id_matched _ _ (Hm "Season" ltac:(simpl; tauto))) as [n Hn].
    unfold field, fact_table. simpl. unfold cell_at. simpl. rewrite Hn. reflexivity.
  - assert (Hc : In (field "Crop_Year" df l) (column_cells "Crop_Year" df)).
    { apply field_in_column; auto. apply Hsrc. simpl. tauto. }
    assert (Hi : is_int (field "Crop_Year" df l) = true).
    { rewrite forallb_forall in HtY. auto. }
    destruct (field "Crop_Year" df l) as [| |y| |] eqn:E; try discriminate.
    unfold field at 1. unfold fact_table. simpl. unfold cell_at. simpl.
    rewrite E. simpl cell_key. rewrite date_id_matched; [reflexivity|].
    apply sorted_years_in; assumption.
Qed.

(** C10.  When the dimensions are built from the source table itself and
    the table meets the column contract (its years are int64, so none is
    missing), the fact table exists as soon as the table has a row, and in
    every fact row the four identifiers [State_ID], [Crop_ID], [Season_ID]
    and [Date_ID] are present (not null): each key of the table is in its
    dimension, a missing state, crop or season included. *)
Theorem pipeline_ids_never_null (now_year : Z) (df : DataFrame) :
  source_contract df = true ->
  (rows df <> [] ->
   exists dims fact, create_dimension_tables now_year df = Ok dims
                     /\ create_fact_table df dims = Ok fact)
  /\ (forall dims fact,
        create_dimension_tables now_year df = Ok dims ->
        create_fact_table df dims = Ok fact ->
        len fact = len df
        /\ forall r idn, In r (rows fact) -> In idn id_columns ->
                         isna (field idn fact r) = false).
Proof.
  intros H.
  pose proof (create_dimension_tables_ok now_year _ (source_contract_dimension _ H)) as Hd.
  pose proof (@create_fact_table_cases now_year df df H H) as Hf.
  split.
  - intros Hne. exists (dimensions_of now_year df), (fact_table now_year df df).
    split; [assumption|]. rewrite Hf. destruct (rows df); [contradiction | reflexivity].
  - intros dims fact Hdims Hfact. rewrite Hd in Hdims. inversion Hdims; subst dims.
    rewrite Hf in Hfact. destruct (rows df) as [|r0 rs] eqn:E; [discriminate|].
    inversion Hfact; subst fact. split; [apply fact_table_len|].
    intros r idn Hr Hid. unfold fact_table in Hr. simpl in Hr.
    apply in_map_iff in Hr. destruct Hr as [l [<- Hl]].
    apply fact_ids_not_null; assumption.
Qed.

Lemma pipeline_ids_never_null_witness :
  exists dims fact,
    create_dimension_tables 2025 demo = Ok dims
    /\ create_fact_table demo dims = Ok fact
    /\ len fact = 3%nat
    /\ forall r idn, In r (rows fact) -> In idn id_columns ->
                     isna (field idn fact r) = false.
Proof.
  destruct (@pipeline_ids_never_null 2025 demo eq_refl) as [Hex Hall].
  destruct Hex as (dims & fact & Hd & Hf); [discriminate|].
  exists dims, fact. split; [assumption|]. split; [assumption|].
  exact (Hall dims fact Hd Hf).
Defined.

(** C10, as stated, fails when a year is missing: [Date_ID] is the year
    itself.  The one row of [demo_missing_year] has no year; the date
    dimension built from the table has the one row of the missing year, the
    fact table built against it has the identifier 1 for the state, the crop
    and the season, and a [Date_ID] that is null. *)
Lemma missing_year_has_null_date_id :
  exists dims dates fact,
    getitem demo_missing_year "Crop_Year" = Ok [NaN]
    /\ create_dimension_tables 2025 demo_missing_year = Ok dims
    /\ dict_get dims "dates" = Ok dates
    /\ dates = mkDataFrame date_columns [ [NaN; NaN; CStr "nans"; CBool false] ]
    /\ create_fact_table demo_missing_year dims = Ok fact
    /\ getitem_list fact id_columns
       = Ok (mkDataFrame id_columns [ [CInt 1; CInt 1; CInt 1; NaN] ])
    /\ map isna [CInt 1; CInt 1; CInt 1; NaN] = [false; false; false; true].
Proof.
  eexists. eexists. eexists.
  split; [vm_compute; reflexivity|].
  split; [vm_compute; reflexivity|].
  split; [vm_compute; reflexivity|].
  split; [vm_compute; reflexivity|].
  split; [vm_compute; reflexivity|].
  split; vm_compute; reflexivity.
Qed.

(* ================================================================== *)
(** * Dimension tables: keys and identifiers *)

Lemma length_dim_rows (u : list cell) : length (dim_rows u) = length u.
Proof.
  rewrite <- (dim_rows_keys u) at 2. rewrite length_map. reflexivity.
Qed.

Lemma surrogate_table_first_seen (df : DataFrame) (col idn : string) :
  String.eqb idn col = false ->
  first_seen_dimension (column_cells col df) idn col (surrogate_table df col idn).
Proof.
  intros Hne. unfold first_seen_dimension, surrogate_table.
  set (u := unique (column_cells col df)).
  split; [reflexivity|]. split.
  - unfold getitem, loc, len. simpl. rewrite String.eqb_refl. cbn [bind].
    rewrite dim_rows_ids, length_dim_rows. reflexivity.
  - exists u. split; [|split; [|split]].
    + unfold getitem, loc. simpl. rewrite String.eqb_sym, Hne, String.eqb_refl.
      cbn [option_map bind]. rewrite dim_rows_keys. reflexivity.
    + apply unique_nodup.
    + intros k. apply unique_keys.
    + intros i j. apply unique_ordered.
Qed.

Lemma dates_dimension_years (now_year : Z) (cs : list cell) :
  forallb is_int cs = true ->
  year_dimension now_year cs (dates_dimension now_year (sorted_years cs)).
Proof.
  intros H. exists (sorted_years cs). split; [reflexivity|]. split; [reflexivity|]. split.
  - apply sorted_nodup_strict; [apply insertion_sort_Z | apply sorted_years_nodup; assumption].
  - intros y. apply sorted_years_in. assumption.
Qed.

(** C2.  The State, Crop and Season dimensions hold each distinct value
    once, numbered 1..n in order of first appearance in the source table.
    The date dimension holds each distinct year once, but in ascending
    order of the year, and its identifier [Date_ID] is the year itself. *)
Theorem dimension_tables_keys (now_year : Z) (df : DataFrame) :
  dimension_contract df = true ->
  exists states crops seasons dates,
    create_dimension_tables now_year df
    = Ok [ ("states", states); ("crops", crops); ("seasons", seasons);
           ("dates", dates) ]
    /\ first_seen_dimension (column_cells "State_Name" df) "State_ID" "State_Name" states
    /\ first_seen_dimension (column_cells "Crop" df) "Crop_ID" "Crop" crops
    /\ first_seen_dimension (column_cells "Season" df) "Season_ID" "Season" seasons
    /\ year_dimension now_year (column_cells "Crop_Year" df) dates.
Proof.
  intros H. destruct (dimension_contract_spec _ H) as (_ & _ & _ & _ & Hy).
  exists (surrogate_table df "State_Name" "State_ID"),
         (surrogate_table df "Crop" "Crop_ID"),
         (surrogate_table df "Season" "Season_ID"),
         (dates_dimension now_year (sorted_years (column_cells "Crop_Year" df))).
  split; [apply create_dimension_tables_ok; assumption|].
  repeat split; try (apply surrogate_table_first_seen; reflexivity).
  apply dates_dimension_years. assumption.
Qed.

Lemma dimension_tables_keys_witness :
  exists states crops seasons dates,
    create_dimension_tables 2025 demo
    = Ok [ ("states", states); ("crops", crops); ("seasons", seasons);
           ("dates", dates) ]
    /\ first_seen_dimension (column_cells "State_Name" demo) "State_ID" "State_Name" states
    /\ first_seen_dimension (column_cells "Crop" demo) "Crop_ID" "Crop" crops
    /\ first_seen_dimension (column_cells "Season" demo) "Season_ID" "Season" seasons
    /\ year_dimension 2025 (column_cells "Crop_Year" demo) dates.
Proof. exact (@dimension_tables_keys 2025 demo eq_refl). Defined.

(** C2, as stated, fails for the Year dimension: in [demo] the years appear
    as 2019, 2018, 2019; the date dimension lists 2018 before 2019 and
    numbers them 2018 and 2019, not 1 and 2. *)
Lemma date_ids_are_years :
  exists dims dates,
    create_dimension_tables 2025 demo = Ok dims
    /\ dict_get dims "dates" = Ok dates
    /\ getitem demo "Crop_Year" = Ok [CInt 2019; CInt 2018; CInt 2019]
    /\ getitem dates "Year" = Ok [CInt 2018; CInt 2019]
    /\ getitem dates "Date_ID" = Ok [CInt 2018; CInt 2019]
    /\ getitem dates "Date_ID" <> Ok (range 1 (len dates + 1)).
Proof.
  eexists. eexists. split; [vm_compute; reflexivity|].
  split; [vm_compute; reflexivity|].
  split; [vm_compute; reflexivity|].
  split; [vm_compute; reflexivity|].
  split; [vm_compute; reflexivity|].
  vm_compute. discriminate.
Qed.

(* ================================================================== *)
(** * Dimension tables: a missing column *)

(** C3.  When one of the four key columns is absent from the source table,
    [create_dimension_tables] raises [KeyError] for the first absent one
    (in the order State, Crop, Season, Year) and returns no dimension at
    all. *)
Theorem missing_dimension_column (now_year : Z) (df : DataFrame) (c : string) :
  find (fun n => negb (mem n (columns df))) dimension_source_columns = Some c ->
  create_dimension_tables now_year df = Raise (KeyError c).
Proof.
  intros H. rewrite create_dimension_tables_unfold.
  unfold dimension_source_columns in H. simpl in H.
  destruct (mem "State_Name" (columns df)) eqn:E1; simpl in H.
  2:{ inversion H; subst. apply mem_false_iff in E1.
      rewrite (@surrogate_dimension_missing df "State_Name" "State_ID" E1). reflexivity. }
  apply mem_true_iff in E1.
  rewrite (@surrogate_dimension_table df "State_Name" "State_ID" E1 eq_refl). cbn [bind].
  destruct (mem "Crop" (columns df)) eqn:E2; simpl in H.
  2:{ inversion H; subst. apply mem_false_iff in E2.
      rewrite (@surrogate_dimension_missing df "Crop" "Crop_ID" E2). reflexivity. }
  apply mem_true_iff in E2.
  rewrite (@surrogate_dimension_table df "Crop" "Crop_ID" E2 eq_refl). cbn [bind].
  destruct (mem "Season" (columns df)) eqn:E3; simpl in H.
  2:{ inversion H; subst. apply mem_false_iff in E3.
      rewrite (@surrogate_dimension_missing df "Season" "Season_ID" E3). reflexivity. }
  apply mem_true_iff in E3.
  rewrite (@surrogate_dimension_table df "Season" "Season_ID" E3 eq_refl). cbn [bind].
  destruct (mem "Crop_Year" (columns df)) eqn:E4; simpl in H; [discriminate|].
  inversion H; subst. apply mem_false_iff in E4.
  unfold getitem. rewrite (loc_missing _ _ E4). reflexivity.
Qed.

Lemma missing_dimension_column_witness :
  create_dimension_tables 2025 demo_no_season = Raise (KeyError "Season").
Proof. exact (@missing_dimension_column 2025 demo_no_season "Season" eq_refl). Defined.

(** C3, as stated, fails: without the [Season] column no dimension table
    is returned, so there is no empty season dimension either. *)
Lemma no_empty_dimension_for_missing_column :
  ~ exists dims seasons,
      create_dimension_tables 2025 demo_no_season = Ok dims
      /\ dict_get dims "seasons" = Ok seasons
      /\ rows seasons = [].
Proof.
  intros (dims & seasons & H & _).
  assert (E : create_dimension_tables 2025 demo_no_season = Raise (KeyError "Season"))
    by (vm_compute; reflexivity).
  rewrite E in H. discriminate.
Qed.

(* ================================================================== *)
(** * Round trip: from the fact table back to the natural keys *)

Lemma number_merge_ok (lk rk : list cell) :
  forallb is_number lk = true -> forallb is_number rk = true ->
  merge_dtype_error lk rk = false.
Proof.
  intros Hl Hr.
  assert (Hn : forall cs, forallb is_number cs = true -> text_like cs = false).
  { intros cs H. unfold text_like, object_dtype, number_dtype. rewrite H. reflexivity. }
  destruct lk as [|a lk]; [reflexivity|].
  destruct rk as [|b rk]; [reflexivity|].
  unfold merge_dtype_error. rewrite (Hn _ Hl), (Hn _ Hr).
  rewrite andb_false_r. reflexivity.
Qed.

Lemma surrogate_id_number (u : list cell) (k : key) :
  is_number (surrogate_id u k) = true.
Proof.
  unfold surrogate_id. destruct (lookup 1 (dim_rows u) k) as [r|] eqn:E; [|reflexivity].
  apply lookup_some in E. destruct E as [Hin _].
  apply dim_rows_in in Hin. destruct Hin as (v & c & -> & _ & Hv).
  destruct v; try discriminate. reflexivity.
Qed.

Lemma date_id_number (now_year : Z) (ys : list Z) (k : key) :
  is_number (date_id now_year ys k) = true.
Proof.
  unfold date_id. destruct (lookup 1 (map (date_row now_year) ys) k) as [r|] eqn:E;
    [|reflexivity].
  apply lookup_some in E. destruct E as [Hin _].
  apply in_map_iff in Hin. destruct Hin as [y [<- _]]. reflexivity.
Qed.

Lemma range_keys_nodup (a n : nat) : NoDup (map cell_key (range a (a + n))).
Proof.
  unfold range. rewrite map_map. simpl.
  apply Finite.Injective_map_NoDup.
  - intros x y Hxy. inversion Hxy. lia.
  - apply seq_NoDup.
Qed.

Lemma dim_rows_ids_nodup (u : list cell) :
  NoDup (map (fun r => cell_key (cell_at 0 r)) (dim_rows u)).
Proof.
  rewrite <- (map_map (cell_at 0) cell_key), dim_rows_ids.
  replace (length u + 1)%nat with (1 + length u)%nat by lia.
  apply range_keys_nodup.
Qed.

Lemma nodup_map_inj (A B : Type) (f : A -> B) (l : list A) (a b : A) :
  NoDup (map f l) -> In a l -> In b l -> f a = f b -> a = b.
Proof.
  induction l as [|x l IH]; simpl; intros Hnd Ha Hb Hf; [contradiction|].
  inversion Hnd as [|? ? Hnin Hnd']; subst.
  destruct Ha as [->|Ha], Hb as [->|Hb]; auto.
  - exfalso. apply Hnin. rewrite Hf. apply in_map. assumption.
  - exfalso. apply Hnin. rewrite <- Hf. apply in_map. assumption.
Qed.

Lemma recovered_key_matched (u : list cell) (k : key) :
  In k (map cell_key u) ->
  exists c, recovered_key u k = c /\ In c u /\ cell_key c = k.
Proof.
  intros Hin. destruct (dim_rows_lookup _ _ Hin) as (v & c & Hl & Hrow & Hv & Hk).
  unfold recovered_key, surrogate_id. rewrite Hl.
  change (cell_at 0 [v; c]) with v.
  destruct (@lookup_in 0 (dim_rows u) (cell_key v)) as [r Hr].
  { apply in_map_iff. exists [v; c]. auto. }
  rewrite Hr. destruct (lookup_some _ _ _ Hr) as [Hrin Hrk].
  assert (r = [v; c]).
  { apply (nodup_map_inj (fun r => cell_key (cell_at 0 r)) (dim_rows u)); auto.
    apply dim_rows_ids_nodup. }
  subst r. exists c. split; [reflexivity|]. split; [|assumption].
  rewrite <- (dim_rows_keys u). apply in_map_iff. exists [v; c]. auto.
Qed.

Lemma joined_recovered (u : list cell) (k : key) :
  joined_cells true 0 1 (dim_rows u) (cell_key (surrogate_id u k)) = [recovered_key u k].
Proof.
  unfold joined_cells, recovered_key.
  destruct (lookup 0 (dim_rows u) (cell_key (surrogate_id u k))) as [r|] eqn:E;
    [|reflexivity].
  apply lookup_some in E. destruct E as [Hin _].
  apply dim_rows_in in Hin. destruct Hin as (v & c & -> & _). reflexivity.
Qed.

Lemma text_key_inj (a b : cell) :
  is_text a = true -> is_text b = true -> cell_key a = cell_key b -> a = b.
Proof.
  destruct a, b; simpl; intros Ha Hb H; try discriminate; congruence.
Qed.

Lemma getitem_ok (df : DataFrame) (name : string) (i : nat) :
  get_loc name (columns df) = Some i ->
  getitem df name = Ok (map (cell_at i) (rows df)).
Proof. intros H. unfold getitem. rewrite (loc_ok _ _ H). reflexivity. Qed.

Lemma nth_map_lt (A B : Type) (f : A -> B) (l : list A) (i : nat) (d : B) (d' : A) :
  (i < length l)%nat -> nth i (map f l) d = f (nth i l d').
Proof.
  intros H. rewrite (nth_indep _ d (f d')) by (rewrite length_map; assumption).
  apply map_nth.
Qed.

Lemma round_trip_surrogate (now_year : Z) (df0 df : DataFrame)
      (name col idn : string) (j : nat) :
  In col (columns df) ->
  forallb is_text (column_cells col df) = true ->
  forallb is_text (column_cells col df0) = true ->
  get_loc idn fact_columns = Some j ->
  String.eqb idn col = false ->
  ~ In col fact_columns ->
  (forall l, cell_at j (fact_row now_year df0 df l)
             = surrogate_id (unique (column_cells col df0))
                            (cell_key (field col df l))) ->
  round_trip df (fact_table now_year df0 df) (surrogate_table df0 col idn)
             (mkAxis name col idn col).
Proof.
  intros Hcol Ht Ht0 Hj Hne Hnin Hcell.
  destruct (get_loc_in _ _ Hcol) as [i Hi].
  set (u := unique (column_cells col df0)) in *.
  assert (Hri : get_loc idn (columns (surrogate_table df0 col idn)) = Some 0%nat).
  { simpl. rewrite String.eqb_refl. reflexivity. }
  assert (Hlab : right_labels idn idn 0 (surrogate_table df0 col idn) = [col]).
  { unfold right_labels. rewrite String.eqb_refl. reflexivity. }
  exists (mkDataFrame (fact_columns ++ [col])
            (map (fun l => fact_row now_year df0 df l
                           ++ [recovered_key u (cell_key (field col df l))])
                 (rows df))),
         (map (cell_at i) (rows df)),
         u,
         (map (fun l => recovered_key u (cell_key (field col df l))) (rows df)).
  cbn [id_column source_column natural_key].
  split; [|split; [|split; [|split; [|split]]]].
  - rewrite (@merge_unique (fact_table now_year df0 df) (surrogate_table df0 col idn)
               idn idn j 0%nat Hj Hri).
    + rewrite Hlab, String.eqb_refl. simpl columns. f_equal. f_equal.
      simpl rows. rewrite map_map. apply map_ext. intros l.
      rewrite Hcell. fold u. simpl length. rewrite joined_recovered. reflexivity.
    + apply number_merge_ok.
      * simpl rows. rewrite map_map, forallb_forall. intros c Hc.
        apply in_map_iff in Hc. destruct Hc as [l [<- _]]. rewrite Hcell.
        apply surrogate_id_number.
      * simpl rows. rewrite dim_rows_ids, forallb_forall. intros c Hc.
        unfold range in Hc. apply in_map_iff in Hc. destruct Hc as [n [<- _]].
        reflexivity.
    + simpl rows. apply dim_rows_ids_nodup.
    + rewrite Hlab. intros c Hc [<-|[]]. contradiction.
  - apply getitem_ok. assumption.
  - unfold getitem, loc. simpl. rewrite String.eqb_sym, Hne, String.eqb_refl.
    cbn [option_map bind]. rewrite dim_rows_keys. reflexivity.
  - rewrite (@getitem_ok _ col (length fact_columns + 0)%nat).
    + simpl rows. rewrite map_map. reflexivity.
    + cbn [columns]. rewrite get_loc_app_r by assumption.
      cbn [get_loc]. rewrite String.eqb_refl. reflexivity.
  - rewrite !length_map. reflexivity.
  - intros n Hn Hmatch. rewrite length_map in Hn.
    rewrite (@nth_map_lt _ _ _ (rows df) n CNone [] Hn).
    rewrite (@nth_map_lt _ _ _ (rows df) n CNone [] Hn) in Hmatch |- *.
    set (l := nth n (rows df) []) in *.
    assert (Hl : In l (rows df)) by (apply nth_In; assumption).
    rewrite (field_loc _ _ l Hi) in Hmatch |- *.
    destruct (recovered_key_matched _ _ Hmatch) as (c & -> & Hc & Hk).
    apply text_key_inj; auto.
    + pose proof (unique_all _ _ Ht0) as Hu. rewrite forallb_forall in Hu. auto.
    + rewrite forallb_forall in Ht. apply Ht. apply field_in_column; assumption.
Qed.

Lemma date_rows_lookup_id (now_year : Z) (ys : list Z) (y : Z) :
  In y ys ->
  lookup 0 (map (date_row now_year) ys) (KInt y) = Some (date_row now_year y).
Proof.
  intros Hin.
  destruct (@lookup_in 0 (map (date_row now_year) ys) (KInt y)) as [r Hr].
  { rewrite map_map. simpl. apply in_map_iff. exists y. auto. }
  rewrite Hr. destruct (lookup_some _ _ _ Hr) as [Hrin Hk].
  apply in_map_iff in Hrin. destruct Hrin as [z [<- _]].
  simpl in Hk. inversion Hk; subst. reflexivity.
Qed.

Lemma recovered_year_matched (now_year : Z) (ys : list Z) (y : Z) :
  In y ys -> recovered_year now_year ys (KInt y) = CInt y.
Proof.
  intros Hin. unfold recovered_year, joined_cells.
  rewrite (date_id_matched _ _ _ Hin). simpl cell_key.
  rewrite (date_rows_lookup_id _ _ _ Hin). reflexivity.
Qed.

Lemma round_trip_dates (now_year : Z) (df0 df : DataFrame) :
  In "Crop_Year" (columns df) ->
  forallb is_int (column_cells "Crop_Year" df) = true ->
  forallb is_int (column_cells "Crop_Year" df0) = true ->
  sorted_years (column_cells "Crop_Year" df0) <> [] ->
  round_trip df (fact_table now_year df0 df)
             (dates_dimension now_year (sorted_years (column_cells "Crop_Year" df0)))
             (mkAxis "dates" "Crop_Year" "Date_ID" "Year").
Proof.
  intros Hcol Ht Ht0 Hne.
  destruct (get_loc_in _ _ Hcol) as [i Hi].
  set (ys := sorted_years (column_cells "Crop_Year" df0)) in *.
  assert (Hcols : columns (dates_dimension now_year ys) = date_columns).
  { unfold dates_dimension. destruct ys; [contradiction | reflexivity]. }
  assert (Hri : get_loc "Date_ID" (columns (dates_dimension now_year ys)) = Some 0%nat).
  { rewrite Hcols. reflexivity. }
  assert (Hlab : right_labels "Date_ID" "Date_ID" 0 (dates_dimension now_year ys)
                 = ["Year"; "Decade"; "IsCurrentYear"]).
  { unfold right_labels. rewrite Hcols. reflexivity. }
  exists (mkDataFrame (fact_columns ++ ["Year"; "Decade"; "IsCurrentYear"])
            (map (fun l => fact_row now_year df0 df l
                           ++ joined_cells true 0 3 (map (date_row now_year) ys)
                                (cell_key (date_id now_year ys
                                             (cell_key (field "Crop_Year" df l)))))
                 (rows df))),
         (map (cell_at i) (rows df)),
         (map CInt ys),
         (map (fun l => recovered_year now_year ys (cell_key (field "Crop_Year" df l)))
              (rows df)).
  cbn [id_column source_column natural_key].
  split; [|split; [|split; [|split; [|split]]]].
  - rewrite (@merge_unique (fact_table now_year df0 df) (dates_dimension now_year ys)
               "Date_ID" "Date_ID" 3%nat 0%nat eq_refl Hri).
    + rewrite Hlab. cbn [columns]. f_equal. f_equal.
      simpl rows. rewrite map_map. apply map_ext. intros l. reflexivity.
    + apply number_merge_ok.
      * simpl rows. rewrite map_map, forallb_forall. intros c Hc.
        apply in_map_iff in Hc. destruct Hc as [l [<- _]].
        apply date_id_number.
      * simpl rows. rewrite map_map, forallb_forall. intros c Hc.
        apply in_map_iff in Hc. destruct Hc as [y [<- _]]. reflexivity.
    + simpl rows. rewrite map_map. simpl.
      apply Finite.Injective_map_NoDup; [|apply sorted_years_nodup; assumption].
      intros a b Hab. congruence.
    + rewrite Hlab. intros c Hc Hin. simpl in Hc, Hin.
      intuition (subst; discriminate).
  - apply getitem_ok. assumption.
  - rewrite (@getitem_ok _ "Year" 1%nat) by (rewrite Hcols; reflexivity).
    simpl rows. rewrite date_rows_keys. reflexivity.
  - rewrite (@getitem_ok _ "Year" 10%nat) by reflexivity.
    simpl rows. rewrite map_map. reflexivity.
  - rewrite !length_map. reflexivity.
  - intros n Hn Hmatch. rewrite length_map in Hn.
    rewrite (@nth_map_lt _ _ _ (rows df) n CNone [] Hn).
    rewrite (@nth_map_lt _ _ _ (rows df) n CNone [] Hn) in Hmatch |- *.
    set (l := nth n (rows df) []) in *.
    assert (Hl : In l (rows df)) by (apply nth_In; assumption).
    rewrite (field_loc _ _ l Hi) in Hmatch |- *.
    assert (Hint : is_int (field "Crop_Year" df l) = true).
    { rewrite forallb_forall in Ht. apply Ht. apply field_in_column; assumption. }
    destruct (field "Crop_Year" df l) as [| |y| |]; try discriminate.
    simpl cell_key in *. rewrite map_map in Hmatch. simpl in Hmatch.
    apply in_map_iff in Hmatch. destruct Hmatch as [z [Hz Hin]].
    inversion Hz; subst z. apply recovered_year_matched. assumption.
Qed.

(** C5.  For each of the four axes, joining the fact table back to the
    dimension on the surrogate identifier gives back, on every source row
    whose natural key is in the dimension, that natural key. *)
Theorem round_trip_identity (now_year : Z) (df0 df : DataFrame) :
  source_contract df0 = true ->
  source_contract df = true ->
  (rows df0 <> [] ->
   exists dims fact, create_dimension_tables now_year df0 = Ok dims
                     /\ create_fact_table df dims = Ok fact)
  /\ (forall dims fact,
        create_dimension_tables now_year df0 = Ok dims ->
        create_fact_table df dims = Ok fact ->
        forall ax, In ax axes ->
          exists dim, dict_get dims (dimension ax) = Ok dim
                      /\ round_trip df fact dim ax).
Proof.
  intros H0 H.
  pose proof (create_dimension_tables_ok now_year _ (source_contract_dimension _ H0)) as Hd.
  pose proof (@create_fact_table_cases now_year df0 df H0 H) as Hf.
  split.
  - intros Hne. exists (dimensions_of now_year df0), (fact_table now_year df0 df).
    split; [assumption|]. rewrite Hf. destruct (rows df0); [contradiction | reflexivity].
  - intros dims fact Hdims Hfact. rewrite Hd in Hdims. inversion Hdims; subst dims.
    rewrite Hf in Hfact. destruct (rows df0) as [|r0 rs] eqn:E; [discriminate|].
    inversion Hfact; subst fact.
    destruct (source_contract_spec _ H0) as (_ & Hsrc0 & _ & HtS0 & HtC0 & HtSe0 & HtY0).
    destruct (source_contract_spec _ H) as (_ & Hsrc & _ & HtS & HtC & HtSe & HtY).
    intros ax Hax. simpl in Hax. destruct Hax as [<-|[<-|[<-|[<-|[]]]]].
    + exists (surrogate_table df0 "State_Name" "State_ID"). split; [reflexivity|].
      apply (@round_trip_surrogate now_year df0 df "states" "State_Name" "State_ID" 0);
        auto; try reflexivity.
      * apply Hsrc. simpl. tauto.
      * simpl. intuition discriminate.
    + exists (surrogate_table df0 "Crop" "Crop_ID"). split; [reflexivity|].
      apply (@round_trip_surrogate now_year df0 df "crops" "Crop" "Crop_ID" 1);
        auto; try reflexivity.
      * apply Hsrc. simpl. tauto.
      * simpl. intuition discriminate.
    + exists (surrogate_table df0 "Season" "Season_ID"). split; [reflexivity|].
      apply (@round_trip_surrogate now_year df0 df "seasons" "Season" "Season_ID" 2);
        auto; try reflexivity.
      * apply Hsrc. simpl. tauto.
      * simpl. intuition discriminate.
    + exists (dates_dimension now_year (sorted_years (column_cells "Crop_Year" df0))).
      split; [reflexivity|].
      apply round_trip_dates; auto.
      * apply Hsrc. simpl. tauto.
      * apply sorted_years_nonempty.
        destruct (get_loc_in _ _ (Hsrc0 "Crop_Year" ltac:(simpl; tauto))) as [i0 Hi0].
        rewrite (column_cells_loc _ _ Hi0), E. discriminate.
Qed.

Lemma round_trip_identity_witness :
  exists dims fact,
    create_dimension_tables 2025 demo = Ok dims
    /\ create_fact_table demo_other dims = Ok fact
    /\ forall ax, In ax axes ->
         exists dim, dict_get dims (dimension ax) = Ok dim
                     /\ round_trip demo_other fact dim ax.
Proof.
  destruct (@round_trip_identity 2025 demo demo_other eq_refl eq_refl) as [Hex Hall].
  destruct Hex as (dims & fact & Hd & Hf); [discriminate|].
  exists dims, fact. split; [assumption|]. split; [assumption|].
  exact (Hall dims fact Hd Hf).
Defined.

(* ================================================================== *)
(** * Lemmas on [mapM] and on the group keys *)

Lemma mapM_forall2 (A B : Type) (f : A -> result B) (l : list A) (bs : list B) :
  mapM f l = Ok bs -> Forall2 (fun a b => f a = Ok b) l bs.
Proof.
  revert bs. induction l as [|a l IH]; simpl; intros bs H.
  - inversion H. constructor.
  - destruct (f a) as [b|e] eqn:E; simpl in H; [|discriminate].
    destruct (mapM f l) as [bs'|e]; simpl in H; [|discriminate].
    inversion H; subst. constructor; auto.
Qed.

Lemma mapM_total (A B : Type) (f : A -> result B) (l : list A) :
  (forall a, In a l -> exists b, f a = Ok b) -> exists bs, mapM f l = Ok bs.
Proof.
  induction l as [|a l IH]; simpl; intros H; [eauto|].
  destruct (H a) as [b Hb]; auto. rewrite Hb. simpl.
  destruct IH as [bs Hbs]; auto. rewrite Hbs. simpl. eauto.
Qed.

Lemma mapM_length (A B : Type) (f : A -> result B) (l : list A) (bs : list B) :
  mapM f l = Ok bs -> length bs = length l.
Proof.
  intros H. apply mapM_forall2 in H. symmetry. eapply Forall2_length. eassumption.
Qed.

Lemma ints_of_some (cs : list cell) (zs : list Z) :
  ints_of cs = Some zs -> cs = map CInt zs.
Proof.
  revert zs. induction cs as [|c cs IH]; intros zs H.
  - inversion H. reflexivity.
  - change (ints_of (c :: cs))
      with (match c, ints_of cs with
            | CInt z, Some l => Some (z :: l)
            | _, _ => None
            end) in H.
    destruct c; try discriminate. destruct (ints_of cs) as [l|]; [|discriminate].
    inversion H; subst. simpl. f_equal. auto.
Qed.

Lemma strs_of_some (cs : list cell) (ss : list string) :
  strs_of cs = Some ss -> cs = map CStr ss.
Proof.
  revert ss. induction cs as [|c cs IH]; intros ss H.
  - inversion H. reflexivity.
  - change (strs_of (c :: cs))
      with (match c, strs_of cs with
            | CStr s, Some l => Some (s :: l)
            | _, _ => None
            end) in H.
    destruct c; try discriminate. destruct (strs_of cs) as [l|]; [|discriminate].
    inversion H; subst. simpl. f_equal. auto.
Qed.

Lemma floats_of_some (cs : list cell) (fs : list float) :
  floats_of cs = Some fs -> cs = map CFloat fs.
Proof.
  revert fs. induction cs as [|c cs IH]; intros fs H.
  - inversion H. reflexivity.
  - change (floats_of (c :: cs))
      with (match c, floats_of cs with
            | CFloat f, Some l => Some (f :: l)
            | _, _ => None
            end) in H.
    destruct c; try discriminate. destruct (floats_of cs) as [l|]; [|discriminate].
    inversion H; subst. simpl. f_equal. auto.
Qed.

Lemma bools_of_some (cs : list cell) (bs : list bool) :
  bools_of cs = Some bs -> cs = map CBool bs.
Proof.
  revert bs. induction cs as [|c cs IH]; intros bs H.
  - inversion H. reflexivity.
  - change (bools_of (c :: cs))
      with (match c, bools_of cs with
            | CBool b, Some l => Some (b :: l)
            | _, _ => None
            end) in H.
    destruct c; try discriminate. destruct (bools_of cs) as [l|]; [|discriminate].
    inversion H; subst. simpl. f_equal. auto.
Qed.

Lemma strs_of_CStr (ss : list string) : strs_of (map CStr ss) = Some ss.
Proof.
  induction ss as [|s ss IH]; [reflexivity|].
  change (strs_of (map CStr (s :: ss)))
    with (match strs_of (map CStr ss) with
          | Some l => Some (s :: l)
          | None => None
          end).
  rewrite IH. reflexivity.
Qed.

(** Sorting the group keys permutes them. *)
Lemma sort_keys_perm (cs ks : list cell) :
  sort_keys cs = Ok ks -> Permutation ks cs.
Proof.
  unfold sort_keys. intros H.
  destruct (ints_of cs) as [zs|] eqn:Ei.
  { inversion H; subst ks. rewrite (ints_of_some _ Ei).
    apply Permutation_map, insertion_sort_perm. }
  destruct (strs_of cs) as [ss|] eqn:Es.
  { inversion H; subst ks. rewrite (strs_of_some _ Es).
    apply Permutation_map, insertion_sort_perm. }
  destruct (floats_of cs) as [fs|] eqn:Ef.
  { inversion H; subst ks. rewrite (floats_of_some _ Ef).
    apply Permutation_map, insertion_sort_perm. }
  destruct (bools_of cs) as [bs|] eqn:Eb; [|discriminate].
  inversion H; subst ks. rewrite (bools_of_some _ Eb).
  apply Permutation_map, insertion_sort_perm.
Qed.

(** The group keys are the distinct keys of the column that are not
    missing, each once. *)
Lemma group_keys_spec (cs ks : list cell) :
  group_keys cs = Ok ks ->
  NoDup (map cell_key ks)
  /\ (forall c, In c ks -> isna c = false)
  /\ (forall k, In k (map cell_key ks) <-> k <> KNull /\ In k (map cell_key cs)).
Proof.
  unfold group_keys. intros H. apply sort_keys_perm in H.
  set (present := filter (fun c => negb (isna c)) cs) in *.
  assert (Hna : forall c, In c ks -> isna c = false).
  { intros c Hc. apply (Permutation_in _ H) in Hc. apply unique_incl in Hc.
    apply filter_In in Hc. destruct Hc as [_ Hc]. apply negb_true_iff. assumption. }
  split; [|split; [assumption|]].
  - eapply Permutation_NoDup; [apply Permutation_map, Permutation_sym, H|].
    apply unique_nodup.
  - intros k. split.
    + intros Hk. apply in_map_iff in Hk. destruct Hk as [c [<- Hc]].
      pose proof (Hna c Hc) as Hn.
      apply (Permutation_in _ H) in Hc. apply unique_incl in Hc.
      apply filter_In in Hc. destruct Hc as [Hc _]. split.
      * unfold isna in Hn. intros E. rewrite E in Hn. discriminate.
      * apply in_map. assumption.
    + intros [Hnn Hk].
      apply (Permutation_in _ (Permutation_map cell_key (Permutation_sym H))).
      apply unique_keys. apply in_map_iff in Hk. destruct Hk as [c [<- Hc]].
      apply in_map. apply filter_In. split; [assumption|].
      apply negb_true_iff. unfold isna. destruct (cell_key c); congruence.
Qed.

(* ================================================================== *)
(** * [groupby(...).agg(...)]: structure of the result *)

Lemma groupby_agg_inv (df g : DataFrame) (by_ : string) (spec : list (string * aggfn)) :
  groupby_agg df by_ spec = Ok g ->
  exists ki idxs keys,
    get_loc by_ (columns df) = Some ki
    /\ mapM (fun cf => i <- loc (fst cf) (columns df) ;; Ok (i, snd cf)) spec = Ok idxs
    /\ group_keys (map (cell_at ki) (rows df)) = Ok keys
    /\ columns g = by_ :: map fst spec
    /\ Forall2 (fun k r =>
                  exists vals,
                    r = k :: vals
                    /\ mapM (fun ifn : nat * aggfn =>
                               aggregate (snd ifn)
                                 (forallb is_int (map (cell_at (fst ifn)) (rows df)))
                                 (map (cell_at (fst ifn)) (group_of df ki k)))
                            idxs = Ok vals)
               keys (rows g).
Proof.
  unfold groupby_agg, loc. intros H.
  destruct (get_loc by_ (columns df)) as [ki|] eqn:Ek; [|discriminate].
  cbn [bind] in H.
  match type of H with
  | bind ?m _ = _ => destruct m as [idxs|] eqn:Ei; [|discriminate]
  end.
  cbn [bind] in H.
  match type of H with
  | bind ?m _ = _ => destruct m as [u|]; [|discriminate]
  end.
  cbn [bind] in H.
  destruct (group_keys (map (cell_at ki) (rows df))) as [keys|] eqn:Eg; [|discriminate].
  cbn [bind] in H.
  match type of H with
  | bind ?m _ = _ => destruct m as [out|] eqn:Eo; [|discriminate]
  end.
  cbn [bind] in H. inversion H; subst g. clear H.
  exists ki, idxs, keys. repeat split; auto.
  apply mapM_forall2 in Eo. cbn [rows].
  eapply Forall2_impl; [|exact Eo].
  intros k r Hr. cbv beta in Hr.
  match type of Hr with
  | bind ?m _ = _ => destruct m as [vals|] eqn:Ev; [|discriminate]
  end.
  cbn [bind] in Hr. inversion Hr; subst r. exists vals. split; [reflexivity|].
  exact Ev.
Qed.

Lemma Forall2_map_l (A B : Type) (f : B -> A) (R : A -> B -> Prop)
      (l : list A) (l' : list B) :
  Forall2 R l l' -> (forall a b, R a b -> f b = a) -> map f l' = l.
Proof.
  induction 1 as [|a b l l' Hab Hl IH]; simpl; intros Hf; auto.
  rewrite (Hf a b Hab), IH; auto.
Qed.

Lemma groupby_agg_keys (df g : DataFrame) (by_ : string) (spec : list (string * aggfn)) :
  groupby_agg df by_ spec = Ok g ->
  group_keys (column_cells by_ df) = Ok (map (cell_at 0) (rows g)).
Proof.
  intros H. destruct (groupby_agg_inv _ _ _ H) as (ki & idxs & keys & Hk & _ & Hg & _ & Hr).
  rewrite (column_cells_loc _ _ Hk), Hg. f_equal. symmetry.
  eapply Forall2_map_l; [exact Hr|].
  intros k r (vals & -> & _). reflexivity.
Qed.

Lemma round_3_keys (g : DataFrame) :
  (forall r, In r (rows g) -> r <> []) ->
  map (cell_at 0) (rows (round_3 g)) = map (cell_at 0) (rows g).
Proof.
  intros H. unfold round_3. cbn [rows]. rewrite map_map.
  apply map_ext_in. intros r Hr. specialize (H r Hr).
  destruct r; [contradiction | reflexivity].
Qed.

Lemma Forall2_in_r (A B : Type) (R : A -> B -> Prop) (l : list A) (l' : list B)
      (b : B) :
  Forall2 R l l' -> In b l' -> exists a, In a l /\ R a b.
Proof.
  induction 1 as [|a0 b0 l l' Hab Hl IH]; simpl; intros Hin; [contradiction|].
  destruct Hin as [->|Hin]; [exists a0; auto|].
  destruct (IH Hin) as (a & Ha & HR). exists a. auto.
Qed.

Lemma groupby_agg_rows_nonempty (df g : DataFrame) (by_ : string)
      (spec : list (string * aggfn)) :
  groupby_agg df by_ spec = Ok g -> forall r, In r (rows g) -> r <> [].
Proof.
  intros H r Hr. destruct (groupby_agg_inv _ _ _ H) as (ki & idxs & keys & _ & _ & _ & _ & Hf).
  destruct (Forall2_in_r _ Hf Hr) as (k & _ & vals & -> & _).
  discriminate.
Qed.

(* ================================================================== *)
(** * Columns under the contract of the Summary Aggregator *)

Lemma all_str_cells (cs : list cell) :
  forallb is_str cs = true -> cs = map CStr (map str_value cs).
Proof.
  induction cs as [|c cs IH]; simpl; intros H; auto.
  apply andb_true_iff in H. destruct H as [Hc Hcs].
  destruct c; try discriminate. simpl. f_equal. auto.
Qed.

Lemma all_float_cells (cs : list cell) :
  forallb is_float cs = true -> cs = map CFloat (map float_value cs).
Proof.
  induction cs as [|c cs IH]; simpl; intros H; auto.
  apply andb_true_iff in H. destruct H as [Hc Hcs].
  destruct c; try discriminate. simpl. f_equal. auto.
Qed.

Lemma floats_of_CFloat (fs : list float) : floats_of (map CFloat fs) = Some fs.
Proof.
  induction fs as [|f fs IH]; [reflexivity|].
  change (floats_of (map CFloat (f :: fs)))
    with (match floats_of (map CFloat fs) with
          | Some l => Some (f :: l)
          | None => None
          end).
  rewrite IH. reflexivity.
Qed.

Lemma sort_keys_total (u : list cell) :
  forallb is_str u || forallb is_int u || forallb is_float u = true ->
  exists ks, sort_keys u = Ok ks.
Proof.
  intros H. unfold sort_keys.
  destruct (ints_of u) as [zs|] eqn:Ei; [eauto|].
  destruct (strs_of u) as [ss|] eqn:Es; [eauto|].
  destruct (floats_of u) as [fs|] eqn:Ef; [eauto|].
  exfalso. rewrite !orb_true_iff in H. destruct H as [[H|H]|H].
  - rewrite (all_str_cells _ H), strs_of_CStr in Es. discriminate.
  - rewrite (all_int_cells _ H), ints_of_CInt in Ei. discriminate.
  - rewrite (all_float_cells _ H), floats_of_CFloat in Ef. discriminate.
Qed.

Lemma forallb_incl (p : cell -> bool) (l l' : list cell) :
  (forall c, In c l' -> In c l) -> forallb p l = true -> forallb p l' = true.
Proof. rewrite !forallb_forall. auto. Qed.

Lemma group_keys_total (cs : list cell) :
  key_column_ok cs = true -> exists ks, group_keys cs = Ok ks.
Proof.
  unfold key_column_ok, group_keys. intros H. apply sort_keys_total.
  set (u := unique (filter (fun c => negb (isna c)) cs)).
  assert (Hin : forall c, In c u -> In c cs /\ isna c = false).
  { intros c Hc. apply unique_incl in Hc. apply filter_In in Hc.
    destruct Hc as [Hc Hn]. apply negb_true_iff in Hn. auto. }
  rewrite !orb_true_iff in H. rewrite !orb_true_iff. destruct H as [[H|H]|H].
  - left. left. rewrite forallb_forall in *. intros c Hc.
    destruct (Hin c Hc) as [Hcs Hn]. specialize (H c Hcs).
    destruct c; try discriminate; reflexivity.
  - left. right. eapply forallb_incl; [|exact H]. intros c Hc. apply Hin. assumption.
  - right. eapply forallb_incl; [|exact H]. intros c Hc. apply Hin. assumption.
Qed.

Lemma as_floats_total (cs : list cell) :
  forallb is_number cs = true -> exists vs, as_floats cs = Ok vs.
Proof.
  intros H. apply mapM_total. rewrite forallb_forall in H. intros c Hc.
  specialize (H c Hc). destruct c; try discriminate; eauto.
Qed.

Lemma aggregate_total (f : aggfn) (int64 : bool) (cs : list cell) :
  f = agg_nunique \/ forallb is_number cs = true ->
  exists c, aggregate f int64 cs = Ok c.
Proof.
  intros [->|H]; [simpl; eauto|].
  destruct (as_floats_total _ H) as [vs Hvs].
  destruct f; unfold aggregate.
  - destruct int64; [eauto|]. rewrite Hvs. cbn [bind]. eauto.
  - rewrite Hvs. cbn [bind]. eauto.
  - rewrite Hvs. cbn [bind]. eauto.
  - destruct int64, (map int_value cs); try (rewrite Hvs; cbn [bind]); eauto.
  - eauto.
Qed.

Lemma groupby_agg_total (df : DataFrame) (by_ : string) (spec : list (string * aggfn)) :
  In by_ (columns df) ->
  key_column_ok (column_cells by_ df) = true ->
  (forall cf, In cf spec ->
     exists i, get_loc (fst cf) (columns df) = Some i /\ aggregable df (i, snd cf)) ->
  exists g, groupby_agg df by_ spec = Ok g.
Proof.
  intros Hby Hkey Hspec. destruct (get_loc_in _ _ Hby) as [ki Hki].
  unfold groupby_agg. rewrite (loc_ok _ _ Hki). cbn [bind].
  destruct (@mapM_total _ _
              (fun cf : string * aggfn => i <- loc (fst cf) (columns df) ;; Ok (i, snd cf))
              spec) as [idxs Hidxs].
  { intros cf Hcf. destruct (Hspec cf Hcf) as (i & Hi & _).
    rewrite (loc_ok _ _ Hi). simpl. eauto. }
  rewrite Hidxs. cbn [bind].
  assert (Hagg : forall ifn, In ifn idxs -> aggregable df ifn).
  { intros ifn Hin. apply mapM_forall2 in Hidxs.
    destruct (Forall2_in_r _ Hidxs Hin) as (cf & Hcf & Hr).
    destruct (Hspec cf Hcf) as (i & Hi & Ha).
    rewrite (loc_ok _ _ Hi) in Hr. simpl in Hr. inversion Hr; subst. assumption. }
  destruct (@mapM_total _ _
              (fun ifn : nat * aggfn =>
                 check_dtype (snd ifn) (map (cell_at (fst ifn)) (rows df))) idxs)
    as [u Hu].
  { intros ifn Hin. destruct (Hagg ifn Hin) as [Hn|Hn].
    - rewrite Hn. simpl. eauto.
    - destruct (as_floats_total _ Hn) as [vs Hvs].
      destruct (snd ifn); unfold check_dtype; try rewrite Hvs; cbn [bind]; eauto. }
  rewrite Hu. cbn [bind].
  rewrite (column_cells_loc _ _ Hki) in Hkey.
  destruct (group_keys_total _ Hkey) as [keys Hkeys]. rewrite Hkeys. cbn [bind].
  match goal with
  | |- exists g, bind (mapM ?F keys) _ = _ =>
      destruct (@mapM_total _ _ F keys) as [out Hout]
  end.
  { intros k _.
    match goal with
    | |- exists b, bind (mapM ?F idxs) _ = _ =>
        destruct (@mapM_total _ _ F idxs) as [vals Hvals]
    end.
    - intros ifn Hin. apply aggregate_total.
      destruct (Hagg ifn Hin) as [Hn|Hn]; [left; assumption|right].
      rewrite forallb_forall in *. intros c Hc. apply Hn.
      apply in_map_iff in Hc. destruct Hc as [r [<- Hr]].
      apply filter_In in Hr. apply in_map. tauto.
    - rewrite Hvals. simpl. eauto. }
  rewrite Hout. simpl. eauto.
Qed.

(* ================================================================== *)
(** * [create_summary_tables]: structure of the result *)

Lemma groupby_agg_columns (df g : DataFrame) (by_ : string)
      (spec : list (string * aggfn)) :
  groupby_agg df by_ spec = Ok g -> columns g = by_ :: map fst spec.
Proof.
  intros H. destruct (groupby_agg_inv _ _ _ H) as (? & ? & ? & _ & _ & _ & Hc & _).
  exact Hc.
Qed.

Lemma create_summary_tables_inv (df : DataFrame) (summaries : dict DataFrame) :
  create_summary_tables df = Ok summaries ->
  exists g1 g2 g3,
    groupby_agg df "State_Name" state_spec = Ok g1
    /\ groupby_agg df "Crop" crop_spec = Ok g2
    /\ groupby_agg df "Crop_Year" year_spec = Ok g3
    /\ summaries
       = [ ("state_summary", mkDataFrame state_summary_columns (rows (round_3 g1)));
           ("crop_summary", mkDataFrame crop_summary_columns (rows (round_3 g2)));
           ("yearly_trends", round_3 g3) ].
Proof.
  unfold create_summary_tables. fold state_spec crop_spec year_spec. intros H.
  destruct (groupby_agg df "State_Name" state_spec) as [g1|] eqn:E1; [|discriminate].
  cbn [bind] in H. unfold set_columns in H at 1. cbn [round_3 columns] in H.
  rewrite (groupby_agg_columns _ _ _ E1) in H. cbn in H.
  destruct (groupby_agg df "Crop" crop_spec) as [g2|] eqn:E2; [|discriminate].
  cbn [bind] in H. unfold set_columns in H at 1. cbn [round_3 columns] in H.
  rewrite (groupby_agg_columns _ _ _ E2) in H. cbn in H.
  destruct (groupby_agg df "Crop_Year" year_spec) as [g3|] eqn:E3; [|discriminate].
  cbn [bind] in H. inversion H; subst summaries.
  exists g1, g2, g3. repeat split; reflexivity.
Qed.

Lemma summary_contract_spec (df : DataFrame) :
  summary_contract df = true ->
  (exists i, get_loc "State_Name" (columns df) = Some i)
  /\ (exists i, get_loc "Crop" (columns df) = Some i)
  /\ (exists i, get_loc "Crop_Year" (columns df) = Some i)
  /\ key_column_ok (column_cells "State_Name" df) = true
  /\ key_column_ok (column_cells "Crop" df) = true
  /\ key_column_ok (column_cells "Crop_Year" df) = true
  /\ (forall name, In name ["Area_Hectares"; "Production_Tonnes"; "Yield_Per_Hectare"] ->
        exists i, get_loc name (columns df) = Some i
                  /\ forallb is_number (map (cell_at i) (rows df)) = true).
Proof.
  unfold summary_contract. rewrite !andb_true_iff, orb_true_iff.
  intros [[[[[[_ Hs] Hc] Hy] Ha] Hp] Hyd].
  destruct (column_all_spec _ _ _ Hs) as (iS & HiS & HtS).
  destruct (column_all_spec _ _ _ Hc) as (iC & HiC & HtC).
  destruct (column_all_spec _ _ _ Ha) as (iA & HiA & HtA).
  destruct (column_all_spec _ _ _ Hp) as (iP & HiP & HtP).
  destruct (column_all_spec _ _ _ Hyd) as (iYd & HiYd & HtYd).
  rewrite (column_cells_loc _ _ HiA) in HtA.
  rewrite (column_cells_loc _ _ HiP) in HtP.
  rewrite (column_cells_loc _ _ HiYd) in HtYd.
  split; [eauto|]. split; [eauto|].
  assert (HY : (exists i, get_loc "Crop_Year" (columns df) = Some i)
               /\ key_column_ok (column_cells "Crop_Year" df) = true).
  { unfold key_column_ok. destruct Hy as [Hy|Hy];
      destruct (column_all_spec _ _ _ Hy) as (iY & HiY & HtY); rewrite HtY;
      split; eauto; rewrite ?orb_true_r; reflexivity. }
  destruct HY as [HY1 HY2]. split; [assumption|].
  unfold key_column_ok. rewrite HtS, HtC. simpl.
  repeat split; auto.
  intros name Hn. simpl in Hn. destruct Hn as [<-|[<-|[<-|[]]]]; eauto.
Qed.

Lemma create_summary_tables_total (df : DataFrame) :
  summary_contract df = true ->
  exists summaries, create_summary_tables df = Ok summaries.
Proof.
  intros H.
  destruct (summary_contract_spec _ H)
    as ([iS HiS] & [iC HiC] & [iY HiY] & HkS & HkC & HkY & Hnum).
  assert (Hin : forall name i, get_loc name (columns df) = Some i -> In name (columns df)).
  { intros name i Hi. destruct (in_dec string_dec name (columns df)) as [|Hn]; auto.
    apply get_loc_none in Hn. congruence. }
  assert (Hm : forall name fn,
             In name ["Area_Hectares"; "Production_Tonnes"; "Yield_Per_Hectare"] ->
             exists i, get_loc name (columns df) = Some i /\ aggregable df (i, fn)).
  { intros name fn Hn. destruct (Hnum name Hn) as (i & Hi & Ht).
    exists i. split; auto. right. assumption. }
  destruct (@groupby_agg_total df "State_Name" state_spec) as [g1 E1]; eauto.
  { intros cf Hcf. simpl in Hcf.
    destruct Hcf as [<-|[<-|[<-|[<-|[<-|[<-|[<-|[]]]]]]]];
      try (apply Hm; simpl; tauto).
    exists iC. split; auto. left. reflexivity. }
  destruct (@groupby_agg_total df "Crop" crop_spec) as [g2 E2]; eauto.
  { intros cf Hcf. simpl in Hcf.
    destruct Hcf as [<-|[<-|[<-|[<-|[<-|[<-|[<-|[]]]]]]]];
      try (apply Hm; simpl; tauto).
    exists iS. split; auto. left. reflexivity. }
  destruct (@groupby_agg_total df "Crop_Year" year_spec) as [g3 E3]; eauto.
  { intros cf Hcf. simpl in Hcf.
    destruct Hcf as [<-|[<-|[<-|[]]]]; apply Hm; simpl; tauto. }
  unfold create_summary_tables. fold state_spec crop_spec year_spec.
  rewrite E1. cbn [bind]. unfold set_columns at 1. cbn [round_3 columns].
  rewrite (groupby_agg_columns _ _ _ E1). cbn.
  rewrite E2. cbn [bind]. unfold set_columns at 1. cbn [round_3 columns].
  rewrite (groupby_agg_columns _ _ _ E2). cbn.
  rewrite E3. cbn [bind]. eauto.
Qed.

(* ================================================================== *)
(** * State summary: the standard deviation of a group of one *)







(* ================================================================== *)
(** * Summaries: the groups are the keys that are present *)

Lemma summary_keys (df g : DataFrame) (by_ : string) (spec : list (string * aggfn))
      (cols : list string) :
  groupby_agg df by_ spec = Ok g ->
  getitem (mkDataFrame (by_ :: cols) (rows (round_3 g))) by_
  = Ok (map (cell_at 0) (rows g))
  /\ groups_of_present_keys (column_cells by_ df) (map (cell_at 0) (rows g)).
Proof.
  intros H. split.
  - unfold getitem, loc. cbn [columns get_loc]. rewrite String.eqb_refl. cbn [bind rows].
    rewrite <- (round_3_keys g (groupby_agg_rows_nonempty _ _ _ H)). reflexivity.
  - apply group_keys_spec. apply (groupby_agg_keys _ _ _ H).
Qed.

(** C8.  Each of the three summaries has one row per distinct value of its
    grouping column that is not missing; a missing value is no group key,
    so the source rows with a missing key are left out of the summary. *)
Theorem null_keys_form_no_group (df : DataFrame) :
  summary_contract df = true ->
  exists summaries,
    create_summary_tables df = Ok summaries
    /\ forall name by_, In (name, by_) summary_axes ->
         exists summary keys,
           dict_get summaries name = Ok summary
           /\ getitem summary by_ = Ok keys
           /\ groups_of_present_keys (column_cells by_ df) keys.
Proof.
  intros H. destruct (create_summary_tables_total _ H) as [summaries Hs].
  exists summaries. split; [assumption|].
  destruct (create_summary_tables_inv _ Hs) as (g1 & g2 & g3 & E1 & E2 & E3 & ->).
  intros name by_ Hin. simpl in Hin.
  destruct Hin as [Heq|[Heq|[Heq|[]]]]; inversion Heq; subst name by_.
  - exists (mkDataFrame state_summary_columns (rows (round_3 g1))),
           (map (cell_at 0) (rows g1)).
    split; [reflexivity|].
    exact (@summary_keys df g1 "State_Name" state_spec (tl state_summary_columns) E1).
  - exists (mkDataFrame crop_summary_columns (rows (round_3 g2))),
           (map (cell_at 0) (rows g2)).
    split; [reflexivity|].
    exact (@summary_keys df g2 "Crop" crop_spec (tl crop_summary_columns) E2).
  - exists (round_3 g3), (map (cell_at 0) (rows g3)).
    split; [reflexivity|].
    pose proof (@summary_keys df g3 "Crop_Year" year_spec (map fst year_spec) E3) as Hk.
    unfold round_3 at 1. rewrite (groupby_agg_columns _ _ _ E3). exact Hk.
Qed.

Lemma null_keys_form_no_group_witness :
  exists summaries,
    create_summary_tables demo_null_state = Ok summaries
    /\ forall name by_, In (name, by_) summary_axes ->
         exists summary keys,
           dict_get summaries name = Ok summary
           /\ getitem summary by_ = Ok keys
           /\ groups_of_present_keys (column_cells by_ demo_null_state) keys.
Proof. exact (@null_keys_form_no_group demo_null_state eq_refl). Defined.

(** C8, as stated, fails: two of the three rows of [demo_null_state] have
    no state; the state summary has the one row of Punjab, with Punjab's
    totals, and no row for the missing key. *)
Lemma null_state_rows_dropped :
  getitem demo_null_state "State_Name" = Ok [CNone; CStr "Punjab"; CNone]
  /\ (summaries <- create_summary_tables demo_null_state ;;
      state_summary <- dict_get summaries "state_summary" ;;
      getitem_list state_summary ["State_Name"; "Total_Area"; "Total_Production"])
     = Ok (mkDataFrame ["State_Name"; "Total_Area"; "Total_Production"]
                       [ [CStr "Punjab"; CFloat 20; CFloat 200] ]).
Proof. split; vm_compute; reflexivity. Qed.

(* ================================================================== *)
(** * State summary: the synthetic three-row table *)

(** C6.  On the synthetic table the state summary reports, for A, total
    area 30, mean area 15, total production 300, mean production 150, and
    for B total area 30 and total production 150, whatever the yields. *)
Theorem synthetic_state_summary (y1 y2 y3 : float) :
  state_totals (synthetic y1 y2 y3)
  = Ok (mkDataFrame
          [ "State_Name"; "Total_Area"; "Avg_Area"; "Total_Production";
            "Avg_Production" ]
          [ [ CStr "A"; CFloat 30; CFloat 15; CFloat 300; CFloat 150 ];
            [ CStr "B"; CFloat 30; CFloat 30; CFloat 150; CFloat 150 ] ])
  /\ state_totals (synthetic_int y1 y2 y3)
     = Ok (mkDataFrame
             [ "State_Name"; "Total_Area"; "Avg_Area"; "Total_Production";
               "Avg_Production" ]
             [ [ CStr "A"; CInt 30; CFloat 15; CInt 300; CFloat 150 ];
               [ CStr "B"; CInt 30; CFloat 30; CInt 150; CFloat 150 ] ]).
Proof. split; vm_compute; reflexivity. Qed.

(* ================================================================== *)
(** * Outlier detection leaves the table alone *)

Section Frame.

Variable globals : Type.
Variable table : globals -> DataFrame.

Lemma keeps_ret (A : Type) (a : A) : keeps_table table (ret a).
Proof. intros g. reflexivity. Qed.

Lemma keeps_lift (A : Type) (r : result A) : keeps_table table (lift r).
Proof. intros g. reflexivity. Qed.

Lemma keeps_bind (A B : Type) (m : script globals A) (k : A -> script globals B) :
  keeps_table table m -> (forall a, keeps_table table (k a)) ->
  keeps_table table (seq_bind m k).
Proof.
  intros Hm Hk g. unfold seq_bind. specialize (Hm g).
  destruct (m g) as [[a|e] g']; simpl in *.
  - rewrite Hk. assumption.
  - assumption.
Qed.

Lemma keeps_for_each (A : Type) (l : list A) (body : A -> script globals unit) :
  (forall a, keeps_table table (body a)) -> keeps_table table (for_each l body).
Proof.
  intros Hb. induction l as [|a l IH]; simpl.
  - apply keeps_ret.
  - apply keeps_bind; auto.
Qed.

End Frame.

Lemma cleaning_outlier_detection_keeps :
  keeps_table Cleaning.df Cleaning.outlier_detection.
Proof.
  unfold Cleaning.outlier_detection.
  apply keeps_bind; [intros g; reflexivity|]. intros d.
  apply keeps_bind; [intros g; reflexivity|]. intros _.
  apply keeps_for_each. intros col.
  apply keeps_bind; [intros g; reflexivity|]. intros d'.
  apply keeps_bind; [apply keeps_lift|]. intros column.
  apply keeps_bind; [apply keeps_lift|]. intros vals.
  destruct (0 <? length (filter (fun b : bool => b) (outliers_mask vals)))%nat.
  - apply keeps_bind; [intros g; reflexivity|]. intros s g. reflexivity.
  - apply keeps_ret.
Qed.

Lemma untitled_outlier_detection_keeps :
  keeps_table Untitled1.df Untitled1.outlier_detection.
Proof.
  unfold Untitled1.outlier_detection.
  apply keeps_bind; [intros g; reflexivity|]. intros d.
  destruct (0 <? length (Untitled1.select_number_columns d))%nat; [|apply keeps_ret].
  apply keeps_bind; [intros g; reflexivity|]. intros _.
  apply keeps_for_each. intros col.
  apply keeps_bind; [intros g; reflexivity|]. intros d'.
  apply keeps_bind; [apply keeps_lift|]. intros column.
  apply keeps_bind; [apply keeps_lift|]. intros vals.
  destruct (iqr_bounds vals) as [lo hi].
  apply keeps_bind; [apply keeps_lift|]. intros ratio.
  apply keeps_bind; [intros g; reflexivity|]. intros s g. reflexivity.
Qed.

(** C9.  In both cleaning scripts the outlier-detection step ends with the
    table it started with: the same rows, cell for cell, hence the same row
    count, whether it finds outliers, finds none, or stops on an
    exception. *)
Theorem outlier_detection_keeps_table :
  (forall g,
     Cleaning.df (snd (Cleaning.outlier_detection g)) = Cleaning.df g
     /\ len (Cleaning.df (snd (Cleaning.outlier_detection g))) = len (Cleaning.df g))
  /\ (forall g,
        Untitled1.df (snd (Untitled1.outlier_detection g)) = Untitled1.df g
        /\ len (Untitled1.df (snd (Untitled1.outlier_detection g)))
           = len (Untitled1.df g)).
Proof.
  split; intros g.
  - pose proof (cleaning_outlier_detection_keeps g) as H. rewrite H. auto.
  - pose proof (untitled_outlier_detection_keeps g) as H. rewrite H. auto.
Qed.

(** A table whose [Area] column has values beyond the bounds (0 and 1000
    against the bounds 6.5 and 16.5): both scripts report them and keep
    all six rows. *)
Example outliers_reported_and_kept :
  Cleaning.outlier_detection (Cleaning.mkGlobals cleaning_demo [])
  = (Ok tt, Cleaning.mkGlobals cleaning_demo [("Area", 2%Z)])
  /\ (let g := snd (Untitled1.outlier_detection (Untitled1.mkGlobals cleaning_demo [])) in
      Untitled1.df g = cleaning_demo
      /\ option_map Untitled1.count (assoc "Area" (Untitled1.outlier_summary g)) = Some 2%Z
      /\ option_map Untitled1.lower_bound (assoc "Area" (Untitled1.outlier_summary g))
         = Some 6.5%float
      /\ option_map Untitled1.upper_bound (assoc "Area" (Untitled1.outlier_summary g))
         = Some 16.5%float).
Proof. split; [|repeat split]; vm_compute; reflexivity. Qed.

(* ================================================================== *)
(** * The derived yield *)

Lemma cell_at_replace_nth (i : nat) (v : cell) (l : row) :
  (i < length l)%nat -> cell_at i (replace_nth i v l) = v.
Proof.
  unfold cell_at. revert i. induction l as [|x l IH]; intros i H; simpl in H; [lia|].
  destruct i as [|i]; simpl; [reflexivity|]. apply IH. lia.
Qed.

Lemma getitem_setitem (df : DataFrame) (name : string) (values : list cell) :
  well_formed df = true ->
  length values = len df ->
  exists df', setitem df name values = Ok df'
              /\ getitem df' name = Ok values
              /\ len df' = len df.
Proof.
  intros Hwf Hlen. pose proof (well_formed_forall _ Hwf) as Hrow.
  destruct (@map_snd_combine_range row (rows df) values Hlen) as [Hfst Hsnd].
  unfold setitem. rewrite Hlen, Nat.eqb_refl. cbn [negb].
  destruct (get_loc name (columns df)) as [i|] eqn:E.
  - eexists. split; [reflexivity|]. split.
    + rewrite (@getitem_ok _ name i) by exact E. cbn [rows]. rewrite map_map.
      rewrite <- Hsnd at 2. f_equal. apply map_ext_in. intros [r v] Hin. cbn [fst snd].
      apply cell_at_replace_nth. apply in_combine_l in Hin.
      rewrite (Hrow r Hin). apply (get_loc_some _ _ E).
    + unfold len. cbn [rows]. rewrite length_map, length_combine.
      unfold len in Hlen. lia.
  - eexists. split; [reflexivity|]. split.
    + rewrite (@getitem_ok _ name (length (columns df) + 0)%nat).
      * cbn [rows]. rewrite map_map. rewrite <- Hsnd at 2. f_equal.
        apply map_ext_in. intros [r v] Hin. cbn [fst snd].
        apply in_combine_l in Hin. rewrite <- (Hrow r Hin).
        rewrite cell_at_app_r. reflexivity.
      * cbn [columns]. rewrite get_loc_app_r by (apply get_loc_none; exact E).
        cbn [get_loc]. rewrite String.eqb_refl. reflexivity.
    + unfold len. cbn [rows]. rewrite length_map, length_combine.
      unfold len in Hlen. lia.
Qed.

Lemma getitem_length (df : DataFrame) (name : string) (cs : list cell) :
  getitem df name = Ok cs -> length cs = len df.
Proof.
  unfold getitem, loc. destruct (get_loc name (columns df)); [|discriminate].
  cbn [bind]. intros H. inversion H. apply length_map.
Qed.

Lemma getitem_mem (df : DataFrame) (name : string) (cs : list cell) :
  getitem df name = Ok cs -> mem name (columns df) = true.
Proof.
  unfold getitem, loc. destruct (get_loc name (columns df)) eqn:E; [|discriminate].
  intros _. apply mem_true_iff.
  destruct (in_dec string_dec name (columns df)) as [|Hn]; auto.
  apply get_loc_none in Hn. congruence.
Qed.

Local Open Scope float_scope.

(** C4.  Where the table has numeric [Production] and [Area] columns, the
    cleaning script gives every row the productivity
    [production / (area + 0.001)], and drops no row.  On a row of area 0
    that is [production / 0.001]: a quotient by a non-zero number, not a
    missing value. *)
Theorem productivity_is_guarded_quotient
        (g : Cleaning.globals) (production area : list cell) (ps xs : list float) :
  well_formed (Cleaning.df g) = true ->
  getitem (Cleaning.df g) "Production" = Ok production ->
  getitem (Cleaning.df g) "Area" = Ok area ->
  as_floats production = Ok ps ->
  as_floats area = Ok xs ->
  exists d',
    Cleaning.calculate_productivity g
    = (Ok tt, Cleaning.mkGlobals d' (Cleaning.outlier_summary g))
    /\ getitem d' "Productivity"
       = Ok (map (fun px => CFloat (productivity (fst px) (snd px))) (combine ps xs))
    /\ len d' = len (Cleaning.df g)
    /\ forall p, productivity p 0 = p / Cleaning.small_value.
Proof.
  intros Hwf Hp Ha Hps Hxs.
  assert (Hlen : length (map (fun px => CFloat (productivity (fst px) (snd px)))
                             (combine ps xs)) = len (Cleaning.df g)).
  { rewrite length_map, length_combine.
    rewrite (mapM_length _ _ Hps), (mapM_length _ _ Hxs).
    rewrite (getitem_length _ _ Hp), (getitem_length _ _ Ha). lia. }
  destruct (getitem_setitem (Cleaning.df g) "Productivity" _ Hwf Hlen)
    as (d' & Hset & Hget & Hl).
  exists d'. split; [|split; [|split]]; auto.
  unfold Cleaning.calculate_productivity, seq_bind, Cleaning.get_df, lift.
  rewrite (getitem_mem _ _ Ha), (getitem_mem _ _ Hp). cbn [andb].
  rewrite Hp, Ha. unfold series_add. rewrite Hxs. cbn [bind].
  unfold series_div. rewrite Hps. cbn [bind].
  assert (Hx : as_floats (map (fun v => CFloat (v + Cleaning.small_value)) xs)
               = Ok (map (fun v => v + Cleaning.small_value) xs)).
  { clear. induction xs as [|x xs IH]; [reflexivity|].
    unfold as_floats in *. cbn [map mapM bind]. rewrite IH. reflexivity. }
  rewrite Hx. cbn [bind].
  assert (Hq : map (fun xy => CFloat (fst xy / snd xy))
                   (combine ps (map (fun v => v + Cleaning.small_value) xs))
               = map (fun px => CFloat (productivity (fst px) (snd px))) (combine ps xs)).
  { clear. revert xs. induction ps as [|p ps IH]; intros [|x xs]; simpl; auto.
    rewrite IH. reflexivity. }
  rewrite Hq, Hset. reflexivity.
Qed.

Lemma productivity_is_guarded_quotient_witness :
  exists d',
    Cleaning.calculate_productivity (Cleaning.mkGlobals cleaning_demo [])
    = (Ok tt, Cleaning.mkGlobals d' [])
    /\ getitem d' "Productivity"
       = Ok (map (fun px => CFloat (productivity (fst px) (snd px)))
                 (combine [100; 110; 120; 130; 100; 140] [10; 11; 12; 13; 0; 1000]))
    /\ len d' = 6%nat
    /\ forall p, productivity p 0 = p / Cleaning.small_value.
Proof.
  exact (@productivity_is_guarded_quotient
           (Cleaning.mkGlobals cleaning_demo [])
           [CFloat 100; CFloat 110; CFloat 120; CFloat 130; CFloat 100; CFloat 140]
           [CFloat 10; CFloat 11; CFloat 12; CFloat 13; CFloat 0; CFloat 1000]
           [100; 110; 120; 130; 100; 140] [10; 11; 12; 13; 0; 1000]
           eq_refl eq_refl eq_refl eq_refl eq_refl).
Defined.

(** C4, as stated, fails.  In [cleaning_demo] the fifth row has area 0 and
    production 100: its productivity is the number 100000, not a missing
    value; the first row has area 10 and production 100: its productivity
    is 9.9990000999900008 (the float [0x1.3ff7cf0ec50c9p+3]), more than
    1e-6 (the float [0x1.0c6f7a0b5ed8dp-20]) away from 100 / 10. *)
Lemma productivity_at_zero_area :
  fst (Cleaning.calculate_productivity (Cleaning.mkGlobals cleaning_demo [])) = Ok tt
  /\ (let d := Cleaning.df (snd (Cleaning.calculate_productivity
                                   (Cleaning.mkGlobals cleaning_demo []))) in
      map (field "Area" d) (rows d)
      = [CFloat 10; CFloat 11; CFloat 12; CFloat 13; CFloat 0; CFloat 1000]
      /\ nth 4 (map (field "Productivity" d) (rows d)) CNone = CFloat 100000
      /\ isna (nth 4 (map (field "Productivity" d) (rows d)) CNone) = false
      /\ nth 0 (map (field "Productivity" d) (rows d)) CNone
         = CFloat 0x1.3ff7cf0ec50c9p+3
      /\ PrimFloat.ltb 0x1.0c6f7a0b5ed8dp-20
                       (PrimFloat.abs (100 / 10 - 0x1.3ff7cf0ec50c9p+3)) = true).
Proof. split; [|repeat split]; vm_compute; reflexivity. Qed.

Local Close Scope float_scope.

(** The sample generator divides without a guard and rounds to three
    decimals: 100 / 0 is an infinity, above 20, and is replaced by the
    draw (7 here); 100 / 30 becomes 3.333; only 0 / 0 is missing. *)
Example sample_yield_rounds_and_redraws :
  (d <- sample_yield (fun k => repeat 7%float k) sample_data ;;
   getitem d "Yield_Per_Hectare")
  = Ok [CFloat 7; CFloat 0x1.aa9fbe76c8b44p+1; CFloat PrimFloat.nan].
Proof. vm_compute. reflexivity. Qed.

(* ================================================================== *)
(** * Fact table: the measures *)

Lemma fact_table_measure (now_year : Z) (df0 df : DataFrame) (c : string) :
  In c measure_columns -> In c (columns df) ->
  getitem (fact_table now_year df0 df) c = getitem df c.
Proof.
  intros Hc Hin. destruct (get_loc_in _ _ Hin) as [i Hi].
  rewrite (getitem_ok _ _ Hi).
  unfold measure_columns in Hc. simpl in Hc.
  assert (E : forall l, field c df l = cell_at i l).
  { intros l. symmetry. apply field_loc. assumption. }
  unfold getitem, fact_table. cbn [columns rows].
  repeat (destruct Hc as [<-|Hc]; [cbn; rewrite map_map; f_equal; apply map_ext; intros l; unfold fact_row, cell_at; cbn [nth]; apply E|]).
  contradiction.
Qed.

(** X1.  The fact table has exactly the ten fact columns, and its six
    measure columns (district, area, production, yield, temperature,
    rainfall) are, row by row, the columns of the source table: the four
    merges add identifiers and change nothing else. *)
Theorem fact_measures_carried_over (now_year : Z) (df0 df : DataFrame) :
  source_contract df0 = true ->
  source_contract df = true ->
  rows df0 <> [] ->
  exists dims fact,
    create_dimension_tables now_year df0 = Ok dims
    /\ create_fact_table df dims = Ok fact
    /\ columns fact = fact_columns
    /\ forall c, In c measure_columns -> getitem fact c = getitem df c.
Proof.
  intros H0 H Hne.
  exists (dimensions_of now_year df0), (fact_table now_year df0 df).
  split; [apply create_dimension_tables_ok, source_contract_dimension, H0|].
  split; [apply create_fact_table_ok; assumption|].
  split; [reflexivity|].
  intros c Hc. apply fact_table_measure; auto.
  destruct (source_contract_spec _ H) as (_ & Hs & _).
  apply Hs. unfold measure_columns in Hc. unfold source_columns. simpl in *. intuition.
Qed.

Lemma fact_measures_carried_over_witness :
  exists dims fact,
    create_dimension_tables 2025 demo = Ok dims
    /\ create_fact_table demo_other dims = Ok fact
    /\ columns fact = fact_columns
    /\ forall c, In c measure_columns -> getitem fact c = getitem demo_other c.
Proof.
  apply (@fact_measures_carried_over 2025 demo demo_other); [reflexivity|reflexivity|discriminate].
Defined.

(* ================================================================== *)
(** * Fact table: identifiers of unmatched keys *)

Lemma surrogate_id_isna (u : list cell) (k : key) :
  isna (surrogate_id u k) = true <-> ~ In k (map cell_key u).
Proof.
  split.
  - intros H Hin. destruct (surrogate_id_matched _ _ Hin) as [n E].
    rewrite E in H. discriminate.
  - intros H. rewrite (surrogate_id_unmatched _ _ H). reflexivity.
Qed.

Lemma date_id_isna (now_year : Z) (ys : list Z) (y : Z) :
  isna (date_id now_year ys (KInt y)) = true <-> ~ In y ys.
Proof.
  split.
  - intros H Hin. rewrite (date_id_matched _ _ _ Hin) in H. discriminate.
  - intros H. rewrite date_id_unmatched; [reflexivity|].
    intros Hin. apply in_map_iff in Hin. destruct Hin as (z & E & Hz).
    inversion E; subst. contradiction.
Qed.

Lemma surrogate_axis_null (now_year : Z) (df0 df : DataFrame) (name col idn : string)
      (j : nat) :
  In col (columns df) -> In col (columns df0) ->
  get_loc idn fact_columns = Some j ->
  (forall l, cell_at j (fact_row now_year df0 df l)
             = surrogate_id (unique (column_cells col df0))
                            (cell_key (field col df l))) ->
  null_where_unmatched df0 df (fact_table now_year df0 df) (mkAxis name col idn col).
Proof.
  intros Hin Hin0 Hj Hrow.
  destruct (get_loc_in _ _ Hin) as [i Hi].
  destruct (get_loc_in _ _ Hin0) as [i0 Hi0].
  exists (map (fun l => surrogate_id (unique (column_cells col df0))
                                     (cell_key (field col df l))) (rows df)),
         (map (cell_at i) (rows df)), (map (cell_at i0) (rows df0)).
  cbn [id_column source_column].
  split.
  { rewrite (@getitem_ok (fact_table now_year df0 df) idn j Hj).
    unfold fact_table. cbn [rows]. rewrite map_map. f_equal.
    apply map_ext. intros l. apply Hrow. }
  split; [apply getitem_ok; assumption|].
  split; [apply getitem_ok; assumption|].
  split; [rewrite !length_map; reflexivity|].
  intros n Hn. rewrite length_map in Hn.
  rewrite !(fun f => @nth_map_lt row cell f (rows df) n CNone [] Hn).
  rewrite surrogate_id_isna.
  rewrite <- (field_loc _ _ (nth n (rows df) []) Hi).
  rewrite (column_cells_loc _ _ Hi0).
  split; intros H Hk; apply H.
  - exact (proj2 (unique_keys _ _) Hk).
  - exact (proj1 (unique_keys _ _) Hk).
Qed.

Lemma dates_axis_null (now_year : Z) (df0 df : DataFrame) :
  In "Crop_Year" (columns df) -> In "Crop_Year" (columns df0) ->
  forallb is_int (column_cells "Crop_Year" df) = true ->
  forallb is_int (column_cells "Crop_Year" df0) = true ->
  null_where_unmatched df0 df (fact_table now_year df0 df)
                       (mkAxis "dates" "Crop_Year" "Date_ID" "Year").
Proof.
  intros Hin Hin0 Hint Hint0.
  destruct (get_loc_in _ _ Hin) as [i Hi].
  destruct (get_loc_in _ _ Hin0) as [i0 Hi0].
  exists (map (fun l => date_id now_year (sorted_years (column_cells "Crop_Year" df0))
                                (cell_key (field "Crop_Year" df l))) (rows df)),
         (map (cell_at i) (rows df)), (map (cell_at i0) (rows df0)).
  cbn [id_column source_column].
  split.
  { unfold getitem, fact_table. cbn. rewrite map_map. reflexivity. }
  split; [apply getitem_ok; assumption|].
  split; [apply getitem_ok; assumption|].
  split; [rewrite !length_map; reflexivity|].
  intros n Hn. rewrite length_map in Hn.
  rewrite !(fun f => @nth_map_lt row cell f (rows df) n CNone [] Hn).
  rewrite <- (field_loc _ _ (nth n (rows df) []) Hi).
  rewrite (column_cells_loc _ _ Hi) in Hint.
  rewrite (column_cells_loc _ _ Hi0) in Hint0.
  assert (Hc : is_int (cell_at i (nth n (rows df) [])) = true).
  { rewrite forallb_forall in Hint. apply Hint. apply in_map. apply nth_In. assumption. }
  destruct (cell_at i (nth n (rows df) [])) as [| |y| |] eqn:Ec; try discriminate.
  cbn [cell_key]. rewrite date_id_isna.
  rewrite (column_cells_loc _ _ Hi0).
  rewrite (sorted_years_in _ y Hint0).
  rewrite (int_cells_keys _ Hint0).
  split; intros H Hk; apply H.
  - apply in_map_iff in Hk. destruct Hk as (z & E & Hz). inversion E; subst z.
    rewrite (all_int_cells _ Hint0). apply in_map. assumption.
  - rewrite (all_int_cells _ Hint0) in Hk. apply in_map_iff in Hk.
    destruct Hk as (z & E & Hz). inversion E; subst z.
    apply in_map. assumption.
Qed.

(** X2.  When both tables meet the column contract (their years are int64,
    so none is missing) and the fact table of [df] is built against the
    dimensions of another table [df0], an identifier of a fact row is
    missing (NaN) exactly when the natural key of the source row does not
    occur in [df0]; this holds on each of the four axes.  A missing state,
    crop or season is a key like any other. *)
Theorem fact_id_null_iff_unmatched (now_year : Z) (df0 df : DataFrame) :
  source_contract df0 = true ->
  source_contract df = true ->
  rows df0 <> [] ->
  exists dims fact,
    create_dimension_tables now_year df0 = Ok dims
    /\ create_fact_table df dims = Ok fact
    /\ forall ax, In ax axes -> null_where_unmatched df0 df fact ax.
Proof.
  intros H0 H Hne.
  exists (dimensions_of now_year df0), (fact_table now_year df0 df).
  split; [apply create_dimension_tables_ok, source_contract_dimension, H0|].
  split; [apply create_fact_table_ok; assumption|].
  destruct (source_contract_spec _ H) as (_ & Hs & _ & _ & _ & _ & Hy).
  destruct (source_contract_spec _ H0) as (_ & Hs0 & _ & _ & _ & _ & Hy0).
  assert (Hall : forall c, In c ["State_Name"; "Crop"; "Season"; "Crop_Year"] ->
                           In c (columns df) /\ In c (columns df0)).
  { intros c Hc. split; [apply Hs|apply Hs0]; unfold source_columns; simpl in *; intuition. }
  intros ax Hax. unfold axes in Hax. simpl in Hax.
  destruct Hax as [<-|[<-|[<-|[<-|[]]]]].
  - apply surrogate_axis_null with (j := 0%nat); try reflexivity; apply Hall; simpl; auto.
  - apply surrogate_axis_null with (j := 1%nat); try reflexivity; apply Hall; simpl; auto.
  - apply surrogate_axis_null with (j := 2%nat); try reflexivity; apply Hall; simpl; auto.
  - apply dates_axis_null; try assumption; apply Hall; simpl; auto.
Qed.

Lemma fact_id_null_iff_unmatched_witness :
  exists dims fact,
    create_dimension_tables 2025 demo = Ok dims
    /\ create_fact_table demo_other dims = Ok fact
    /\ forall ax, In ax axes -> null_where_unmatched demo demo_other fact ax.
Proof.
  apply (@fact_id_null_iff_unmatched 2025 demo demo_other); [reflexivity|reflexivity|discriminate].
Defined.

(* ================================================================== *)
(** * Dimension tables: the current year, and the empty table *)

Lemma count_eqb_nodup (x : Z) (l : list Z) :
  NoDup l ->
  length (filter (fun y => Z.eqb y x) l) = if in_dec Z.eq_dec x l then 1%nat else 0%nat.
Proof.
  induction 1 as [|y l Hy Hnd IH]; simpl; [reflexivity|].
  destruct (Z.eqb_spec y x) as [->|Hne].
  - simpl. destruct (Z.eq_dec x x) as [_|C]; [|contradiction].
    rewrite IH. destruct (in_dec Z.eq_dec x l); [contradiction|reflexivity].
  - rewrite IH. destruct (Z.eq_dec y x); [contradiction|].
    destruct (in_dec Z.eq_dec x l); reflexivity.
Qed.

Lemma count_true_flags (now_year : Z) (ys : list Z) :
  count_true (map (fun y => CBool (Z.eqb y now_year)) ys)
  = length (filter (fun y => Z.eqb y now_year) ys).
Proof.
  unfold count_true. induction ys as [|y ys IH]; simpl; [reflexivity|].
  destruct (Z.eqb y now_year); simpl; congruence.
Qed.

Lemma dates_dimension_flags (now_year : Z) (ys : list Z) :
  ys <> [] ->
  getitem (dates_dimension now_year ys) "IsCurrentYear"
  = Ok (map (fun y => CBool (Z.eqb y now_year)) ys).
Proof.
  intros H. unfold dates_dimension. destruct ys as [|y ys]; [contradiction|].
  unfold getitem. cbn [columns rows].
  change (loc "IsCurrentYear" date_columns) with (@Ok nat 3%nat).
  cbn [bind]. rewrite map_map. reflexivity.
Qed.

(** X3.  In the date dimension of a non-empty table, [IsCurrentYear] is
    [True] on exactly one row when the current year occurs in [Crop_Year],
    and on no row otherwise. *)
Theorem current_year_flagged_once (now_year : Z) (df : DataFrame) :
  dimension_contract df = true ->
  rows df <> [] ->
  exists dims dates flags,
    create_dimension_tables now_year df = Ok dims
    /\ dict_get dims "dates" = Ok dates
    /\ getitem dates "IsCurrentYear" = Ok flags
    /\ (In (CInt now_year) (column_cells "Crop_Year" df) -> count_true flags = 1%nat)
    /\ (~ In (CInt now_year) (column_cells "Crop_Year" df) -> count_true flags = 0%nat).
Proof.
  intros H Hne.
  destruct (dimension_contract_spec _ H) as (_ & _ & _ & Hy & Hint).
  set (cs := column_cells "Crop_Year" df) in *.
  exists (dimensions_of now_year df),
         (dates_dimension now_year (sorted_years cs)),
         (map (fun y => CBool (Z.eqb y now_year)) (sorted_years cs)).
  split; [apply create_dimension_tables_ok; assumption|].
  split; [reflexivity|].
  assert (Hcs : cs <> []).
  { subst cs. destruct (get_loc_in _ _ Hy) as [i Hi].
    rewrite (column_cells_loc _ _ Hi). destruct (rows df); [contradiction|discriminate]. }
  split; [apply dates_dimension_flags, sorted_years_nonempty, Hcs|].
  rewrite count_true_flags, (count_eqb_nodup _ (sorted_years_nodup _ Hint)).
  destruct (in_dec Z.eq_dec now_year (sorted_years cs)) as [Hin|Hn].
  - split; [reflexivity|]. intros C. exfalso. apply C.
    apply (sorted_years_in _ _ Hint). assumption.
  - split; [|reflexivity]. intros C. exfalso. apply Hn.
    apply (sorted_years_in _ _ Hint). assumption.
Qed.

Lemma current_year_flagged_once_witness :
  exists dims dates flags,
    create_dimension_tables 2019 demo = Ok dims
    /\ dict_get dims "dates" = Ok dates
    /\ getitem dates "IsCurrentYear" = Ok flags
    /\ (In (CInt 2019) (column_cells "Crop_Year" demo) -> count_true flags = 1%nat)
    /\ (~ In (CInt 2019) (column_cells "Crop_Year" demo) -> count_true flags = 0%nat).
Proof.
  apply (@current_year_flagged_once 2019 demo); [reflexivity|discriminate].
Defined.

(** X4.  On a table with the four key columns and no row, the Dimension
    Builder returns the state, crop and season dimensions with their two
    labels and no row, and a date dimension with no row and no column at
    all. *)
Theorem dimensions_of_empty_table (now_year : Z) (df : DataFrame) :
  dimension_contract df = true ->
  rows df = [] ->
  create_dimension_tables now_year df = Ok empty_dimensions.
Proof.
  intros H He. rewrite (create_dimension_tables_ok _ _ H).
  unfold dimensions_of, surrogate_table, empty_dimensions.
  assert (E : forall n, column_cells n df = []).
  { intros n. unfold column_cells. rewrite He. destruct (get_loc n (columns df)); reflexivity. }
  rewrite !E. reflexivity.
Qed.

Lemma dimensions_of_empty_table_witness :
  create_dimension_tables 2025 demo_empty = Ok empty_dimensions.
Proof.
  apply (@dimensions_of_empty_table 2025 demo_empty); reflexivity.
Defined.

(* ================================================================== *)
(** * Summaries: the order of the rows *)

Lemma ascii_compare_lt_trans (a b c : ascii) :
  Ascii.compare a b = Lt -> Ascii.compare b c = Lt -> Ascii.compare a c = Lt.
Proof.
  unfold Ascii.compare. rewrite !N.compare_lt_iff. apply N.lt_trans.
Qed.

Lemma string_compare_lt_trans (a b c : string) :
  String.compare a b = Lt -> String.compare b c = Lt -> String.compare a c = Lt.
Proof.
  revert b c. induction a as [|x a IH]; intros [|y b] [|z c]; simpl;
    try discriminate; auto.
  destruct (Ascii.compare x y) eqn:Exy; try discriminate;
    destruct (Ascii.compare y z) eqn:Eyz; try discriminate; intros H1 H2.
  - apply Ascii.compare_eq_iff in Exy, Eyz. subst.
    replace (Ascii.compare z z) with Eq.
    + eapply IH; eauto.
    + symmetry. unfold Ascii.compare. apply N.compare_refl.
  - apply Ascii.compare_eq_iff in Exy. subst. rewrite Eyz. reflexivity.
  - apply Ascii.compare_eq_iff in Eyz. subst. rewrite Exy. reflexivity.
  - rewrite (ascii_compare_lt_trans _ _ _ Exy Eyz). reflexivity.
Qed.

Lemma string_leb_cases (a b : string) :
  String.leb a b = true -> a = b \/ String.compare a b = Lt.
Proof.
  unfold String.leb. destruct (String.compare a b) eqn:E; try discriminate; auto.
  left. apply String.compare_eq_iff. assumption.
Qed.

Lemma insert_sorted_sorted (A : Type) (le : A -> A -> bool) (x : A) (l : list A) :
  (forall a b, le a b = true \/ le b a = true) ->
  (forall a b c, le a b = true -> le b c = true -> le a c = true) ->
  StronglySorted (fun a b => le a b = true) l ->
  StronglySorted (fun a b => le a b = true) (insert_sorted le x l).
Proof.
  intros Htot Htr. induction 1 as [|y l Hs IH Hall]; simpl.
  - constructor; constructor.
  - destruct (le x y) eqn:E.
    + constructor; [constructor; assumption|].
      constructor; [assumption|].
      rewrite Forall_forall in *. intros z Hz. eapply Htr; eauto.
    + constructor; [assumption|].
      assert (Hyx : le y x = true).
      { destruct (Htot x y) as [C|C]; congruence. }
      rewrite Forall_forall in *. intros z Hz.
      apply (Permutation_in _ (insert_sorted_perm le x l)) in Hz.
      destruct Hz as [<-|Hz]; auto.
Qed.

Lemma insertion_sort_sorted (A : Type) (le : A -> A -> bool) (l : list A) :
  (forall a b, le a b = true \/ le b a = true) ->
  (forall a b c, le a b = true -> le b c = true -> le a c = true) ->
  StronglySorted (fun a b => le a b = true) (insertion_sort le l).
Proof.
  intros Htot Htr. induction l as [|x l IH]; simpl.
  - constructor.
  - apply insert_sorted_sorted; assumption.
Qed.

Lemma string_leb_trans (a b c : string) :
  String.leb a b = true -> String.leb b c = true -> String.leb a c = true.
Proof.
  intros H1 H2.
  destruct (string_leb_cases _ _ H1) as [->|L1]; [assumption|].
  destruct (string_leb_cases _ _ H2) as [<-|L2]; [assumption|].
  unfold String.leb. rewrite (string_compare_lt_trans _ _ _ L1 L2). reflexivity.
Qed.

Lemma sorted_strict (A : Type) (le lt : A -> A -> Prop) (l : list A) :
  (forall a b, le a b -> a = b \/ lt a b) ->
  NoDup l -> StronglySorted le l -> StronglySorted lt l.
Proof.
  intros Hc Hnd Hs. induction Hs as [|x l Hs IH Hall]; constructor.
  - apply IH. inversion Hnd; assumption.
  - inversion Hnd as [|? ? Hx Hnd']; subst.
    rewrite Forall_forall in *. intros y Hy.
    destruct (Hc _ _ (Hall y Hy)) as [->|]; [contradiction|assumption].
Qed.

Lemma sorted_map (A B : Type) (f : A -> B) (R : A -> A -> Prop) (R' : B -> B -> Prop)
      (l : list A) :
  (forall a b, R a b -> R' (f a) (f b)) ->
  StronglySorted R l -> StronglySorted R' (map f l).
Proof.
  intros H. induction 1 as [|x l Hs IH Hall]; simpl; constructor; auto.
  rewrite Forall_forall in *. intros y Hy. apply in_map_iff in Hy.
  destruct Hy as (a & <- & Ha). auto.
Qed.

Lemma nodup_map_inv (A B : Type) (f : A -> B) (l : list A) :
  NoDup (map f l) -> NoDup l.
Proof.
  induction l as [|x l IH]; simpl; intros H; constructor; inversion H; subst; auto.
  intros C. apply H2. apply in_map. assumption.
Qed.

Lemma sort_keys_ascending (cs ks : list cell) :
  forallb is_str cs || forallb is_int cs = true ->
  NoDup (map cell_key cs) ->
  sort_keys cs = Ok ks ->
  StronglySorted key_lt ks.
Proof.
  intros Hty Hnd H. unfold sort_keys in H.
  destruct (ints_of cs) as [zs|] eqn:Ei.
  - inversion H; subst ks. clear H.
    pose proof (ints_of_some _ Ei) as E. subst cs.
    apply sorted_map with (R := Z.lt); [intros a b Hab; exact Hab|].
    apply sorted_nodup_strict; [apply insertion_sort_Z|].
    apply (Permutation_NoDup (Permutation_sym (insertion_sort_perm Z.leb zs))).
    rewrite map_map in Hnd. apply nodup_map_inv in Hnd. assumption.
  - destruct (strs_of cs) as [ss|] eqn:Es.
    + inversion H; subst ks. clear H.
      pose proof (strs_of_some _ Es) as E. subst cs.
      apply sorted_map with (R := fun a b => String.compare a b = Lt);
        [intros a b Hab; exact Hab|].
      apply sorted_strict with (le := fun a b => String.leb a b = true).
      * apply string_leb_cases.
      * apply (Permutation_NoDup (Permutation_sym (insertion_sort_perm String.leb ss))).
        rewrite map_map in Hnd. apply nodup_map_inv in Hnd. assumption.
      * apply insertion_sort_sorted; [apply String.leb_total|apply string_leb_trans].
    + exfalso. apply orb_true_iff in Hty. destruct Hty as [Hs|Hi].
      * rewrite (all_str_cells _ Hs), strs_of_CStr in Es. discriminate.
      * rewrite (all_int_cells _ Hi), ints_of_CInt in Ei. discriminate.
Qed.

Lemma present_text_is_str (cs : list cell) :
  forallb is_text cs = true ->
  forallb is_str (filter (fun c => negb (isna c)) cs) = true.
Proof.
  rewrite !forallb_forall. intros H c Hc. apply filter_In in Hc.
  destruct Hc as [Hc Hn]. specialize (H c Hc). destruct c; try discriminate; auto.
Qed.

Lemma present_int_is_int (cs : list cell) :
  forallb is_int cs = true ->
  forallb is_int (filter (fun c => negb (isna c)) cs) = true.
Proof.
  rewrite !forallb_forall. intros H c Hc. apply filter_In in Hc.
  destruct Hc as [Hc Hn]. auto.
Qed.

Lemma group_keys_ascending (cs ks : list cell) :
  forallb is_text cs || forallb is_int cs = true ->
  group_keys cs = Ok ks -> StronglySorted key_lt ks.
Proof.
  intros Hty H. unfold group_keys in H.
  apply sort_keys_ascending with (cs := unique (filter (fun c => negb (isna c)) cs));
    [|apply unique_nodup|assumption].
  apply orb_true_iff in Hty. apply orb_true_iff. destruct Hty as [Ht|Hi].
  - left. apply unique_all, present_text_is_str, Ht.
  - right. apply unique_all, present_int_is_int, Hi.
Qed.

Lemma column_all_cells (p : cell -> bool) (name : string) (df : DataFrame) :
  column_all p name df = true -> forallb p (column_cells name df) = true.
Proof. intros H. destruct (column_all_spec _ _ _ H) as (i & _ & Hp). exact Hp. Qed.

Lemma summary_contract_keys (df : DataFrame) :
  summary_contract df = true ->
  forallb is_text (column_cells "State_Name" df) = true
  /\ forallb is_text (column_cells "Crop" df) = true.
Proof.
  unfold summary_contract. rewrite !andb_true_iff.
  intros [[[[[[_ Hs] Hc] _] _] _] _].
  split; apply column_all_cells; assumption.
Qed.

(** X5.  The rows of the three summaries are in strictly ascending order of
    the key: state and crop names by code points, years by value (for int64
    years).  The dimensions keep the order of first appearance; the
    summaries do not. *)
Theorem summaries_sorted_by_key (df : DataFrame) :
  summary_contract df = true ->
  column_all is_int "Crop_Year" df = true ->
  exists summaries,
    create_summary_tables df = Ok summaries
    /\ forall name by_, In (name, by_) summary_axes ->
         exists summary keys,
           dict_get summaries name = Ok summary
           /\ getitem summary by_ = Ok keys
           /\ StronglySorted key_lt keys.
Proof.
  intros H Hy.
  destruct (create_summary_tables_total _ H) as [summaries Hs].
  exists summaries. split; [assumption|].
  destruct (create_summary_tables_inv _ Hs) as (g1 & g2 & g3 & H1 & H2 & H3 & ->).
  destruct (summary_contract_keys _ H) as [Hst Hcr].
  pose proof (column_all_cells _ _ _ Hy) as Hyr.
  intros name by_ Hin. unfold summary_axes in Hin. simpl in Hin.
  destruct Hin as [E|[E|[E|[]]]]; inversion E; subst name by_; clear E.
  - exists (mkDataFrame state_summary_columns (rows (round_3 g1))),
           (map (cell_at 0) (rows g1)).
    split; [reflexivity|].
    split; [apply (@summary_keys df g1 "State_Name" state_spec _ H1)|].
    apply group_keys_ascending with (cs := column_cells "State_Name" df).
    + rewrite Hst. reflexivity.
    + apply (groupby_agg_keys _ _ _ H1).
  - exists (mkDataFrame crop_summary_columns (rows (round_3 g2))),
           (map (cell_at 0) (rows g2)).
    split; [reflexivity|].
    split; [apply (@summary_keys df g2 "Crop" crop_spec _ H2)|].
    apply group_keys_ascending with (cs := column_cells "Crop" df).
    + rewrite Hcr. reflexivity.
    + apply (groupby_agg_keys _ _ _ H2).
  - exists (round_3 g3), (map (cell_at 0) (rows g3)).
    split; [reflexivity|].
    split.
    + pose proof (@summary_keys df g3 "Crop_Year" year_spec (map fst year_spec) H3) as [Hk _].
      rewrite <- Hk. f_equal.
      unfold round_3. rewrite (groupby_agg_columns _ _ _ H3). reflexivity.
    + apply group_keys_ascending with (cs := column_cells "Crop_Year" df).
      * rewrite Hyr. apply orb_true_r.
      * apply (groupby_agg_keys _ _ _ H3).
Qed.

Lemma summaries_sorted_by_key_witness :
  exists summaries,
    create_summary_tables demo = Ok summaries
    /\ forall name by_, In (name, by_) summary_axes ->
         exists summary keys,
           dict_get summaries name = Ok summary
           /\ getitem summary by_ = Ok keys
           /\ StronglySorted key_lt keys.
Proof.
  apply (@summaries_sorted_by_key demo); reflexivity.
Defined.

(* ================================================================== *)
(** * Summaries: labels and rows *)

Lemma groupby_agg_shape (df g : DataFrame) (by_ : string) (spec : list (string * aggfn))
      (labels : list string) :
  groupby_agg df by_ spec = Ok g ->
  length labels = S (length spec) ->
  summary_shape labels (mkDataFrame labels (rows (round_3 g))).
Proof.
  intros H Hl. destruct (groupby_agg_inv _ _ _ H) as (ki & idxs & keys & Hki & Hidx & Hk & Hc & Hf).
  pose proof (mapM_length _ _ Hidx) as Hlen.
  split; [reflexivity|].
  unfold well_formed. cbn [columns rows]. apply forallb_forall.
  intros r Hr. apply Nat.eqb_eq. unfold round_3 in Hr. cbn [rows] in Hr.
  apply in_map_iff in Hr. destruct Hr as (r0 & <- & Hr0).
  destruct (Forall2_in_r _ Hf Hr0) as (k & _ & vals & -> & Hv).
  pose proof (mapM_length _ _ Hv) as Hvl.
  simpl. rewrite length_map. lia.
Qed.

(** X6.  On every table of the summary contract [create_summary_tables]
    returns, in this order, the state summary, the crop summary and the
    yearly trends; each has its fixed labels (the renamed ones for the first
    two) and one cell per label in every row. *)
Theorem summary_tables_shape (df : DataFrame) :
  summary_contract df = true ->
  exists state_summary crop_summary yearly_trends,
    create_summary_tables df
    = Ok [ ("state_summary", state_summary); ("crop_summary", crop_summary);
           ("yearly_trends", yearly_trends) ]
    /\ summary_shape state_summary_columns state_summary
    /\ summary_shape crop_summary_columns crop_summary
    /\ summary_shape yearly_trends_columns yearly_trends.
Proof.
  intros H.
  destruct (create_summary_tables_total _ H) as [summaries Hs].
  destruct (create_summary_tables_inv _ Hs) as (g1 & g2 & g3 & H1 & H2 & H3 & ->).
  eexists _, _, _. split; [exact Hs|].
  split; [apply (@groupby_agg_shape _ _ _ _ _ H1); reflexivity|].
  split; [apply (@groupby_agg_shape _ _ _ _ _ H2); reflexivity|].
  replace (round_3 g3) with (mkDataFrame yearly_trends_columns (rows (round_3 g3))).
  - apply (@groupby_agg_shape _ _ _ _ _ H3); reflexivity.
  - unfold round_3. rewrite (groupby_agg_columns _ _ _ H3). reflexivity.
Qed.

Lemma summary_tables_shape_witness :
  exists state_summary crop_summary yearly_trends,
    create_summary_tables demo
    = Ok [ ("state_summary", state_summary); ("crop_summary", crop_summary);
           ("yearly_trends", yearly_trends) ]
    /\ summary_shape state_summary_columns state_summary
    /\ summary_shape crop_summary_columns crop_summary
    /\ summary_shape yearly_trends_columns yearly_trends.
Proof. apply (@summary_tables_shape demo). reflexivity. Defined.

(* ================================================================== *)
(** * The yield cap of the sample generator *)

Lemma length_replace_nth (A : Type) (i : nat) (x : A) (l : list A) :
  length (replace_nth i x l) = length l.
Proof.
  revert i. induction l as [|h t IH]; intros [|i]; simpl; auto.
Qed.

Lemma cell_at_replace_other (i j : nat) (v : cell) (l : row) :
  i <> j -> cell_at j (replace_nth i v l) = cell_at j l.
Proof.
  unfold cell_at. revert i j. induction l as [|h t IH]; intros [|i] [|j] H; simpl; auto.
  contradiction.
Qed.

Lemma setitem_well_formed (df df' : DataFrame) (name : string) (values : list cell) :
  well_formed df = true ->
  setitem df name values = Ok df' ->
  well_formed df' = true.
Proof.
  intros Hwf H. pose proof (well_formed_forall _ Hwf) as Hrow.
  unfold setitem in H.
  destruct (negb (length values =? len df)%nat); [discriminate|].
  destruct (get_loc name (columns df)) as [i|]; inversion H; subst df'; clear H;
    unfold well_formed; cbn [columns rows]; apply forallb_forall;
    intros r Hr; apply in_map_iff in Hr; destruct Hr as ([r0 v] & <- & Hin);
    apply in_combine_l in Hin; cbn [fst snd]; apply Nat.eqb_eq.
  - rewrite length_replace_nth. auto.
  - rewrite !length_app, (Hrow _ Hin). reflexivity.
Qed.

Lemma get_loc_inj (a b : string) (cols : list string) (i : nat) :
  get_loc a cols = Some i -> get_loc b cols = Some i -> a = b.
Proof.
  intros Ha Hb. destruct (get_loc_some _ _ Ha) as [_ <-].
  destruct (get_loc_some _ _ Hb) as [_ <-]. reflexivity.
Qed.

(** An assignment to one column leaves every other column as it was. *)
Lemma setitem_other (df df' : DataFrame) (name c : string) (values : list cell) :
  well_formed df = true ->
  setitem df name values = Ok df' ->
  c <> name ->
  getitem df' c = getitem df c.
Proof.
  intros Hwf H Hne. pose proof (well_formed_forall _ Hwf) as Hrow.
  unfold setitem in H.
  destruct (negb (length values =? len df)%nat) eqn:El; [discriminate|].
  apply negb_false_iff, Nat.eqb_eq in El.
  destruct (@map_snd_combine_range row (rows df) values El) as [Hfst _].
  destruct (get_loc name (columns df)) as [i|] eqn:Ei; inversion H; subst df'; clear H.
  - unfold getitem. cbn [columns rows].
    destruct (loc c (columns df)) as [j|e] eqn:Ej; [|reflexivity].
    cbn [bind]. f_equal. rewrite map_map. rewrite <- Hfst at 2. rewrite map_map.
    apply map_ext. intros [r v]. cbn [fst snd].
    apply cell_at_replace_other. intros ->.
    unfold loc in Ej. destruct (get_loc c (columns df)) eqn:Ec; inversion Ej; subst.
    apply Hne. eapply get_loc_inj; eauto.
  - unfold getitem. cbn [columns rows]. unfold loc.
    destruct (get_loc c (columns df)) as [j|] eqn:Ej.
    + rewrite (get_loc_app_l _ _ [name] Ej). cbn [bind]. f_equal.
      rewrite map_map. rewrite <- Hfst at 2. rewrite map_map.
      apply map_ext_in. intros [r v] Hin. cbn [fst snd].
      apply cell_at_app_l. apply in_combine_l in Hin. rewrite (Hrow _ Hin).
      apply (get_loc_some _ _ Ej).
    + rewrite get_loc_app_r by (apply get_loc_none; exact Ej).
      cbn [get_loc]. destruct (String.eqb_spec c name); [contradiction|reflexivity].
Qed.

Lemma as_floats_CFloat (fs : list float) : as_floats (map CFloat fs) = Ok fs.
Proof.
  unfold as_floats. induction fs as [|f fs IH]; cbn [map mapM bind]; [reflexivity|].
  rewrite IH. reflexivity.
Qed.

Lemma length_assign_where (mask : list bool) (old values : list cell) :
  length (assign_where mask old values) = length old.
Proof.
  revert old values. induction mask as [|b m IH]; intros [|c o] values; simpl; auto.
  - destruct b; reflexivity.
  - destruct b; [destruct values as [|v vs]|]; simpl; auto.
Qed.

Lemma assign_where_forall (P : cell -> Prop) (p : cell -> bool) (old values : list cell) :
  length values = length (filter (fun b => b) (map p old)) ->
  (forall c, In c old -> p c = false -> P c) ->
  (forall v, In v values -> P v) ->
  Forall P (assign_where (map p old) old values).
Proof.
  revert values. induction old as [|c o IH]; intros values Hl Ho Hv; simpl.
  - constructor.
  - destruct (p c) eqn:Ec; simpl in Hl; rewrite Ec in Hl; simpl in Hl.
    + destruct values as [|v vs]; [discriminate|].
      constructor; [apply Hv; left; reflexivity|].
      apply IH; [simpl in Hl; lia| |]; intros; [apply Ho|apply Hv]; simpl; auto.
    + constructor; [apply Ho; simpl; auto|].
      apply IH; auto. intros; apply Ho; simpl; auto.
Qed.

Lemma column_all_getitem (p : cell -> bool) (name : string) (df : DataFrame) :
  column_all p name df = true ->
  exists cs, getitem df name = Ok cs /\ forallb p cs = true /\ length cs = len df.
Proof.
  intros H. destruct (column_all_spec _ _ _ H) as (i & Hi & Hp).
  rewrite (column_cells_loc _ _ Hi) in Hp.
  exists (map (cell_at i) (rows df)). split; [apply getitem_ok; assumption|].
  split; [assumption|]. unfold len. apply length_map.
Qed.

Lemma as_floats_numbers (cs : list cell) :
  forallb is_number cs = true ->
  exists vs, as_floats cs = Ok vs /\ length vs = length cs.
Proof.
  intros H. destruct (as_floats_total _ H) as [vs Hvs].
  exists vs. split; [assumption|]. apply (mapM_length _ _ Hvs).
Qed.

(** X7.  After the yield step of the sample generator no yield is above 20,
    as long as the draws that replace the larger ones are not: every cell of
    [Yield_Per_Hectare] is a float that does not exceed 20 (or is NaN).  The
    step keeps the number of rows and every other column. *)
Theorem sample_yield_capped (uniform : nat -> list float) (data : DataFrame) :
  well_formed data = true ->
  column_all is_number "Production_Tonnes" data = true ->
  column_all is_number "Area_Hectares" data = true ->
  (forall k, length (uniform k) = k) ->
  (forall k d, In d (uniform k) -> PrimFloat.ltb 20 d = false) ->
  exists df yields,
    sample_yield uniform data = Ok df
    /\ len df = len data
    /\ getitem df "Yield_Per_Hectare" = Ok yields
    /\ (forall c, In c yields -> capped c)
    /\ (forall name, name <> "Yield_Per_Hectare" -> getitem df name = getitem data name).
Proof.
  intros Hwf Hp Ha Hlen Hcap.
  destruct (column_all_getitem _ _ _ Hp) as (production & Gp & Np & Lp).
  destruct (column_all_getitem _ _ _ Ha) as (area & Ga & Na & La).
  destruct (as_floats_numbers _ Np) as (ps & Fp & Lps).
  destruct (as_floats_numbers _ Na) as (xs & Fx & Lxs).
  set (qs := map (fun xy => round3 (PrimFloat.div (fst xy) (snd xy))) (combine ps xs)).
  assert (Lq : length (map CFloat qs) = len data).
  { subst qs. rewrite !length_map, length_combine. lia. }
  destruct (@getitem_setitem data "Yield_Per_Hectare" _ Hwf Lq) as (d1 & S1 & G1 & L1).
  pose proof (@setitem_well_formed _ _ _ _ Hwf S1) as Hwf1.
  set (p := fun c => match c with CFloat y => PrimFloat.ltb 20 y | _ => false end).
  set (mask := map (fun y => PrimFloat.ltb 20 y) qs).
  assert (Em : mask = map p (map CFloat qs)).
  { subst mask. rewrite map_map. reflexivity. }
  set (values := map CFloat (uniform (length (filter (fun b => b) mask)))).
  assert (Lv : length values = length (filter (fun b => b) mask)).
  { subst values. rewrite length_map. apply Hlen. }
  assert (Lw : length (assign_where mask (map CFloat qs) values) = len d1).
  { rewrite length_assign_where, L1. exact Lq. }
  destruct (@getitem_setitem d1 "Yield_Per_Hectare" _ Hwf1 Lw) as (d2 & S2 & G2 & L2).
  exists d2, (assign_where mask (map CFloat qs) values).
  split.
  { unfold sample_yield. rewrite Gp, Ga. cbn [bind].
    unfold series_div. rewrite Fp, Fx. cbn [bind].
    rewrite map_map. cbn [round_cell].
    change (map (fun x : float * float => CFloat (round3 (PrimFloat.div (fst x) (snd x))))
                (combine ps xs)) with (map (fun x => CFloat (round3 (PrimFloat.div (fst x) (snd x)))) (combine ps xs)).
    replace (map (fun x : float * float => CFloat (round3 (PrimFloat.div (fst x) (snd x))))
                 (combine ps xs)) with (map CFloat qs)
      by (subst qs; rewrite map_map; reflexivity).
    rewrite S1. cbn [bind]. rewrite G1. cbn [bind].
    rewrite as_floats_CFloat. cbn [bind].
    fold mask. fold values.
    unfold loc_setitem. rewrite G1. cbn [bind].
    rewrite Lv, Nat.eqb_refl. exact S2. }
  split; [lia|].
  split; [exact G2|].
  split.
  - apply Forall_forall. rewrite Em. apply assign_where_forall.
    + rewrite <- Em. exact Lv.
    + intros c Hc Hf. apply in_map_iff in Hc. destruct Hc as (y & <- & _).
      exists y. split; [reflexivity|exact Hf].
    + intros v Hv. subst values. apply in_map_iff in Hv.
      destruct Hv as (d & <- & Hd). exists d. split; [reflexivity|].
      eapply Hcap; eauto.
  - intros name Hne.
    rewrite (@setitem_other _ _ _ _ _ Hwf1 S2 Hne). apply (@setitem_other _ _ _ _ _ Hwf S1 Hne).
Qed.

Lemma sample_yield_capped_witness :
  exists df yields,
    sample_yield (fun k => repeat 7%float k) sample_data = Ok df
    /\ len df = len sample_data
    /\ getitem df "Yield_Per_Hectare" = Ok yields
    /\ (forall c, In c yields -> capped c)
    /\ (forall name, name <> "Yield_Per_Hectare"
                     -> getitem df name = getitem sample_data name).
Proof.
  apply (@sample_yield_capped (fun k => repeat 7%float k) sample_data);
    try reflexivity.
  - intros k. apply repeat_length.
  - intros k d Hd. apply repeat_spec in Hd. subst d. reflexivity.
Defined.

(* ================================================================== *)
(** * Outlier detection: the entries of the summary *)

Lemma dict_set_fresh (A : Type) (d : dict A) (k : string) (v : A) :
  ~ In k (map fst d) -> dict_set d k v = d ++ [(k, v)].
Proof.
  induction d as [|[k0 v0] d IH]; simpl; intros H; [reflexivity|].
  destruct (String.eqb_spec k k0) as [->|_]; [exfalso; auto|].
  rewrite IH; auto.
Qed.

Lemma length_outliers_mask (vals : list float) :
  length (outliers_mask vals) = length vals.
Proof.
  unfold outliers_mask. destruct (iqr_bounds vals). apply length_map.
Qed.

Lemma outliers_of_inv (d : DataFrame) (col : string) (k : nat) :
  outliers_of d col = Ok k ->
  exists column vals,
    getitem d col = Ok column /\ as_floats column = Ok vals
    /\ k = length (filter (fun b => b) (outliers_mask vals)).
Proof.
  unfold outliers_of. intros H.
  destruct (getitem d col) as [column|]; [|discriminate]. cbn [bind] in H.
  destruct (as_floats column) as [vals|] eqn:Ef; [|discriminate]. cbn [bind] in H.
  inversion H. exists column, vals. auto.
Qed.

Lemma outliers_of_le (d : DataFrame) (col : string) (k : nat) :
  outliers_of d col = Ok k -> (k <= len d)%nat.
Proof.
  intros H. destruct (outliers_of_inv _ _ H) as (column & vals & Eg & Ef & ->).
  pose proof (filter_length_le (fun b : bool => b) (outliers_mask vals)) as Hle.
  rewrite length_outliers_mask in Hle.
  pose proof (mapM_length _ _ Ef) as L1.
  pose proof (getitem_length _ _ Eg) as L2. lia.
Qed.

Lemma outliers_of_numbers (d : DataFrame) (col : string) :
  column_all is_number col d = true -> exists k, outliers_of d col = Ok k.
Proof.
  intros H. destruct (column_all_getitem _ _ _ H) as (cs & Eg & Hn & _).
  destruct (as_floats_numbers _ Hn) as (vs & Ef & _).
  unfold outliers_of. rewrite Eg. cbn [bind]. rewrite Ef. cbn [bind]. eauto.
Qed.

(** The loop of the step over the columns [l], from the summary [s]. *)
Lemma outlier_loop (d : DataFrame) (l : list string) (s : dict Z) :
  NoDup l ->
  (forall c, In c l -> exists k, outliers_of d c = Ok k) ->
  (forall c, In c l -> ~ In c (map fst s)) ->
  NoDup (map fst s) ->
  exists s',
    for_each l (fun col =>
      d <~ Cleaning.get_df ;;
      column <~ lift (getitem d col) ;;
      vals <~ lift (as_floats column) ;;
      let outlier_count := length (filter (fun b => b) (outliers_mask vals)) in
      if (0 <? outlier_count)%nat then
        s <~ Cleaning.get_outlier_summary ;;
        Cleaning.set_outlier_summary (dict_set s col (Z.of_nat outlier_count))
      else ret tt) (Cleaning.mkGlobals d s)
    = (Ok tt, Cleaning.mkGlobals d s')
    /\ NoDup (map fst s')
    /\ (forall c, In c (map fst s') -> In c (map fst s) \/ In c l)
    /\ (forall c n, In (c, n) s' <->
                    In (c, n) s
                    \/ (In c l /\ exists k, outliers_of d c = Ok k
                                            /\ (0 < k)%nat /\ n = Z.of_nat k)).
Proof.
  revert s. induction l as [|a l IH]; intros s Hnd Hok Hfresh Hs.
  - exists s. split; [reflexivity|]. split; [exact Hs|]. split; [auto|].
    intros c n. split; [auto|]. intros [H|[[] _]]. exact H.
  - inversion Hnd as [|? ? Ha Hnd']; subst.
    destruct (Hok a (or_introl eq_refl)) as [k Hk].
    destruct (outliers_of_inv _ _ Hk) as (column & vals & Eg & Ef & Ek).
    cbn [for_each]. unfold seq_bind at 1 2 3 4. unfold Cleaning.get_df at 1, lift at 1 2.
    cbn [Cleaning.df]. rewrite Eg, Ef. rewrite <- Ek.
    destruct (0 <? k)%nat eqn:Ec.
    + unfold seq_bind at 1. unfold Cleaning.get_outlier_summary, Cleaning.set_outlier_summary.
      cbn [Cleaning.df Cleaning.outlier_summary].
      rewrite (@dict_set_fresh _ s a (Z.of_nat k) (Hfresh a (or_introl eq_refl))).
      destruct (IH (s ++ [(a, Z.of_nat k)]) Hnd') as (s' & E & Hn' & Hkeys & Hiff).
      * intros c Hc. apply Hok. right. exact Hc.
      * intros c Hc Hin. rewrite map_app in Hin. apply in_app_iff in Hin.
        destruct Hin as [Hin|[<-|[]]]; [|contradiction].
        apply (Hfresh c (or_intror Hc)). exact Hin.
      * rewrite map_app. cbn [map fst].
        apply NoDup_app; [exact Hs|repeat constructor; intros []|].
        intros x Hx [<-|[]]. apply (Hfresh a (or_introl eq_refl)). exact Hx.
      * exists s'. split; [exact E|]. split; [exact Hn'|]. split.
        { intros c Hc. destruct (Hkeys c Hc) as [H|H]; [|right; right; exact H].
          rewrite map_app in H. apply in_app_iff in H.
          destruct H as [H|[<-|[]]]; [left; exact H|right; left; reflexivity]. }
        intros c n. rewrite Hiff. rewrite in_app_iff. apply Nat.ltb_lt in Ec.
        split.
        { intros [[H|[H|[]]]|(Hc & k' & Hk' & Hp & Hn)].
          - left. exact H.
          - inversion H; subst c n. right. split; [left; reflexivity|].
            exists k. auto.
          - right. split; [right; exact Hc|]. exists k'. auto. }
        { intros [H|([<-|Hc] & k' & Hk' & Hp & Hn)].
          - left. left. exact H.
          - left. right. left. rewrite Hk in Hk'. inversion Hk'; subst k' n. reflexivity.
          - right. split; [exact Hc|]. exists k'. auto. }
    + unfold ret at 1.
      destruct (IH s Hnd') as (s' & E & Hn' & Hkeys & Hiff).
      * intros c Hc. apply Hok. right. exact Hc.
      * intros c Hc. apply Hfresh. right. exact Hc.
      * exact Hs.
      * exists s'. split; [exact E|]. split; [exact Hn'|]. split.
        { intros c Hc. destruct (Hkeys c Hc) as [H|H]; [left|right; right]; exact H. }
        intros c n. rewrite Hiff. apply Nat.ltb_ge in Ec.
        split.
        { intros [H|(Hc & k' & Hk' & Hp & Hn)]; [left; exact H|].
          right. split; [right; exact Hc|]. exists k'. auto. }
        { intros [H|([<-|Hc] & k' & Hk' & Hp & Hn)].
          - left. exact H.
          - exfalso. rewrite Hk in Hk'. inversion Hk'; subst k'. lia.
          - right. split; [exact Hc|]. exists k'. auto. }
Qed.

(** X8.  When the columns [Area], [Production] and [Productivity] the table
    has are numeric, STEP 6 succeeds, leaves the table as it is, and its
    [outlier_summary] has exactly one entry for each of these columns in
    which at least one value lies outside the IQR bounds of the column, and
    the entry is the number of such values; a column without such a value,
    or absent, has no entry.  A count is at most the number of rows. *)
Theorem outlier_summary_entries (g : Cleaning.globals) :
  (forall col, In col ["Area"; "Production"; "Productivity"] ->
               In col (columns (Cleaning.df g)) ->
               column_all is_number col (Cleaning.df g) = true) ->
  exists summary,
    Cleaning.outlier_detection g = (Ok tt, Cleaning.mkGlobals (Cleaning.df g) summary)
    /\ NoDup (map fst summary)
    /\ (forall col n,
          In (col, n) summary <->
          In col ["Area"; "Production"; "Productivity"]
          /\ exists k, outliers_of (Cleaning.df g) col = Ok k
                       /\ (0 < k)%nat /\ n = Z.of_nat k)
    /\ (forall col n, In (col, n) summary -> (0 < n <= Z.of_nat (len (Cleaning.df g)))%Z).
Proof.
  destruct g as [d s0]. cbn [Cleaning.df]. intros Hnum.
  set (l := filter (fun col => mem col (columns d)) ["Area"; "Production"; "Productivity"]).
  assert (Hl : forall c, In c l <->
                         In c ["Area"; "Production"; "Productivity"] /\ In c (columns d)).
  { intros c. unfold l. rewrite filter_In, mem_true_iff. reflexivity. }
  destruct (@outlier_loop d l []) as (s' & E & Hnd & _ & Hiff).
  - unfold l. apply NoDup_filter.
    repeat (constructor; [simpl; intuition discriminate|]). constructor.
  - intros c Hc. apply Hl in Hc. destruct Hc as [Hc Hin].
    apply outliers_of_numbers. auto.
  - intros c _ [].
  - constructor.
  - exists s'. split.
    { unfold Cleaning.outlier_detection. unfold seq_bind at 1 2.
      unfold Cleaning.get_df at 1, Cleaning.set_outlier_summary at 1.
      cbn [Cleaning.df]. exact E. }
    split; [exact Hnd|].
    assert (Hiff' : forall col n,
               In (col, n) s' <->
               In col ["Area"; "Production"; "Productivity"]
               /\ exists k, outliers_of d col = Ok k /\ (0 < k)%nat /\ n = Z.of_nat k).
    { intros col n. rewrite Hiff. split.
      - intros [[]|(Hc & Hk)]. apply Hl in Hc. tauto.
      - intros (Hc & k & Hk & Hp & Hn). right. split; [|eauto].
        apply Hl. split; [exact Hc|].
        destruct (outliers_of_inv _ _ Hk) as (column & _ & Eg & _).
        apply mem_true_iff. apply (getitem_mem _ _ Eg). }
    split; [exact Hiff'|].
    intros col n Hin. apply Hiff' in Hin. destruct Hin as (_ & k & Hk & Hp & ->).
    pose proof (outliers_of_le _ _ Hk). lia.
Qed.

Lemma outlier_summary_entries_witness :
  exists summary,
    Cleaning.outlier_detection (Cleaning.mkGlobals cleaning_demo [])
    = (Ok tt, Cleaning.mkGlobals cleaning_demo summary)
    /\ NoDup (map fst summary)
    /\ (forall col n,
          In (col, n) summary <->
          In col ["Area"; "Production"; "Productivity"]
          /\ exists k, outliers_of cleaning_demo col = Ok k
                       /\ (0 < k)%nat /\ n = Z.of_nat k)
    /\ (forall col n, In (col, n) summary -> (0 < n <= Z.of_nat (len cleaning_demo))%Z).
Proof.
  apply (@outlier_summary_entries (Cleaning.mkGlobals cleaning_demo [])).
  intros col Hc Hin. simpl in Hc, Hin.
  destruct Hc as [<-|[<-|[<-|[]]]]; try reflexivity.
  exfalso. repeat (destruct Hin as [Hin|Hin]; [discriminate|]). exact Hin.
Defined.

(* ================================================================== *)
(** * Cleaning, STEP 2: the column names *)

Lemma rename_identity (d : DataFrame) (o n : string) :
  mem o (columns d) && negb (String.eqb o n) = false -> rename d o n = d.
Proof.
  intros H. destruct d as [cols rs]. unfold rename. cbn [columns rows] in *.
  f_equal. rewrite <- (map_id cols) at 2. apply map_ext_in. intros c Hc.
  destruct (String.eqb_spec c o) as [->|Hne]; [|reflexivity].
  apply andb_false_iff in H. destruct H as [H|H].
  - apply mem_false_iff in H. contradiction.
  - apply negb_false_iff, String.eqb_eq in H. auto.
Qed.

Lemma standardize_fold (l : dict string) (g : Cleaning.globals) :
  for_each l (fun item =>
    let '(old_name, new_name) := item in
    d <~ Cleaning.get_df ;;
    if mem old_name (columns d) && negb (String.eqb old_name new_name) then
      Cleaning.set_df (rename d old_name new_name)
    else ret tt) g
  = (Ok tt,
     Cleaning.mkGlobals
       (fold_left (fun d item => rename d (fst item) (snd item)) l (Cleaning.df g))
       (Cleaning.outlier_summary g)).
Proof.
  revert g. induction l as [|[o n] l IH]; intros [d s]; simpl.
  - reflexivity.
  - unfold seq_bind, Cleaning.get_df. cbn [Cleaning.df].
    destruct (mem o (columns d) && negb (String.eqb o n)) eqn:E.
    + unfold Cleaning.set_df. rewrite IH. reflexivity.
    + unfold ret. rewrite IH. cbn [Cleaning.df Cleaning.outlier_summary].
      rewrite (rename_identity _ _ _ E). reflexivity.
Qed.

Lemma fold_rename (l : dict string) (d : DataFrame) :
  fold_left (fun d item => rename d (fst item) (snd item)) l d
  = mkDataFrame (map (fun c => fold_left rename_label l c) (columns d)) (rows d).
Proof.
  revert d. induction l as [|[o n] l IH]; intros [cols rs]; simpl.
  - rewrite map_id. reflexivity.
  - rewrite IH. unfold rename. cbn [columns rows]. rewrite map_map. reflexivity.
Qed.

Lemma assoc_in (A : Type) (k : string) (d : list (string * A)) (v : A) :
  assoc k d = Some v -> In (k, v) d.
Proof.
  induction d as [|[k0 v0] d IH]; simpl; [discriminate|].
  destruct (String.eqb_spec k k0) as [->|Hne].
  - intros E. inversion E. auto.
  - auto.
Qed.

Lemma assoc_none (A : Type) (k : string) (d : list (string * A)) :
  assoc k d = None -> ~ In k (map fst d).
Proof.
  induction d as [|[k0 v0] d IH]; simpl; [auto|].
  destruct (String.eqb_spec k k0) as [->|Hne]; [discriminate|].
  intros H [E|Hin]; [congruence|]. apply IH; assumption.
Qed.

Lemma targets_fixed_spec (l : dict string) :
  targets_fixed l = true ->
  forall o n o' n', In (o, n) l -> In (o', n') l -> n = o' -> n' = n.
Proof.
  unfold targets_fixed. rewrite forallb_forall. intros H o n o' n' Ha Hb E.
  specialize (H _ Ha). rewrite forallb_forall in H. specialize (H _ Hb).
  cbn [fst snd] in H. apply orb_true_iff in H. destruct H as [H|H].
  - apply negb_true_iff, String.eqb_neq in H. contradiction.
  - apply String.eqb_eq in H. assumption.
Qed.

Lemma fold_rename_label (l : dict string) (c : string) :
  (forall o n o' n', In (o, n) l -> In (o', n') l -> n = o' -> n' = n) ->
  fold_left rename_label l c = match assoc c l with Some n => n | None => c end.
Proof.
  revert c. induction l as [|[o n] l IH]; intros c H; simpl; [reflexivity|].
  assert (Hl : forall o n o' n', In (o, n) l -> In (o', n') l -> n = o' -> n' = n).
  { intros. eapply H; simpl; eauto. }
  unfold rename_label at 2. cbn [fst snd].
  destruct (String.eqb_spec c o) as [->|Hne].
  - rewrite (IH n Hl). destruct (assoc n l) as [n'|] eqn:E; [|reflexivity].
    apply assoc_in in E. eapply (H o n n n'); simpl; eauto.
  - apply IH. exact Hl.
Qed.

Lemma standard_name_fold (c : string) :
  fold_left rename_label column_mapping c = standard_name c.
Proof.
  apply fold_rename_label. apply targets_fixed_spec. reflexivity.
Qed.

Lemma standardize_result (g : Cleaning.globals) :
  standardize_column_names g
  = (Ok tt,
     Cleaning.mkGlobals
       (mkDataFrame (map standard_name (columns (Cleaning.df g))) (rows (Cleaning.df g)))
       (Cleaning.outlier_summary g)).
Proof.
  unfold standardize_column_names. rewrite standardize_fold, fold_rename.
  do 2 f_equal. f_equal. apply map_ext. apply standard_name_fold.
Qed.

Lemma standard_name_not_alias (c : string) : ~ In (standard_name c) aliases.
Proof.
  unfold standard_name. destruct (assoc c column_mapping) as [n|] eqn:E.
  - apply assoc_in in E.
    assert (Hn : In n (map snd column_mapping)).
    { apply in_map_iff. exists (c, n). auto. }
    clear E. revert Hn. generalize n. apply Forall_forall. vm_compute.
    repeat constructor; intros H; repeat (destruct H as [H|H]; [discriminate|]); exact H.
  - apply assoc_none in E. intros H. apply E. unfold aliases in H.
    apply in_map_iff in H. destruct H as (x & <- & Hx). apply filter_In in Hx.
    apply in_map. tauto.
Qed.

Lemma standard_name_idempotent (c : string) :
  standard_name (standard_name c) = standard_name c.
Proof.
  rewrite <- !standard_name_fold.
  set (c' := fold_left rename_label column_mapping c).
  rewrite standard_name_fold.
  unfold standard_name at 1. destruct (assoc c' column_mapping) as [n|] eqn:E; [|reflexivity].
  subst c'. rewrite standard_name_fold in E |- *.
  unfold standard_name in E |- *.
  destruct (assoc c column_mapping) as [m|] eqn:Ec.
  - apply assoc_in in E, Ec.
    apply (@targets_fixed_spec column_mapping eq_refl c m m n Ec E eq_refl).
  - rewrite Ec in E. discriminate.
Qed.

(** X9.  STEP 2 never fails, leaves the rows alone, and renames the columns
    as if all entries of [column_mapping] were applied at once: every label
    is replaced by the name the mapping gives it, a label the mapping does
    not know stays. *)
Theorem standardize_column_names_renames (g : Cleaning.globals) :
  standardize_column_names g
  = (Ok tt,
     Cleaning.mkGlobals
       (mkDataFrame (map standard_name (columns (Cleaning.df g))) (rows (Cleaning.df g)))
       (Cleaning.outlier_summary g)).
Proof. apply standardize_result. Qed.

(** X10.  After STEP 2 no column carries one of the twelve spellings the
    mapping replaces, and running the step again changes nothing. *)
Theorem standardize_column_names_canonical (g : Cleaning.globals) :
  let g' := snd (standardize_column_names g) in
  (forall c, In c (columns (Cleaning.df g')) -> ~ In c aliases)
  /\ standardize_column_names g' = (Ok tt, g').
Proof.
  cbv zeta. rewrite standardize_result. cbn [snd]. split.
  - cbn [Cleaning.df columns]. intros c Hc. apply in_map_iff in Hc.
    destruct Hc as (c0 & <- & _). apply standard_name_not_alias.
  - rewrite standardize_result. cbn [Cleaning.df Cleaning.outlier_summary columns rows].
    rewrite map_map. do 3 f_equal. apply map_ext. apply standard_name_idempotent.
Qed.

(* ================================================================== *)
(** * Cleaning, STEP 5: negative areas and productions *)

Lemma abs_not_negative (f : float) : PrimFloat.ltb (PrimFloat.abs f) 0%float = false.
Proof.
  rewrite FloatAxioms.ltb_spec, FloatAxioms.abs_spec.
  destruct (Prim2SF f) as [s|s| |s m e]; reflexivity.
Qed.

Lemma abs_cell_validated (c : cell) :
  has_abs c = true -> exists c', abs_cell c = Ok c' /\ lt_zero c' = Ok false /\ has_abs c' = true.
Proof.
  destruct c as [|s|z|f|b]; simpl; try discriminate; intros H.
  - apply andb_true_iff in H. destruct H as [H1 H2].
    apply Z.ltb_lt in H1, H2.
    assert (E : wrap64 (Z.abs z) = Z.abs z).
    { unfold wrap64. rewrite Z.mod_small; lia. }
    rewrite E. eexists. split; [reflexivity|]. simpl. split.
    + f_equal. apply Z.ltb_ge. lia.
    + apply andb_true_iff. split; apply Z.ltb_lt; lia.
  - eexists. split; [reflexivity|]. simpl. rewrite abs_not_negative. auto.
Qed.

Lemma lt_zero_total (cs : list cell) :
  forallb has_abs cs = true -> exists mask, mapM lt_zero cs = Ok mask.
Proof.
  intros H. apply mapM_total. intros c Hc. rewrite forallb_forall in H.
  specialize (H c Hc). destruct c; try discriminate; simpl; eauto.
Qed.

Lemma abs_cells (cs : list cell) :
  forallb has_abs cs = true ->
  exists cs', mapM abs_cell cs = Ok cs'
              /\ Forall2 validated cs cs' /\ forallb has_abs cs' = true.
Proof.
  induction cs as [|c cs IH]; simpl; intros H.
  - exists []. repeat split; constructor.
  - apply andb_true_iff in H. destruct H as [Hc Hcs].
    destruct (abs_cell_validated _ Hc) as (c' & E & Hn & Ha).
    destruct (IH Hcs) as (cs' & E' & Hf & Ha').
    exists (c' :: cs'). rewrite E. cbn [bind]. rewrite E'. cbn [bind].
    split; [reflexivity|]. split.
    + constructor; [split; auto|assumption].
    + simpl. rewrite Ha, Ha'. reflexivity.
Qed.

Lemma no_negative_validated (cs : list cell) (mask : list bool) :
  mapM lt_zero cs = Ok mask -> count_mask mask = 0%nat ->
  Forall2 validated cs cs.
Proof.
  revert mask. induction cs as [|c cs IH]; simpl; intros mask H Hc.
  - constructor.
  - destruct (lt_zero c) as [b|] eqn:E; [|discriminate]. cbn [bind] in H.
    destruct (mapM lt_zero cs) as [m|] eqn:Em; [|discriminate]. cbn [bind] in H.
    inversion H; subst mask. unfold count_mask in Hc. simpl in Hc.
    destruct b; [discriminate|].
    constructor; [split; auto|]. eapply IH; eauto.
Qed.

(** One validation, on a table that has the column. *)
Lemma validate_ok (name : string) (g : Cleaning.globals) (column : list cell) :
  well_formed (Cleaning.df g) = true ->
  getitem (Cleaning.df g) name = Ok column ->
  forallb has_abs column = true ->
  exists d' column',
    validate name g = (Ok tt, Cleaning.mkGlobals d' (Cleaning.outlier_summary g))
    /\ well_formed d' = true
    /\ columns d' = columns (Cleaning.df g)
    /\ len d' = len (Cleaning.df g)
    /\ getitem d' name = Ok column'
    /\ Forall2 validated column column'
    /\ forallb has_abs column' = true
    /\ (forall c, c <> name -> getitem d' c = getitem (Cleaning.df g) c).
Proof.
  destruct g as [d s]. cbn [Cleaning.df Cleaning.outlier_summary].
  intros Hwf Hg Ha.
  pose proof (getitem_mem _ _ Hg) as Hm.
  destruct (lt_zero_total _ Ha) as [mask Hmask].
  unfold validate, seq_bind, Cleaning.get_df, lift. cbn [Cleaning.df].
  rewrite Hm, Hg, Hmask.
  destruct (0 <? count_mask mask)%nat eqn:Ec.
  - destruct (abs_cells _ Ha) as (cs' & E & Hf & Ha').
    rewrite E.
    assert (L : length cs' = len d).
    { rewrite (mapM_length _ _ E). apply (getitem_length _ _ Hg). }
    destruct (@getitem_setitem d name cs' Hwf L) as (d' & S & G & Ld).
    rewrite S. exists d', cs'. unfold Cleaning.set_df. cbn [Cleaning.outlier_summary].
    split; [reflexivity|].
    split; [apply (@setitem_well_formed _ _ _ _ Hwf S)|].
    split.
    { unfold setitem in S. rewrite L, Nat.eqb_refl in S. cbn [negb] in S.
      apply mem_true_iff in Hm. destruct (get_loc_in _ _ Hm) as [i Hi].
      rewrite Hi in S. inversion S. reflexivity. }
    split; [exact Ld|]. split; [exact G|]. split; [exact Hf|]. split; [exact Ha'|].
    intros c Hc. apply (@setitem_other _ _ _ _ _ Hwf S Hc).
  - exists d, column. unfold ret.
    split; [reflexivity|]. split; [exact Hwf|]. split; [reflexivity|].
    split; [reflexivity|]. split; [exact Hg|].
    split; [|split; [exact Ha|reflexivity]].
    apply Nat.ltb_ge in Ec. eapply no_negative_validated; eauto. lia.
Qed.

(** X11.  On numeric [Area] and [Production] columns the two validations of
    STEP 5 succeed; afterwards every cell of both columns is the old cell or
    its magnitude and is not below zero, missing values stay missing, and
    labels, row count and all other columns are unchanged.  (The least int64
    has no magnitude and is excluded.) *)
Theorem validation_leaves_no_negative (g : Cleaning.globals) (area production : list cell) :
  well_formed (Cleaning.df g) = true ->
  getitem (Cleaning.df g) "Area" = Ok area ->
  getitem (Cleaning.df g) "Production" = Ok production ->
  forallb has_abs area = true ->
  forallb has_abs production = true ->
  exists g' area' production',
    (_ <~ validate "Area" ;; validate "Production") g = (Ok tt, g')
    /\ columns (Cleaning.df g') = columns (Cleaning.df g)
    /\ len (Cleaning.df g') = len (Cleaning.df g)
    /\ getitem (Cleaning.df g') "Area" = Ok area'
    /\ getitem (Cleaning.df g') "Production" = Ok production'
    /\ Forall2 validated area area'
    /\ Forall2 validated production production'
    /\ (forall c, c <> "Area" -> c <> "Production" ->
          getitem (Cleaning.df g') c = getitem (Cleaning.df g) c).
Proof.
  intros Hwf Ga Gp Ha Hp.
  destruct (validate_ok "Area" g Hwf Ga Ha)
    as (d1 & area' & V1 & Hwf1 & C1 & L1 & G1 & F1 & _ & O1).
  assert (Gp1 : getitem d1 "Production" = Ok production).
  { rewrite O1; [exact Gp|discriminate]. }
  destruct (validate_ok "Production" (Cleaning.mkGlobals d1 (Cleaning.outlier_summary g))
                        Hwf1 Gp1 Hp)
    as (d2 & production' & V2 & Hwf2 & C2 & L2 & G2 & F2 & _ & O2).
  cbn [Cleaning.df Cleaning.outlier_summary] in *.
  exists (Cleaning.mkGlobals d2 (Cleaning.outlier_summary g)), area', production'.
  cbn [Cleaning.df].
  split; [unfold seq_bind at 1; rewrite V1; exact V2|].
  split; [congruence|]. split; [congruence|].
  split; [rewrite O2; [exact G1|discriminate]|].
  split; [exact G2|]. split; [exact F1|]. split; [exact F2|].
  intros c Hca Hcp. rewrite (O2 c Hcp). apply (O1 c Hca).
Qed.

Lemma validation_leaves_no_negative_witness :
  exists g' area' production',
    (_ <~ validate "Area" ;; validate "Production") (Cleaning.mkGlobals negative_demo [])
    = (Ok tt, g')
    /\ columns (Cleaning.df g') = columns negative_demo
    /\ len (Cleaning.df g') = len negative_demo
    /\ getitem (Cleaning.df g') "Area" = Ok area'
    /\ getitem (Cleaning.df g') "Production" = Ok production'
    /\ Forall2 validated [CFloat (-10); CFloat 11; CFloat PrimFloat.nan] area'
    /\ Forall2 validated [CInt 100; CInt (-110); CInt 0] production'
    /\ (forall c, c <> "Area" -> c <> "Production" ->
          getitem (Cleaning.df g') c = getitem negative_demo c).
Proof.
  apply (@validation_leaves_no_negative (Cleaning.mkGlobals negative_demo [])
           [CFloat (-10); CFloat 11; CFloat PrimFloat.nan] [CInt 100; CInt (-110); CInt 0]);
    reflexivity.
Defined.

(* ================================================================== *)
(** * Cleaning: duplicate rows *)

Lemma duplicated_count (seen : list (list key)) (rs : list row) :
  (length (first_seen row_key seen rs) + count_mask (duplicated_from seen rs)
   = length rs)%nat.
Proof.
  unfold count_mask. revert seen. induction rs as [|r rs IH]; intros seen; simpl.
  - reflexivity.
  - destruct (in_dec row_key_eq_dec (row_key r) seen); simpl;
      [specialize (IH seen)|specialize (IH (row_key r :: seen))]; lia.
Qed.

Lemma first_seen_all (A : Type) (k : A -> list key) (seen : list (list key)) (l : list A) :
  NoDup (map k l) -> (forall a, In a l -> ~ In (k a) seen) ->
  first_seen k seen l = l.
Proof.
  revert seen. induction l as [|a l IH]; intros seen Hnd Hs; simpl; [reflexivity|].
  inversion Hnd as [|? ? Ha Hnd']; subst.
  destruct (in_dec row_key_eq_dec (k a) seen) as [Hin|_].
  - exfalso. apply (Hs a); simpl; auto.
  - f_equal. apply IH; [assumption|].
    intros b Hb [E|Hin].
    + apply Ha. rewrite E. apply in_map. assumption.
    + apply (Hs b); simpl; auto.
Qed.

Lemma first_seen_length_all (A : Type) (k : A -> list key) (seen : list (list key))
      (l : list A) :
  length (first_seen k seen l) = length l -> first_seen k seen l = l.
Proof.
  revert seen. induction l as [|a l IH]; intros seen H; simpl in *; [reflexivity|].
  destruct (in_dec row_key_eq_dec (k a) seen).
  - exfalso.
    assert (Hle : forall s, (length (first_seen k s l) <= length l)%nat).
    { clear. induction l as [|b l IH]; intros s; simpl; [lia|].
      destruct (in_dec row_key_eq_dec (k b) s); simpl; [specialize (IH s)|specialize (IH (k b :: s))]; lia. }
    specialize (Hle seen). lia.
  - simpl in H. f_equal. apply IH. lia.
Qed.

Lemma drop_duplicates_deduplicated (d : DataFrame) :
  deduplicated d (drop_duplicates d) (count_mask (duplicated d)).
Proof.
  unfold deduplicated, drop_duplicates, duplicated, len. cbn [columns rows].
  split; [reflexivity|].
  split; [apply first_seen_nodup|].
  split; [apply first_seen_keys|].
  split; [apply first_seen_incl|].
  split; [apply duplicated_count|].
  f_equal. apply first_seen_all; [apply first_seen_nodup|]. intros a _ [].
Qed.

Lemma no_duplicates_unchanged (d : DataFrame) :
  (0 <? count_mask (duplicated d))%nat = false -> drop_duplicates d = d.
Proof.
  intros H. apply Nat.ltb_ge in H.
  pose proof (duplicated_count [] (rows d)) as Hc. unfold duplicated in H.
  destruct d as [cols rs]. unfold drop_duplicates. cbn [columns rows] in *.
  f_equal. apply first_seen_length_all. lia.
Qed.

Lemma getitem_list_total (d : DataFrame) (names : list string) :
  (forall n, In n names -> In n (columns d)) ->
  exists sub, getitem_list d names = Ok sub.
Proof.
  intros H. unfold getitem_list.
  destruct (@mapM_total _ _ (fun n => loc n (columns d)) names) as [idxs E].
  - intros n Hn. destruct (get_loc_in _ _ (H n Hn)) as [i Hi].
    exists i. apply loc_ok. assumption.
  - rewrite E. cbn [bind]. eauto.
Qed.

(** X12.  The duplicate removal of both cleaning scripts never fails and
    reports the number of repeated rows; afterwards no two rows are equal,
    the rows are exactly the distinct rows of the table before, the row
    count went down by the reported number, and a second removal finds
    nothing.  Logical duplicates are counted only. *)
Theorem duplicate_removal_keeps_first_rows :
  (forall g, exists d' logical,
      remove_duplicates g
      = (Ok (count_mask (duplicated (Cleaning.df g)), logical),
         Cleaning.mkGlobals d' (Cleaning.outlier_summary g))
      /\ deduplicated (Cleaning.df g) d' (count_mask (duplicated (Cleaning.df g))))
  /\ (forall g, exists d',
        remove_duplicate_rows g
        = (Ok (count_mask (duplicated (Untitled1.df g))),
           Untitled1.mkGlobals d' (Untitled1.outlier_summary g))
        /\ deduplicated (Untitled1.df g) d' (count_mask (duplicated (Untitled1.df g)))).
Proof.
  split.
  - intros [d s]. cbn [Cleaning.df Cleaning.outlier_summary].
    exists (drop_duplicates d).
    assert (E : (_ <~ (if (0 <? count_mask (duplicated d))%nat
                       then Cleaning.set_df (drop_duplicates d) else ret tt) ;;
                 Cleaning.get_df) (Cleaning.mkGlobals d s)
                = (Ok (drop_duplicates d), Cleaning.mkGlobals (drop_duplicates d) s)).
    { unfold seq_bind. destruct (0 <? count_mask (duplicated d))%nat eqn:Ec.
      - reflexivity.
      - unfold ret, Cleaning.get_df. cbn [Cleaning.df].
        rewrite (no_duplicates_unchanged _ Ec). reflexivity. }
    unfold remove_duplicates.
    unfold seq_bind at 1. unfold Cleaning.get_df at 1. cbn [Cleaning.df].
    unfold seq_bind in E. unfold seq_bind at 1.
    destruct ((if (0 <? count_mask (duplicated d))%nat
               then Cleaning.set_df (drop_duplicates d) else ret tt)
                (Cleaning.mkGlobals d s)) as [[[]|e] g1] eqn:E1.
    + unfold seq_bind at 1. rewrite E.
      set (cols := filter (fun col => mem col (columns (drop_duplicates d))) key_columns).
      destruct (3 <=? length cols)%nat.
      * destruct (getitem_list_total (drop_duplicates d) cols) as [sub Hsub].
        { intros n Hn. subst cols. apply filter_In in Hn. apply mem_true_iff. tauto. }
        unfold seq_bind, lift. rewrite Hsub.
        eexists. split; [reflexivity|apply drop_duplicates_deduplicated].
      * eexists. split; [reflexivity|apply drop_duplicates_deduplicated].
    + discriminate.
  - intros [d s]. cbn [Untitled1.df Untitled1.outlier_summary].
    exists (drop_duplicates d).
    unfold remove_duplicate_rows, seq_bind, Untitled1.get_df. cbn [Untitled1.df].
    destruct (0 <? count_mask (duplicated d))%nat eqn:Ec.
    + split; [reflexivity|apply drop_duplicates_deduplicated].
    + unfold ret. rewrite (no_duplicates_unchanged _ Ec).
      split; [reflexivity|].
      rewrite <- (no_duplicates_unchanged _ Ec) at 2.
      apply drop_duplicates_deduplicated.
Qed.

(* ================================================================== *)
(** * The pipeline and its export *)

Lemma assoc_dict_set (A : Type) (d : dict A) (k k' : string) (v : A) :
  assoc k (dict_set d k' v) = if String.eqb k k' then Some v else assoc k d.
Proof.
  induction d as [|[k0 v0] d IH]; simpl.
  - reflexivity.
  - destruct (String.eqb_spec k' k0) as [->|Hne]; simpl.
    + destruct (String.eqb k k0); reflexivity.
    + rewrite IH. destruct (String.eqb_spec k k0) as [->|Hne'].
      * destruct (String.eqb_spec k0 k'); [congruence|reflexivity].
      * reflexivity.
Qed.

Lemma assoc_app (A : Type) (k : string) (l1 l2 : dict A) :
  assoc k (l1 ++ l2) = match assoc k l1 with
                       | Some v => Some v
                       | None => assoc k l2
                       end.
Proof.
  induction l1 as [|[k0 v0] l1 IH]; simpl; [reflexivity|].
  destruct (String.eqb k k0); [reflexivity|exact IH].
Qed.

Lemma assoc_not_in (A : Type) (k : string) (l : dict A) :
  ~ In k (map fst l) -> assoc k l = None.
Proof.
  induction l as [|[k0 v0] l IH]; simpl; intros H; [reflexivity|].
  destruct (String.eqb_spec k k0) as [->|_]; [exfalso; auto|auto].
Qed.

Lemma surrogate_dimension_columns (df d : DataFrame) (col idn : string) :
  surrogate_dimension df col idn = Ok d -> columns d = [idn; col].
Proof.
  unfold surrogate_dimension. intros H.
  destruct (getitem_list df [col]) as [d0|]; [|discriminate]. cbn [bind] in H.
  destruct (setitem _ idn _) as [d1|]; [|discriminate]. cbn [bind] in H.
  unfold getitem_list in H.
  destruct (mapM _ [idn; col]) as [idxs|]; [|discriminate]. cbn [bind] in H.
  inversion H. reflexivity.
Qed.

(** Every record of the date dimension has the four labels. *)
Lemma date_records_labels (now_year : Z) (years : list cell)
      (recs : list (list (string * cell))) :
  mapM (date_record now_year) years = Ok recs ->
  Forall (fun rec => map fst rec = date_columns) recs.
Proof.
  revert recs. induction years as [|c years IH]; simpl; intros recs H.
  - inversion H. constructor.
  - destruct (date_record now_year c) as [rec|] eqn:Ec; [|discriminate].
    cbn [bind] in H.
    destruct (mapM (date_record now_year) years) as [rs|]; [|discriminate].
    cbn [bind] in H. inversion H; subst recs. constructor; [|apply IH; reflexivity].
    destruct c as [| |y|f|]; simpl in Ec; try discriminate.
    + inversion Ec. reflexivity.
    + destruct (isna (CFloat f)); [|discriminate]. inversion Ec. reflexivity.
Qed.

Lemma date_frame_columns (recs : list (list (string * cell))) :
  Forall (fun rec => map fst rec = date_columns) recs ->
  columns (DataFrame_of_records recs) = [] \/ columns (DataFrame_of_records recs) = date_columns.
Proof.
  intros H. destruct recs as [|rec recs]; [left; reflexivity|right].
  inversion H as [|? ? Hr Hrs]; subst.
  unfold DataFrame_of_records. cbn [columns flat_map]. rewrite Hr.
  unfold date_columns. simpl. do 4 f_equal.
  apply union_labels_seen. intros x Hx.
  apply in_flat_map in Hx. destruct Hx as [r [Hin Hx]].
  rewrite Forall_forall in Hrs. rewrite (Hrs r Hin) in Hx.
  unfold date_columns in Hx. simpl in Hx. simpl. tauto.
Qed.

(** The shape of whatever [create_dimension_tables] returns. *)
Lemma create_dimension_tables_inv (now_year : Z) (df : DataFrame) (dims : dict DataFrame) :
  create_dimension_tables now_year df = Ok dims ->
  exists states crops seasons dates,
    dims = [ ("states", states); ("crops", crops); ("seasons", seasons);
             ("dates", dates) ]
    /\ columns states = ["State_ID"; "State_Name"]
    /\ columns crops = ["Crop_ID"; "Crop"]
    /\ columns seasons = ["Season_ID"; "Season"]
    /\ (columns dates = [] \/ columns dates = date_columns).
Proof.
  rewrite create_dimension_tables_unfold. intros H.
  destruct (surrogate_dimension df "State_Name" "State_ID") as [s|] eqn:Es; [|discriminate].
  cbn [bind] in H.
  destruct (surrogate_dimension df "Crop" "Crop_ID") as [c|] eqn:Ec; [|discriminate].
  cbn [bind] in H.
  destruct (surrogate_dimension df "Season" "Season_ID") as [se|] eqn:Ese; [|discriminate].
  cbn [bind] in H.
  destruct (getitem df "Crop_Year") as [cy|]; [|discriminate]. cbn [bind] in H.
  destruct (sorted (unique cy)) as [years|]; [|discriminate]. cbn [bind] in H.
  destruct (mapM (date_record now_year) years) as [recs|] eqn:Er; [|discriminate].
  cbn [bind] in H. inversion H; subst dims.
  exists s, c, se, (DataFrame_of_records recs).
  split; [reflexivity|].
  split; [apply (surrogate_dimension_columns _ _ _ Es)|].
  split; [apply (surrogate_dimension_columns _ _ _ Ec)|].
  split; [apply (surrogate_dimension_columns _ _ _ Ese)|].
  apply date_frame_columns. apply (date_records_labels _ _ Er).
Qed.

Lemma merge_needs_key (left right out : DataFrame) (left_on right_on : string) :
  merge left right left_on right_on = Ok out -> In right_on (columns right).
Proof.
  unfold merge, loc. intros H.
  destruct (get_loc right_on (columns right)) as [i|] eqn:E; [|discriminate].
  destruct (get_loc_some _ _ E) as [Hi <-]. apply nth_In. assumption.
Qed.

(** The shape of whatever [create_fact_table] returns. *)
Lemma create_fact_table_inv (df fact dates : DataFrame) (dims : dict DataFrame) :
  create_fact_table df dims = Ok fact ->
  dict_get dims "dates" = Ok dates ->
  columns fact = fact_columns /\ In "Year" (columns dates).
Proof.
  unfold create_fact_table. intros H Hd.
  destruct (dict_get dims "states") as [s|]; [|discriminate]. cbn [bind] in H.
  destruct (merge df s "State_Name" "State_Name") as [f1|]; [|discriminate]. cbn [bind] in H.
  destruct (dict_get dims "crops") as [c|]; [|discriminate]. cbn [bind] in H.
  destruct (merge f1 c "Crop" "Crop") as [f2|]; [|discriminate]. cbn [bind] in H.
  destruct (dict_get dims "seasons") as [se|]; [|discriminate]. cbn [bind] in H.
  destruct (merge f2 se "Season" "Season") as [f3|]; [|discriminate]. cbn [bind] in H.
  rewrite Hd in H. cbn [bind] in H.
  destruct (merge f3 dates "Crop_Year" "Year") as [f4|] eqn:Em; [|discriminate].
  cbn [bind] in H. split.
  - unfold getitem_list in H.
    destruct (mapM _ fact_columns) as [idxs|]; [|discriminate]. cbn [bind] in H.
    inversion H. reflexivity.
  - apply (merge_needs_key _ _ _ _ Em).
Qed.

(** ** Writing files one after the other *)

Lemma for_each_app (globals A : Type) (l1 l2 : list A) (body : A -> script globals unit)
      (g : globals) :
  for_each (l1 ++ l2) body g = (_ <~ for_each l1 body ;; for_each l2 body) g.
Proof.
  revert g. induction l1 as [|a l1 IH]; intros g; simpl.
  - reflexivity.
  - unfold seq_bind. destruct (body a g) as [[[]|e] g1]; [|reflexivity].
    rewrite IH. reflexivity.
Qed.

Lemma for_each_map (globals A B : Type) (f : A -> B) (l : list A)
      (body : B -> script globals unit) (g : globals) :
  for_each (map f l) body g = for_each l (fun a => body (f a)) g.
Proof.
  revert g. induction l as [|a l IH]; intros g; simpl; [reflexivity|].
  unfold seq_bind. destruct (body (f a) g) as [[[]|e] g1]; [apply IH|reflexivity].
Qed.

Lemma for_each_one (globals A : Type) (a : A) (body : A -> script globals unit)
      (g : globals) :
  for_each [a] body g = body a g.
Proof.
  simpl. unfold seq_bind, ret. destruct (body a g) as [[[]|e] g1]; reflexivity.
Qed.

(** The export writes the files of [exported], in their order. *)
Lemma export_as_writes (w : Preprocessor.world) (df fact : DataFrame)
      (dims sums : dict DataFrame) (fs : Preprocessor.files) :
  Preprocessor.export_for_powerbi w df dims fact sums fs
  = write_all w (exported w (Preprocessor.mkOutcome df dims fact sums)) fs.
Proof.
  unfold write_all, exported, Preprocessor.export_for_powerbi.
  cbn [Preprocessor.original_data Preprocessor.dimensions Preprocessor.fact_table
       Preprocessor.summaries].
  rewrite for_each_app. unfold seq_bind at 1 5. rewrite for_each_one. cbn [fst snd].
  unfold Preprocessor.to_csv at 1.
  destruct (Preprocessor.write w "agriculture_data_powerbi.csv" (Preprocessor.csv df) fs)
    as [[[]|e] fs1]; [|reflexivity].
  rewrite for_each_app. unfold seq_bind at 1 4. rewrite for_each_map. cbn [fst snd].
  unfold Preprocessor.to_csv at 1.
  destruct (for_each dims _ fs1) as [[[]|e] fs2]; [|reflexivity].
  rewrite for_each_app. unfold seq_bind at 1 3. rewrite for_each_one. cbn [fst snd].
  unfold Preprocessor.to_csv at 1.
  destruct (Preprocessor.write w "fact_agriculture.csv" (Preprocessor.csv fact) fs2)
    as [[[]|e] fs3]; [|reflexivity].
  rewrite for_each_app. unfold seq_bind. rewrite for_each_map. cbn [fst snd].
  unfold Preprocessor.to_csv.
  destruct (for_each sums _ fs3) as [[[]|e] fs4]; [|reflexivity].
  rewrite for_each_one. reflexivity.
Qed.

(** The directory after the files [l] were written to it in order. *)
Lemma write_all_cases (w : Preprocessor.world) (l : Preprocessor.files)
      (fs : Preprocessor.files) :
  (exists fs', write_all w l fs = (Ok tt, fs')
               /\ (forall n c, In (n, c) l ->
                               Preprocessor.write_ends w n c = Preprocessor.stored)
               /\ (NoDup (map fst l) -> overwritten fs l fs'))
  \/ (exists e fs', write_all w l fs = (Raise e, fs')
                    /\ (NoDup (map fst l) -> stopped_at w e l fs fs')).
Proof.
  unfold write_all. revert fs. induction l as [|[k v] l IH]; intros fs.
  - left. exists fs. split; [reflexivity|]. split; [intros n c []|].
    intros _ name. reflexivity.
  - cbn [for_each fst snd]. unfold seq_bind. unfold Preprocessor.write at 1 3.
    destruct (Preprocessor.write_ends w k v) as [|e t] eqn:Ew.
    + destruct (IH (dict_set fs k v)) as [(fs' & E & Hs & Ho)|(e & fs' & E & Hp)].
      * left. exists fs'. split; [exact E|]. split.
        { intros n c [H|H]; [inversion H; subst; exact Ew|auto]. }
        intros Hnd name. inversion Hnd as [|? ? Hk Hnd']; subst.
        rewrite (Ho Hnd' name). cbn [assoc]. rewrite assoc_dict_set.
        destruct (String.eqb_spec name k) as [->|_]; [|reflexivity].
        rewrite (assoc_not_in _ _ Hk). reflexivity.
      * right. exists e, fs'. split; [exact E|].
        intros Hnd. inversion Hnd as [|? ? Hk Hnd']; subst.
        destruct (Hp Hnd') as (before & name & c & after & t & El & Hb & Hf & Ho).
        exists ((k, v) :: before), name, c, after, t.
        split; [rewrite El; reflexivity|].
        split; [intros n c' [H|H]; [inversion H; subst; exact Ew|auto]|].
        split; [exact Hf|].
        intros name'. rewrite (Ho name'). cbn [app assoc]. rewrite assoc_dict_set.
        destruct (String.eqb_spec name' k) as [->|_]; [|reflexivity].
        assert (Hn : assoc k (before ++ (if t then [(name, Preprocessor.damaged)] else []))
                     = None).
        { apply assoc_not_in. intros Hin. apply Hk. rewrite El.
          rewrite map_app in *. apply in_app_iff in Hin. apply in_app_iff.
          destruct Hin as [Hin|Hin]; [left; exact Hin|right].
          destruct t; [|destruct Hin]. destruct Hin as [<-|[]]. left. reflexivity. }
        rewrite Hn. reflexivity.
    + right. exists e. eexists. split; [reflexivity|].
      intros _. exists [], k, v, l, t.
      split; [reflexivity|]. split; [intros n c' []|]. split; [exact Ew|].
      intros name. cbn [app]. destruct t; cbn [assoc].
      * rewrite assoc_dict_set. destruct (String.eqb name k); reflexivity.
      * reflexivity.
Qed.

(** The ten files of a run have ten names. *)
Lemma exported_names (w : Preprocessor.world) (df states crops seasons dates fact
                      state_summary crop_summary yearly_trends : DataFrame) :
  map fst (exported w (Preprocessor.mkOutcome df
                         [ ("states", states); ("crops", crops); ("seasons", seasons);
                           ("dates", dates) ]
                         fact
                         [ ("state_summary", state_summary);
                           ("crop_summary", crop_summary);
                           ("yearly_trends", yearly_trends) ]))
  = export_files.
Proof. reflexivity. Qed.

Lemma export_files_distinct : NoDup export_files.
Proof.
  unfold export_files.
  repeat (constructor; [simpl; intuition discriminate|]). constructor.
Qed.

(** What a directory holds after an export into it. *)
Lemma exported_tables (w : Preprocessor.world) (df states crops seasons dates fact
                       state_summary crop_summary yearly_trends : DataFrame)
      (name : string) (table : DataFrame) :
  In (name, table)
     [ ("agriculture_data_powerbi.csv", df); ("dim_states.csv", states);
       ("dim_crops.csv", crops); ("dim_seasons.csv", seasons); ("dim_dates.csv", dates);
       ("fact_agriculture.csv", fact); ("state_summary.csv", state_summary);
       ("crop_summary.csv", crop_summary); ("yearly_trends.csv", yearly_trends) ] ->
  assoc name
        (exported w (Preprocessor.mkOutcome df
                       [ ("states", states); ("crops", crops); ("seasons", seasons);
                         ("dates", dates) ]
                       fact
                       [ ("state_summary", state_summary); ("crop_summary", crop_summary);
                         ("yearly_trends", yearly_trends) ]))
  = Some (Preprocessor.csv table).
Proof.
  intros H. simpl in H.
  repeat (destruct H as [H|H]; [inversion H; subst name table; reflexivity|]).
  contradiction.
Qed.

Lemma exported_model_info (w : Preprocessor.world) (df states crops seasons dates fact
                           state_summary crop_summary yearly_trends : DataFrame) :
  assoc "data_model_info.json"
        (exported w (Preprocessor.mkOutcome df
                       [ ("states", states); ("crops", crops); ("seasons", seasons);
                         ("dates", dates) ]
                       fact
                       [ ("state_summary", state_summary); ("crop_summary", crop_summary);
                         ("yearly_trends", yearly_trends) ]))
  = Some (Preprocessor.json
            (Preprocessor.mkModelInfo
               "Star Schema" (Preprocessor.now_iso w)
               "Agriculture data model optimized for Power BI"
               [ ("states", Preprocessor.describe states);
                 ("crops", Preprocessor.describe crops);
                 ("seasons", Preprocessor.describe seasons);
                 ("dates", Preprocessor.describe dates) ]
               "fact_agriculture" (Preprocessor.describe fact)
               [ ("state_summary", Preprocessor.describe state_summary);
                 ("crop_summary", Preprocessor.describe crop_summary);
                 ("yearly_trends", Preprocessor.describe yearly_trends) ])).
Proof. reflexivity. Qed.

(** [process_all] step by step: one of the four steps before the export
    raises and nothing is written, or the export writes the ten files. *)
Lemma process_all_steps (w : Preprocessor.world) (fs : Preprocessor.files) :
  (exists e,
      Preprocessor.process_all w fs = (Raise e, fs)
      /\ (Preprocessor.load_cleaned_data w = Raise e
          \/ exists df,
               Preprocessor.load_cleaned_data w = Ok df
               /\ (create_dimension_tables (Preprocessor.now_year w) df = Raise e
                   \/ build_fact_table (Preprocessor.now_year w) df df = Raise e
                   \/ create_summary_tables df = Raise e)))
  \/ (exists out,
        Preprocessor.load_cleaned_data w = Ok (Preprocessor.original_data out)
        /\ create_dimension_tables (Preprocessor.now_year w) (Preprocessor.original_data out)
           = Ok (Preprocessor.dimensions out)
        /\ create_fact_table (Preprocessor.original_data out) (Preprocessor.dimensions out)
           = Ok (Preprocessor.fact_table out)
        /\ create_summary_tables (Preprocessor.original_data out)
           = Ok (Preprocessor.summaries out)
        /\ map fst (exported w out) = export_files
        /\ Preprocessor.process_all w fs
           = match write_all w (exported w out) fs with
             | (Ok _, fs') => (Ok out, fs')
             | (Raise e, fs') => (Raise e, fs')
             end).
Proof.
  unfold Preprocessor.process_all, seq_bind, lift, build_fact_table.
  destruct (Preprocessor.load_cleaned_data w) as [df|e] eqn:El.
  2:{ left. exists e. split; [reflexivity|left; reflexivity]. }
  destruct (create_dimension_tables _ df) as [dims|e] eqn:Ed.
  2:{ left. exists e. split; [reflexivity|]. right. exists df.
      split; [reflexivity|]. left. exact Ed. }
  cbn [bind].
  destruct (create_fact_table df dims) as [fact|e] eqn:Ef.
  2:{ left. exists e. split; [reflexivity|]. right. exists df.
      split; [reflexivity|]. right. left. rewrite Ed. exact Ef. }
  destruct (create_summary_tables df) as [sums|e] eqn:Es.
  2:{ left. exists e. split; [reflexivity|]. right. exists df.
      split; [reflexivity|]. right. right. exact Es. }
  right. exists (Preprocessor.mkOutcome df dims fact sums).
  cbn [Preprocessor.original_data Preprocessor.dimensions Preprocessor.fact_table
       Preprocessor.summaries].
  split; [reflexivity|]. split; [exact Ed|]. split; [exact Ef|]. split; [exact Es|].
  split.
  - destruct (create_dimension_tables_inv _ _ Ed) as (s & c & se & d & -> & _).
    destruct (create_summary_tables_inv _ Es) as (g1 & g2 & g3 & _ & _ & _ & ->).
    apply exported_names.
  - rewrite export_as_writes.
    destruct (write_all w _ fs) as [[[]|e] fs']; reflexivity.
Qed.

(** Whatever [process_all] returns was built by the four steps, in order,
    and from it the export wrote its files. *)
Lemma process_all_inv (w : Preprocessor.world) (fs fs' : Preprocessor.files)
      (out : Preprocessor.outcome) :
  Preprocessor.process_all w fs = (Ok out, fs') ->
  Preprocessor.load_cleaned_data w = Ok (Preprocessor.original_data out)
  /\ create_dimension_tables (Preprocessor.now_year w) (Preprocessor.original_data out)
     = Ok (Preprocessor.dimensions out)
  /\ create_fact_table (Preprocessor.original_data out) (Preprocessor.dimensions out)
     = Ok (Preprocessor.fact_table out)
  /\ create_summary_tables (Preprocessor.original_data out)
     = Ok (Preprocessor.summaries out)
  /\ map fst (exported w out) = export_files
  /\ overwritten fs (exported w out) fs'.
Proof.
  intros H.
  destruct (process_all_steps w fs) as [(e & E & _)|(out' & L & D & F & S & N & E)].
  - rewrite E in H. discriminate.
  - rewrite E in H.
    destruct (write_all_cases w (exported w out') fs)
      as [(fs1 & Ew & _ & Ho)|(e & fs1 & Ew & _)]; rewrite Ew in H; [|discriminate].
    inversion H; subst out' fs1.
    repeat split; auto. apply Ho. rewrite N. apply export_files_distinct.
Qed.

Lemma write_all_stored (w : Preprocessor.world) (l : Preprocessor.files)
      (fs : Preprocessor.files) :
  writable w (map fst l) -> exists fs', write_all w l fs = (Ok tt, fs').
Proof.
  unfold write_all. revert fs. induction l as [|[k v] l IH]; intros fs H.
  - exists fs. reflexivity.
  - cbn [for_each fst snd]. unfold seq_bind, Preprocessor.write.
    rewrite (H k v (or_introl eq_refl)).
    apply IH. intros n c Hn. apply H. right. exact Hn.
Qed.

Lemma process_all_ok (w : Preprocessor.world) (df : DataFrame)
        (fs : Preprocessor.files) :
  Preprocessor.load_cleaned_data w = Ok df ->
  source_contract df = true ->
  summary_contract df = true ->
  rows df <> [] ->
  writable w export_files ->
  exists out fs',
    Preprocessor.process_all w fs = (Ok out, fs')
    /\ Preprocessor.original_data out = df
    /\ Preprocessor.dimensions out = dimensions_of (Preprocessor.now_year w) df
    /\ Preprocessor.fact_table out = fact_table (Preprocessor.now_year w) df df
    /\ create_summary_tables df = Ok (Preprocessor.summaries out)
    /\ map fst (exported w out) = export_files
    /\ overwritten fs (exported w out) fs'.
Proof.
  intros Hl Hc Hs Hne Hw.
  pose proof (@create_dimension_tables_ok (Preprocessor.now_year w) df
                (source_contract_dimension _ Hc)) as Hd.
  pose proof (@create_fact_table_ok (Preprocessor.now_year w) df df Hc Hc Hne) as Hf.
  destruct (create_summary_tables_total _ Hs) as [sums Hsum].
  destruct (process_all_steps w fs) as [(e & _ & E)|(out & L & D & F & S & N & E)].
  - exfalso. unfold build_fact_table in E. rewrite Hl in E.
    destruct E as [E|(df' & E' & E)]; [discriminate|].
    inversion E'; subst df'. rewrite Hd in E. cbn [bind] in E. rewrite Hf, Hsum in E.
    destruct E as [E|[E|E]]; discriminate.
  - destruct (@write_all_stored w (exported w out) fs) as [fs' Ew].
    { rewrite N. exact Hw. }
    rewrite Ew in E. exists out, fs'.
    destruct (process_all_inv _ _ E) as (_ & _ & _ & _ & _ & O).
    rewrite Hl in L. inversion L as [L']. rewrite <- L' in *.
    rewrite Hd in D. inversion D as [D']. rewrite <- D' in *.
    rewrite Hf in F. inversion F as [F'].
    repeat split; auto.
Qed.

(** X13.  When the loaded table meets the source and the summary contract
    and has a row, and every write to the ten files of the export succeeds,
    [process_all] succeeds: it returns the loaded table, its dimensions, its
    fact table and its summaries, and the output directory then holds these
    tables under their ten file names, the model documentation included;
    every other file of the directory is left as it was. *)
Theorem process_all_exports_what_it_returns (w : Preprocessor.world) (df : DataFrame)
        (fs : Preprocessor.files) :
  Preprocessor.load_cleaned_data w = Ok df ->
  source_contract df = true ->
  summary_contract df = true ->
  rows df <> [] ->
  writable w export_files ->
  exists out fs',
    Preprocessor.process_all w fs = (Ok out, fs')
    /\ Preprocessor.original_data out = df
    /\ Preprocessor.dimensions out = dimensions_of (Preprocessor.now_year w) df
    /\ Preprocessor.fact_table out = fact_table (Preprocessor.now_year w) df df
    /\ create_summary_tables df = Ok (Preprocessor.summaries out)
    /\ map fst (exported w out) = export_files
    /\ overwritten fs (exported w out) fs'.
Proof. apply process_all_ok. Qed.

Lemma process_all_exports_what_it_returns_witness :
  exists out fs',
    Preprocessor.process_all demo_world [] = (Ok out, fs')
    /\ Preprocessor.original_data out = demo
    /\ Preprocessor.dimensions out = dimensions_of 2025 demo
    /\ Preprocessor.fact_table out = fact_table 2025 demo demo
    /\ create_summary_tables demo = Ok (Preprocessor.summaries out)
    /\ map fst (exported demo_world out) = export_files
    /\ overwritten [] (exported demo_world out) fs'.
Proof.
  apply (@process_all_exports_what_it_returns demo_world demo []);
    [reflexivity|reflexivity|reflexivity|discriminate|intros name c _; reflexivity].
Defined.

(** X14.  When [process_all] raises, either one of the four steps before the
    export raised (loading, dimension tables, fact table, summaries) and the
    output directory is as it was, or the four steps succeeded and the
    export stopped at the first of its ten files that could not be written:
    the exception is the one of that write, the files before it in the order
    of the export are in the directory, the file itself is as it was or
    damaged, and the files after it were not touched. *)
Theorem process_all_error_leaves_prefix (w : Preprocessor.world)
        (fs fs' : Preprocessor.files) (e : exn) :
  Preprocessor.process_all w fs = (Raise e, fs') ->
  (fs' = fs
   /\ (Preprocessor.load_cleaned_data w = Raise e
       \/ exists df,
            Preprocessor.load_cleaned_data w = Ok df
            /\ (create_dimension_tables (Preprocessor.now_year w) df = Raise e
                \/ build_fact_table (Preprocessor.now_year w) df df = Raise e
                \/ create_summary_tables df = Raise e)))
  \/ (exists out,
        Preprocessor.load_cleaned_data w = Ok (Preprocessor.original_data out)
        /\ create_dimension_tables (Preprocessor.now_year w) (Preprocessor.original_data out)
           = Ok (Preprocessor.dimensions out)
        /\ create_fact_table (Preprocessor.original_data out) (Preprocessor.dimensions out)
           = Ok (Preprocessor.fact_table out)
        /\ create_summary_tables (Preprocessor.original_data out)
           = Ok (Preprocessor.summaries out)
        /\ map fst (exported w out) = export_files
        /\ stopped_at w e (exported w out) fs fs').
Proof.
  intros H.
  destruct (process_all_steps w fs) as [(e' & E & Hs)|(out & L & D & F & S & N & E)].
  - rewrite E in H. inversion H; subst e' fs'. left. split; [reflexivity|exact Hs].
  - right. exists out. rewrite E in H.
    destruct (write_all_cases w (exported w out) fs)
      as [(fs1 & Ew & _)|(e' & fs1 & Ew & Hp)]; rewrite Ew in H; [discriminate|].
    inversion H; subst e' fs1.
    repeat split; auto. apply Hp. rewrite N. apply export_files_distinct.
Qed.

Lemma process_all_error_leaves_prefix_witness :
  (snd (Preprocessor.process_all full_disk_world []) = []
   /\ (Preprocessor.load_cleaned_data full_disk_world = Raise OSError
       \/ exists df,
            Preprocessor.load_cleaned_data full_disk_world = Ok df
            /\ (create_dimension_tables (Preprocessor.now_year full_disk_world) df
                = Raise OSError
                \/ build_fact_table (Preprocessor.now_year full_disk_world) df df
                   = Raise OSError
                \/ create_summary_tables df = Raise OSError)))
  \/ (exists out,
        Preprocessor.load_cleaned_data full_disk_world
        = Ok (Preprocessor.original_data out)
        /\ create_dimension_tables (Preprocessor.now_year full_disk_world)
                                   (Preprocessor.original_data out)
           = Ok (Preprocessor.dimensions out)
        /\ create_fact_table (Preprocessor.original_data out) (Preprocessor.dimensions out)
           = Ok (Preprocessor.fact_table out)
        /\ create_summary_tables (Preprocessor.original_data out)
           = Ok (Preprocessor.summaries out)
        /\ map fst (exported full_disk_world out) = export_files
        /\ stopped_at full_disk_world OSError (exported full_disk_world out) []
                      (snd (Preprocessor.process_all full_disk_world []))).
Proof.
  apply (@process_all_error_leaves_prefix full_disk_world []
           (snd (Preprocessor.process_all full_disk_world [])) OSError).
  vm_compute. reflexivity.
Defined.

(** On [full_disk_world] the run ends with the [OSError] of the fact file:
    the main table and the four dimensions are in the directory, the fact
    file is damaged, and neither a summary nor the documentation exists. *)
Example full_disk_leaves_half_an_export :
  fst (Preprocessor.process_all full_disk_world []) = Raise OSError
  /\ map fst (snd (Preprocessor.process_all full_disk_world []))
     = [ "agriculture_data_powerbi.csv"; "dim_states.csv"; "dim_crops.csv";
         "dim_seasons.csv"; "dim_dates.csv"; "fact_agriculture.csv" ]
  /\ assoc "fact_agriculture.csv" (snd (Preprocessor.process_all full_disk_world []))
     = Some Preprocessor.damaged.
Proof. repeat split; vm_compute; reflexivity. Qed.

(** On [empty_world] the loaded table has no row: the fact table cannot be
    built (C1), and the run ends before anything is written. *)
Example empty_table_writes_nothing :
  Preprocessor.process_all empty_world [] = (Raise (KeyError "Year"), []).
Proof. vm_compute. reflexivity. Qed.

Lemma length_sorted_years (cs : list cell) :
  length (sorted_years cs) = length (unique cs).
Proof.
  rewrite (Permutation_length (sorted_years_perm cs)). apply length_map.
Qed.

(** X15.  The model documentation written by a run on a table of the
    contracts, when the writes of the export succeed, records, for the fact
    table, the row count of the source table and the ten fact columns; for
    each dimension its labels and the number of distinct values of its
    source column; and the three summaries by name. *)
Theorem model_docs_record_the_tables (w : Preprocessor.world) (df : DataFrame)
        (fs : Preprocessor.files) :
  Preprocessor.load_cleaned_data w = Ok df ->
  source_contract df = true ->
  summary_contract df = true ->
  rows df <> [] ->
  writable w export_files ->
  exists info,
    assoc "data_model_info.json" (snd (Preprocessor.process_all w fs))
    = Some (Preprocessor.json info)
    /\ Preprocessor.fact_table_info info = Preprocessor.mkTableInfo (len df) fact_columns
    /\ Preprocessor.dimensions_info info
       = [ ("states", Preprocessor.mkTableInfo (distinct "State_Name" df)
                                               ["State_ID"; "State_Name"]);
           ("crops", Preprocessor.mkTableInfo (distinct "Crop" df) ["Crop_ID"; "Crop"]);
           ("seasons", Preprocessor.mkTableInfo (distinct "Season" df)
                                                ["Season_ID"; "Season"]);
           ("dates", Preprocessor.mkTableInfo (distinct "Crop_Year" df) date_columns) ]
    /\ map fst (Preprocessor.summary_tables_info info)
       = ["state_summary"; "crop_summary"; "yearly_trends"].
Proof.
  intros Hl Hc Hs Hne Hwr.
  destruct (process_all_ok fs Hl Hc Hs Hne Hwr)
    as (out & fs' & E & Ho & Hd & Hf & Hsum & _ & Hw).
  rewrite E. cbn [snd]. rewrite (Hw "data_model_info.json").
  destruct (create_summary_tables_inv _ Hsum) as (g1 & g2 & g3 & _ & _ & _ & Es).
  destruct out as [o d f s]. cbn [Preprocessor.original_data Preprocessor.dimensions
                                  Preprocessor.fact_table Preprocessor.summaries] in *.
  subst o d f s. unfold dimensions_of. rewrite exported_model_info.
  eexists. split; [reflexivity|].
  cbn [Preprocessor.fact_table_info Preprocessor.dimensions_info
       Preprocessor.summary_tables_info map fst snd].
  split.
  { unfold Preprocessor.describe. rewrite fact_table_len. reflexivity. }
  split; [|reflexivity].
  unfold Preprocessor.describe, surrogate_table, distinct, len. cbn [columns rows].
  rewrite !length_dim_rows.
  unfold dates_dimension. cbn [columns rows]. rewrite length_map, length_sorted_years.
  destruct (sorted_years (column_cells "Crop_Year" df)) eqn:Ey; [|reflexivity].
  exfalso. revert Ey. apply sorted_years_nonempty.
  destruct (source_contract_spec _ Hc) as (_ & Hcols & _).
  assert (Hin : In "Crop_Year" (columns df)) by (apply Hcols; simpl; auto).
  destruct (get_loc_in _ _ Hin) as [i Hi]. rewrite (column_cells_loc _ _ Hi).
  destruct (rows df); [contradiction|discriminate].
Qed.

Lemma model_docs_record_the_tables_witness :
  exists info,
    assoc "data_model_info.json" (snd (Preprocessor.process_all demo_world []))
    = Some (Preprocessor.json info)
    /\ Preprocessor.fact_table_info info = Preprocessor.mkTableInfo (len demo) fact_columns
    /\ Preprocessor.dimensions_info info
       = [ ("states", Preprocessor.mkTableInfo (distinct "State_Name" demo)
                                               ["State_ID"; "State_Name"]);
           ("crops", Preprocessor.mkTableInfo (distinct "Crop" demo) ["Crop_ID"; "Crop"]);
           ("seasons", Preprocessor.mkTableInfo (distinct "Season" demo)
                                                ["Season_ID"; "Season"]);
           ("dates", Preprocessor.mkTableInfo (distinct "Crop_Year" demo) date_columns) ]
    /\ map fst (Preprocessor.summary_tables_info info)
       = ["state_summary"; "crop_summary"; "yearly_trends"].
Proof.
  apply (@model_docs_record_the_tables demo_world demo []);
    [reflexivity|reflexivity|reflexivity|discriminate|intros name c _; reflexivity].
Defined.

(** X16.  Whenever the setup reaches its guide, the guide is accurate: each
    of the nine files it tells the user to import is a CSV file of the
    output directory, and each relationship it names joins a column the fact
    file has with a column the dimension file has. *)
Theorem next_steps_match_export (m : Setup.machine) (w : Preprocessor.world)
        (fs fs' : Preprocessor.files) (found : bool) :
  Setup.main m w fs = (Ok (Setup.next_steps_shown found), fs') ->
  (forall name, In name Setup.files_to_import -> is_csv fs' name)
  /\ (forall col file col', In (col, file, col') Setup.relationships ->
        csv_with_column fs' "fact_agriculture.csv" col
        /\ csv_with_column fs' file col').
Proof.
  unfold Setup.main. intros H.
  destruct (negb (Setup.check_requirements m)); [discriminate|].
  destruct (negb (Setup.in_project_directory m)); [discriminate|].
  unfold seq_bind, Setup.run_data_preparation in H.
  destruct (Preprocessor.process_all (Setup.without_source w) fs) as [[out|e] fs1] eqn:E;
    [|discriminate].
  cbn in H. inversion H; subst fs1. clear H.
  destruct (process_all_inv _ _ E) as (_ & D & F & S & _ & Hw).
  destruct (create_dimension_tables_inv _ _ D) as (s & c & se & d & Ed & Cs & Cc & Cse & Cd).
  destruct (create_summary_tables_inv _ S) as (g1 & g2 & g3 & _ & _ & _ & Es).
  assert (Hdates : dict_get (Preprocessor.dimensions out) "dates" = Ok d).
  { rewrite Ed. reflexivity. }
  destruct (create_fact_table_inv _ _ F Hdates) as [Cf Hy].
  destruct Cd as [Cd|Cd]; [rewrite Cd in Hy; destruct Hy|].
  destruct out as [o dims f su]. cbn [Preprocessor.original_data Preprocessor.dimensions
                                      Preprocessor.fact_table Preprocessor.summaries] in *.
  subst dims su.
  assert (A : forall name table,
             In (name, table)
                [ ("agriculture_data_powerbi.csv", o); ("dim_states.csv", s);
                  ("dim_crops.csv", c); ("dim_seasons.csv", se);
                  ("dim_dates.csv", d);
                  ("fact_agriculture.csv", f);
                  ("state_summary.csv",
                   mkDataFrame state_summary_columns (rows (round_3 g1)));
                  ("crop_summary.csv",
                   mkDataFrame crop_summary_columns (rows (round_3 g2)));
                  ("yearly_trends.csv", round_3 g3) ] ->
             assoc name fs' = Some (Preprocessor.csv table)).
  { intros name table Ha. rewrite (Hw name), (exported_tables (Setup.without_source w) Ha).
    reflexivity. }
  split.
  - intros name Hn. unfold Setup.files_to_import in Hn. simpl in Hn.
    repeat (destruct Hn as [<-|Hn];
            [eexists; apply A; simpl; repeat (first [left; reflexivity|right])|]).
    contradiction.
  - intros col file col' Hr. unfold Setup.relationships in Hr. simpl in Hr.
    assert (Hfact : forall k, In k fact_columns -> csv_with_column fs' "fact_agriculture.csv" k).
    { intros k Hk. exists f. split; [apply A; simpl; auto 10|].
      rewrite Cf. exact Hk. }
    destruct Hr as [Hr|[Hr|[Hr|[Hr|[]]]]]; inversion Hr; subst col file col'; clear Hr;
      (split; [apply Hfact; simpl; auto 10|]).
    + exists s. split; [apply A; simpl; auto 10|]. rewrite Cs. simpl. auto.
    + exists c. split; [apply A; simpl; auto 10|]. rewrite Cc. simpl. auto.
    + exists se. split; [apply A; simpl; auto 10|]. rewrite Cse. simpl. auto.
    + exists d. split; [apply A; simpl; auto 10|]. rewrite Cd. simpl. auto.
Qed.

Lemma next_steps_match_export_witness :
  (forall name, In name Setup.files_to_import
                -> is_csv (snd (Setup.main ready_machine demo_world [])) name)
  /\ (forall col file col', In (col, file, col') Setup.relationships ->
        csv_with_column (snd (Setup.main ready_machine demo_world []))
                        "fact_agriculture.csv" col
        /\ csv_with_column (snd (Setup.main ready_machine demo_world [])) file col').
Proof.
  apply (@next_steps_match_export ready_machine demo_world [] _ true).
  vm_compute. reflexivity.
Defined.
